(** * Batch collection of switch configurations: a model of [main.py]

    The development embeds the Python program function by function.
    Device records are Python dicts, kept in a store of objects so that
    [device.copy()] and [del conn_params[key]] act on locations; the
    remote-shell client (netmiko), the clock, the faults of the file
    system and the spreadsheet reader are an interface the program is run
    against; everything the program prints, logs or asks of a
    collaborator is emitted as an event, in the order of execution.

    What is left out: the text of the messages (an event says which
    message it is and what was formatted into it), the elapsed time that
    [get_switch_config] measures for its log line, buffering of file
    writes, and interrupts other than those the collaborators raise or
    the operator types at a prompt. Paths are POSIX paths. *)

From Stdlib Require Import ZArith String Ascii List Lia.
From stdpp Require Import base option gmap strings list pretty.

Open Scope string_scope.
Open Scope list_scope.

(** ** Python values and dicts *)

(** The values a spreadsheet cell or a dict entry holds here: [None], a
    string, an integer, and the float [nan] pandas puts in an empty cell. *)
Inductive pyval :=
| VNone
| VStr (s : string)
| VInt (z : Z)
| VNaN.

#[global] Instance pyval_eq_dec : EqDecision pyval.
Proof. solve_decision. Defined.

(** [bool(v)]. *)
Definition truthy (v : pyval) : bool :=
  match v with
  | VNone => false
  | VStr s => negb (String.eqb s "")
  | VInt z => negb (z =? 0)%Z
  | VNaN => true
  end.

(** [str(v)], as an f-string field renders it. *)
Definition py_str (v : pyval) : string :=
  match v with
  | VNone => "None"
  | VStr s => s
  | VInt z => pretty z
  | VNaN => "nan"
  end.

Abbreviation dict := (gmap string pyval).
Abbreviation loc := nat.

Definition nl : string := String (ascii_of_nat 10) EmptyString.

(** ** Exceptions *)

Inductive exn :=
| NetMikoTimeoutException
| NetMikoAuthenticationException
| KeyError (k : string)
| TypeError
| EOFError
| OtherException (msg : string)
| KeyboardInterrupt.

(** [isinstance(e, Exception)]: of the above only [KeyboardInterrupt]
    derives from [BaseException] directly. *)
Definition is_Exception (e : exn) : bool :=
  match e with
  | KeyboardInterrupt => false
  | _ => true
  end.

Inductive result (A : Type) :=
| Ok (a : A)
| Raise (e : exn).
Arguments Ok {A} a.
Arguments Raise {A} e.

(** ** Time *)

Record datetime := mk_datetime {
  year : nat; month : nat; day : nat;
  hour : nat; minute : nat; second : nat
}.

Definition pad2 (n : nat) : string :=
  if Nat.ltb n 10 then "0" +:+ pretty n else pretty n.

Definition pad4 (n : nat) : string :=
  if Nat.ltb n 10 then "000" +:+ pretty n
  else if Nat.ltb n 100 then "00" +:+ pretty n
  else if Nat.ltb n 1000 then "0" +:+ pretty n
  else pretty n.

(** [t.strftime('%Y%m%d')] *)
Definition strftime_Ymd (t : datetime) : string :=
  pad4 (year t) +:+ pad2 (month t) +:+ pad2 (day t).

(** [t.strftime('%Y-%m-%d %H:%M:%S')] *)
Definition strftime_full (t : datetime) : string :=
  pad4 (year t) +:+ "-" +:+ pad2 (month t) +:+ "-" +:+ pad2 (day t) +:+ " "
  +:+ pad2 (hour t) +:+ ":" +:+ pad2 (minute t) +:+ ":" +:+ pad2 (second t).

Definition same_day (t1 t2 : datetime) : Prop :=
  year t1 = year t2 /\ month t1 = month t2 /\ day t1 = day t2.

(** ** Spreadsheets *)

(** A pandas DataFrame: its column labels and its rows, every row holding
    one cell per column. *)
Record DataFrame := mk_df {
  columns : list string;
  rows : list (list pyval)
}.

(** [df[c] = v] for a column [c] the frame does not have yet. *)
Definition df_set_column (df : DataFrame) (c : string) (v : pyval) : DataFrame :=
  {| columns := columns df ++ [c];
     rows := map (fun r => r ++ [v]) (rows df) |}.

(** [df.to_dict('records')]: one dict per row, keyed by the column labels
    (which [read_excel] makes distinct). *)
Definition df_to_dict_records (df : DataFrame) : list dict :=
  map (fun r => list_to_map (zip (columns df) r)) (rows df).

(** ** Events *)

Inductive open_mode := ModeA | ModeW.

(** One constructor per message the program formats. *)
Inductive message :=
| MsgMissingColumns (cols : list string)
| MsgLoaded (file_path : string) (n : nat)
| MsgReadFailed (e : exn)
| MsgParams (conn_params : dict)
| MsgExecute (command : string)
| MsgFetched (ip : pyval)
| MsgTimeout (ip : pyval)
| MsgAuthFailed (ip : pyval)
| MsgFetchFailed (ip : pyval) (e : exn)
| MsgSaved (filename : string)
| MsgSaveFailed (e : exn)
| MsgStart
| MsgDashes
| MsgConnecting (ip desc : pyval)
| MsgOk
| MsgFail
| MsgEquals
| MsgTally (success_count total : nat)
| MsgLogFile
| MsgConfigPath (config_path : string)
| MsgStars
| MsgUserExit
| MsgCancelled
| MsgExecuting (input_command : string)
| MsgInterrupted
| MsgNoDevices
| MsgLoadedCount (n : nat)
| MsgDeviceLine (i : nat) (ip device_type : pyval) (desc : string).

(** The three prompts of [input(...)]. *)
Inductive prompt := PromptStart | PromptCommand | PromptProceed.

(** The calls made on the collaborators. *)
Inductive call :=
| CallInput (p : prompt)
| CallReadExcel (file_path : string)
| CallConnectHandler (kwargs : dict)
| CallEnable
| CallSendCommand (command : string)
| CallDisconnect
| CallOpen (file_path : string) (mode : open_mode)
| CallWrite (file_path : string) (data : string)
| CallMkdir (path : string).

Inductive event :=
| Print (m : message)
| LogInfo (m : message)
| LogError (m : message)
| Call (c : call).

(** ** The collaborators *)

(** What the program is run against. Each operation reads and advances a
    world of the collaborator's own; a remote call either returns or
    raises. [os_fault] says whether the operating system refuses an
    [open] or a [mkdir] (permissions, full disk, missing parent). *)
Class Collaborators := {
  World : Type;
  Conn : Type;
  ConnectHandler : dict -> World -> result Conn * World;
  conn_enable : Conn -> World -> result unit * World;
  conn_send_command : Conn -> string -> World -> result string * World;
  conn_disconnect : Conn -> World -> result unit * World;
  datetime_now : World -> datetime * World;
  os_fault : call -> World -> option exn * World;
  pd_read_excel : string -> World -> result DataFrame * World
}.

(** Every failure of a collaborator is an [Exception]: a device or a disk
    that fails, not the operator interrupting the process. *)
Definition device_failures_only (C : Collaborators) : Prop :=
  (forall kw w e, fst (ConnectHandler kw w) = Raise e -> is_Exception e = true) /\
  (forall c w e, fst (conn_enable c w) = Raise e -> is_Exception e = true) /\
  (forall c s w e, fst (conn_send_command c s w) = Raise e -> is_Exception e = true) /\
  (forall c w e, fst (conn_disconnect c w) = Raise e -> is_Exception e = true) /\
  (forall o w e, fst (os_fault o w) = Some e -> is_Exception e = true).

(** ** Strings and paths *)

(** [c.lower()] on ASCII letters; bytes outside [A-Z] are kept. The program
    only compares the result with ['y'], and ['Y'] is the one character
    Python lowers to ['y']. *)
Definition lower_ascii (c : ascii) : ascii :=
  let n := nat_of_ascii c in
  if Nat.leb 65 n && Nat.leb n 90 then ascii_of_nat (n + 32) else c.

Fixpoint str_lower (s : string) : string :=
  match s with
  | EmptyString => EmptyString
  | String c s' => String (lower_ascii c) (str_lower s')
  end.

Definition startswith_sep (s : string) : bool :=
  match s with
  | String c _ => Ascii.eqb c "/"
  | EmptyString => false
  end.

Fixpoint endswith_sep (s : string) : bool :=
  match s with
  | EmptyString => false
  | String c EmptyString => Ascii.eqb c "/"
  | String _ s' => endswith_sep s'
  end.

(** [os.path.join(a, b)] of [posixpath]. *)
Definition os_path_join (a b : string) : string :=
  if startswith_sep b then b
  else if String.eqb a "" || endswith_sep a then a +:+ b
  else a +:+ "/" +:+ b.

(** ** get_config_command *)

(** The entries of the dict literal [commands], in the order written. *)
Definition command_table : list (string * string) :=
  [ ("cisco_ios", "show running-config");
    ("cisco_nxos", "show running-config");
    ("huawei", "display current-configuration");
    ("h3c", "display current-configuration");
    ("hp_comware", "display current-configuration");
    ("juniper_junos", "show configuration");
    ("arista_eos", "show running-config");
    ("fortinet", "show full-configuration");
    ("paloalto_panos", "show configuration running") ].

Definition commands : gmap string string := list_to_map command_table.

(** [commands.get(device_type, 'show running-config')]; a key that is not
    a string equals none of the dict's keys. *)
Definition get_config_command (device_type : pyval) : string :=
  match device_type with
  | VStr k => default "show running-config" (commands !! k)
  | _ => "show running-config"
  end.

(** ** The program state and its monad *)

Section Program.
Context {C : Collaborators}.

(** [heap] holds the dict objects; [files] the content of every regular
    file, [dirs] the directories. *)
Record state := mk_state {
  world : World;
  heap : gmap loc dict;
  files : gmap string string;
  dirs : gset string
}.

Definition with_world (s : state) (w : World) : state :=
  {| world := w; heap := heap s; files := files s; dirs := dirs s |}.

Definition with_heap (s : state) (h : gmap loc dict) : state :=
  {| world := world s; heap := h; files := files s; dirs := dirs s |}.

Definition with_files (s : state) (fs : gmap string string) : state :=
  {| world := world s; heap := heap s; files := fs; dirs := dirs s |}.

Definition with_dirs (s : state) (ds : gset string) : state :=
  {| world := world s; heap := heap s; files := files s; dirs := ds |}.

(** A computation runs from a state to a result or an exception, the
    events it emitted in order, and the state it left. An exception keeps
    the effects that happened before it. *)
Definition M (A : Type) : Type := state -> result A * list event * state.

Definition ret {A} (a : A) : M A := fun s => (Ok a, [], s).

Definition raise {A} (e : exn) : M A := fun s => (Raise e, [], s).

Definition bind {A B} (m : M A) (k : A -> M B) : M B :=
  fun s =>
    match m s with
    | (Ok a, ev, s1) =>
        match k a s1 with
        | (r, ev', s2) => (r, ev ++ ev', s2)
        end
    | (Raise e, ev, s1) => (Raise e, ev, s1)
    end.

(** [try: m  except ...: h e]; the handler re-raises what no clause
    matches. *)
Definition try_except {A} (m : M A) (h : exn -> M A) : M A :=
  fun s =>
    match m s with
    | (Ok a, ev, s1) => (Ok a, ev, s1)
    | (Raise e, ev, s1) =>
        match h e s1 with
        | (r, ev', s2) => (r, ev ++ ev', s2)
        end
    end.

Definition emit (e : event) : M unit := fun s => (Ok tt, [e], s).

Definition print (m : message) : M unit := emit (Print m).
Definition logger_info (m : message) : M unit := emit (LogInfo m).
Definition logger_error (m : message) : M unit := emit (LogError m).

(** A call on a collaborator: logged, then answered by the world. *)
Definition remote {A} (c : call) (f : World -> result A * World) : M A :=
  fun s =>
    match f (world s) with
    | (r, w) => (r, [Call c], with_world s w)
    end.

End Program.

Notation "x <- m ;; k" := (bind m (fun x => k))
  (at level 100, m at next level, right associativity, only parsing).
Notation "m ;;; k" := (bind m (fun _ => k))
  (at level 100, right associativity, only parsing).

Section Code.
Context {C : Collaborators}.

(** ** Dict objects *)

(** The dict at a reference. Objects are never freed, so a reference the
    program holds is always allocated; a location outside the store reads
    as the empty dict. *)
Definition deref (l : loc) : M dict :=
  fun s => (Ok (default ∅ (heap s !! l)), [], s).

Definition alloc (d : dict) : M loc :=
  fun s =>
    let l := fresh (dom (heap s)) in
    (Ok l, [], with_heap s (<[l := d]> (heap s))).

Definition store (l : loc) (d : dict) : M unit :=
  fun s => (Ok tt, [], with_heap s (<[l := d]> (heap s))).

(** [d.copy()] *)
Definition dict_copy (l : loc) : M loc :=
  d <- deref l ;; alloc d.

(** [key in d] *)
Definition dict_contains (l : loc) (key : string) : M bool :=
  d <- deref l ;; ret (bool_decide (is_Some (d !! key))).

(** [del d[key]] *)
Definition dict_del (l : loc) (key : string) : M unit :=
  d <- deref l ;;
  match d !! key with
  | Some _ => store l (delete key d)
  | None => raise (KeyError key)
  end.

(** [d[key]] *)
Definition dict_getitem (l : loc) (key : string) : M pyval :=
  d <- deref l ;;
  match d !! key with
  | Some v => ret v
  | None => raise (KeyError key)
  end.

(** [d.get(key, dflt)] *)
Definition dict_get (l : loc) (key : string) (dflt : pyval) : M pyval :=
  d <- deref l ;; ret (default dflt (d !! key)).

Fixpoint alloc_all (ds : list dict) : M (list loc) :=
  match ds with
  | [] => ret []
  | d :: ds' => l <- alloc d ;; ls <- alloc_all ds' ;; ret (l :: ls)
  end.

(** ** Files *)

(** [os.path.exists(p)] *)
Definition os_path_exists (p : string) : M bool :=
  fun s => (Ok (bool_decide (is_Some (files s !! p)) || bool_decide (p ∈ dirs s)), [], s).

Definition set_files (f : gmap string string -> gmap string string) : M unit :=
  fun s => (Ok tt, [], with_files s (f (files s))).

Definition set_dirs (f : gset string -> gset string) : M unit :=
  fun s => (Ok tt, [], with_dirs s (f (dirs s))).

Definition is_dir (p : string) : M bool :=
  fun s => (Ok (bool_decide (p ∈ dirs s)), [], s).

(** What the operating system answers to a request: refused with an
    exception, or let through. *)
Definition os_request (c : call) : M unit :=
  o <- remote c (fun w => match os_fault c w with (o, w') => (Ok o, w') end) ;;
  match o with
  | Some e => raise e
  | None => ret tt
  end.

(** [open(p, mode, encoding='utf-8')]: a directory cannot be opened; ['w']
    empties the file, ['a'] keeps it and creates it when it is missing. *)
Definition open_file (p : string) (mode : open_mode) : M unit :=
  os_request (CallOpen p mode) ;;;
  d <- is_dir p ;;
  if d then raise (OtherException "IsADirectoryError")
  else
    match mode with
    | ModeW => set_files (fun fs => <[p := ""]> fs)
    | ModeA => set_files (fun fs => <[p := default "" (fs !! p)]> fs)
    end.

(** [f.write(data)], at the end of the file. *)
Definition file_write (p : string) (data : string) : M unit :=
  emit (Call (CallWrite p data)) ;;;
  set_files (fun fs => <[p := default "" (fs !! p) +:+ data]> fs).

(** [os.mkdir(p)] *)
Definition os_mkdir (p : string) : M unit :=
  os_request (CallMkdir p) ;;;
  ex <- os_path_exists p ;;
  if ex then raise (OtherException "FileExistsError")
  else set_dirs (fun ds => {[p]} ∪ ds).

Definition now : M datetime :=
  fun s =>
    match datetime_now (world s) with
    | (t, w) => (Ok t, [], with_world s w)
    end.

(** [config + "\n"]: a [TypeError] unless [config] is a string. *)
Definition py_add_str (v : pyval) (s : string) : M string :=
  match v with
  | VStr x => ret (x +:+ s)
  | _ => raise TypeError
  end.

(** ** load_devices_from_excel_conf *)

Definition required_columns : list string :=
  ["ip"; "port"; "device_type"; "username"; "password"].

Definition in_columns (c : string) (df : DataFrame) : bool :=
  bool_decide (c ∈ columns df).

Definition default_column (c : string) (v : pyval) (df : DataFrame) : DataFrame :=
  if in_columns c df then df else df_set_column df c v.

Definition handle_Exception {A} (h : exn -> M A) (e : exn) : M A :=
  if is_Exception e then h e else raise e.

Definition load_devices_from_excel_conf (file_path : string) : M (list loc) :=
  try_except
    (df <- remote (CallReadExcel file_path) (pd_read_excel file_path) ;;
     let missing_cols :=
       List.filter (fun col => negb (in_columns col df)) required_columns in
     match missing_cols with
     | _ :: _ =>
         logger_error (MsgMissingColumns missing_cols) ;;;
         ret []
     | [] =>
         let df := default_column "port" (VInt 22) df in
         let df := default_column "secret" VNone df in
         let df := default_column "description" (VStr "") df in
         devices <- alloc_all (df_to_dict_records df) ;;
         logger_info (MsgLoaded file_path (length devices)) ;;;
         ret devices
     end)
    (handle_Exception (fun e =>
       logger_error (MsgReadFailed e) ;;;
       ret [])).

(** ** get_switch_config *)

(** [with mgr as conn: body]: [__exit__] (netmiko's [disconnect]) runs on
    every way out of the body; what it raises replaces the body's result. *)
Definition with_exit {A} (body : M A) (exit : M unit) : M A :=
  fun s =>
    match body s with
    | (r, ev, s1) =>
        match exit s1 with
        | (Ok _, ev', s2) => (r, ev ++ ev', s2)
        | (Raise e, ev', s2) => (Raise e, ev ++ ev', s2)
        end
    end.

Definition with_ConnectHandler {A} (kwargs : dict) (body : Conn -> M A) : M A :=
  conn <- remote (CallConnectHandler kwargs) (ConnectHandler kwargs) ;;
  with_exit (body conn) (remote CallDisconnect (conn_disconnect conn)).

(** [input_command if input_command else get_config_command(...)] *)
Definition choose_command (conn_params : loc) (input_command : option string) : M string :=
  match input_command with
  | Some c =>
      if String.eqb c "" then
        dt <- dict_getitem conn_params "device_type" ;; ret (get_config_command dt)
      else ret c
  | None =>
      dt <- dict_getitem conn_params "device_type" ;; ret (get_config_command dt)
  end.

(** Lines 69-75: the working copy of the device dict, shown, then
    without the fields netmiko does not take. *)
Definition copy_conn_params (device : loc) : M loc :=
  conn_params <- dict_copy device ;;
  shown <- deref conn_params ;;
  print (MsgParams shown) ;;;
  has <- dict_contains conn_params "description" ;;
  (if has then dict_del conn_params "description" else ret tt) ;;;
  ret conn_params.

(** Lines 79-90: the body of the [with]. [delay_factor=2] concerns the
    collaborator only; the duration in the last log line is left out. *)
Definition in_session (device conn_params : loc) (input_command : option string)
    (conn : Conn) : M (pyval * pyval) :=
  secret <- dict_get conn_params "secret" VNone ;;
  (if truthy secret then remote CallEnable (conn_enable conn) else ret tt) ;;;
  command <- choose_command conn_params input_command ;;
  logger_info (MsgExecute command) ;;;
  output <- remote (CallSendCommand command) (conn_send_command conn command) ;;
  ip <- dict_getitem device "ip" ;;
  logger_info (MsgFetched ip) ;;;
  ret (VStr command, VStr output).

(** Lines 92-102: the three [except] clauses, then [return None, None]. *)
Definition on_exception (device : loc) (e : exn) : M (pyval * pyval) :=
  match e with
  | NetMikoTimeoutException =>
      ip <- dict_getitem device "ip" ;;
      print (MsgTimeout ip) ;;;
      ip <- dict_getitem device "ip" ;;
      logger_error (MsgTimeout ip) ;;;
      ret (VNone, VNone)
  | NetMikoAuthenticationException =>
      ip <- dict_getitem device "ip" ;;
      print (MsgAuthFailed ip) ;;;
      ip <- dict_getitem device "ip" ;;
      logger_error (MsgAuthFailed ip) ;;;
      ret (VNone, VNone)
  | KeyboardInterrupt => raise e
  | _ =>
      ip <- dict_getitem device "ip" ;;
      print (MsgFetchFailed ip e) ;;;
      ip <- dict_getitem device "ip" ;;
      logger_error (MsgFetchFailed ip e) ;;;
      ret (VNone, VNone)
  end.

(** Lines 77-90: the [with] statement. *)
Definition connect_and_collect (device conn_params : loc)
    (input_command : option string) : M (pyval * pyval) :=
  kwargs <- deref conn_params ;;
  with_ConnectHandler kwargs (in_session device conn_params input_command).

Definition get_switch_config (device : loc) (input_command : option string)
  : M (pyval * pyval) :=
  try_except
    (conn_params <- copy_conn_params device ;;
     connect_and_collect device conn_params input_command)
    (on_exception device).

(** ** save_config_to_file *)

Definition delimiter : string :=
  "## --=========================================================--".

Definition archive_filename (ip : pyval) (op_time : datetime) : string :=
  py_str ip +:+ "_" +:+ strftime_Ymd op_time +:+ ".txt".

Definition archive_header (op_time : datetime) (command : pyval) : string :=
  "# " +:+ strftime_full op_time +:+ " " +:+ py_str command.

Definition save_config_to_file (ip command config : pyval) (output_dir : string)
  : M (option string) :=
  try_except
    (op_time <- now ;;
     let filename := archive_filename ip op_time in
     let file_path := os_path_join output_dir filename in
     let content := archive_header op_time command in
     ex <- os_path_exists file_path ;;
     open_file file_path (if ex then ModeA else ModeW) ;;;
     file_write file_path (content +:+ nl) ;;;
     body <- py_add_str config nl ;;
     file_write file_path body ;;;
     file_write file_path (delimiter +:+ nl) ;;;
     logger_info (MsgSaved filename) ;;;
     ret (Some file_path))
    (handle_Exception (fun e =>
       logger_error (MsgSaveFailed e) ;;;
       ret None)).

(** ** process_connection *)

(** One turn of [for device in devices]; returns the new [success_count]. *)
Definition process_device (output_dir : string) (input_command : option string)
    (success_count : nat) (device : loc) : M nat :=
  ip <- dict_getitem device "ip" ;;
  desc <- dict_get device "description" (VStr "") ;;
  print (MsgConnecting ip desc) ;;;
  r <- get_switch_config device input_command ;;
  let '(command, config) := r in
  if truthy config then
    save_config_to_file ip command config output_dir ;;;
    print MsgOk ;;;
    ret (S success_count)
  else
    print MsgFail ;;;
    ret success_count.

Fixpoint for_devices (output_dir : string) (input_command : option string)
    (devices : list loc) (success_count : nat) : M nat :=
  match devices with
  | [] => ret success_count
  | device :: rest =>
      success_count <- process_device output_dir input_command success_count device ;;
      for_devices output_dir input_command rest success_count
  end.

Definition process_connection (devices : list loc) (output_dir : string)
    (input_command : option string) : M nat :=
  print MsgStart ;;;
  print MsgDashes ;;;
  success_count <- for_devices output_dir input_command devices 0 ;;
  print MsgEquals ;;;
  ret success_count.

(** ** print_log *)

Definition print_log (success_count : nat) (devices : list loc)
    (is_from_config_file : bool) : M unit :=
  print (MsgTally success_count (length devices)) ;;;
  print MsgLogFile ;;;
  let config_path :=
    if is_from_config_file then "config_storage/normal" else "config_storage/other" in
  print (MsgConfigPath config_path) ;;;
  print MsgStars.

(** ** execute_other_command *)

(** What the operator does at a prompt: types a line, or interrupts. A
    prompt that finds no key left meets the end of the input. *)
Inductive key :=
| Line (s : string)
| CtrlC.

(** [input(prompt)] answered by [k]. *)
Definition input (p : prompt) (k : key) : M string :=
  emit (Call (CallInput p)) ;;;
  match k with
  | Line s => ret s
  | CtrlC => raise KeyboardInterrupt
  end.

(** The loop waits in two places: at the prompt for a command (line 213)
    and at the prompt for the confirmation (line 219), the command read
    before being kept in [input_command]. [break] leads to [Stopped]. *)
Inductive loop_state :=
| AwaitingCommand
| AwaitingConfirmation (input_command : string)
| Stopped.

Definition other_dir : string := os_path_join "config_storage" "other".

(** [if not os.path.exists(p): os.mkdir(p)] *)
Definition ensure_dir (p : string) : M unit :=
  ex <- os_path_exists p ;;
  if negb ex then os_mkdir p else ret tt.

(** From one prompt, answered by [k], to the next prompt or out of the
    loop; the [try] of the loop body encloses all of it. *)
Definition loop_step (devices : list loc) (st : loop_state) (k : key) : M loop_state :=
  try_except
    (match st with
     | AwaitingCommand =>
         input_command <- input PromptCommand k ;;
         if String.eqb input_command "exit" then
           logger_info MsgUserExit ;;;
           ret Stopped
         else ret (AwaitingConfirmation input_command)
     | AwaitingConfirmation input_command =>
         answer <- input PromptProceed k ;;
         let proceed := str_lower answer in
         if negb (String.eqb proceed "y") then
           print MsgCancelled ;;;
           ret Stopped
         else
           print (MsgExecuting input_command) ;;;
           ensure_dir other_dir ;;;
           success_count <- process_connection devices other_dir (Some input_command) ;;
           print_log success_count devices false ;;;
           ret AwaitingCommand
     | Stopped => ret Stopped
     end)
    (fun e =>
       match e with
       | KeyboardInterrupt =>
           print MsgInterrupted ;;;
           ret Stopped
       | _ => raise e
       end).

Fixpoint run_loop (devices : list loc) (st : loop_state) (keys : list key) : M unit :=
  match st with
  | Stopped => ret tt
  | _ =>
      match keys with
      | [] => emit (Call (CallInput
                (match st with AwaitingCommand => PromptCommand | _ => PromptProceed end))) ;;;
              raise EOFError
      | k :: keys' =>
          st' <- loop_step devices st k ;;
          run_loop devices st' keys'
      end
  end.

Definition execute_other_command (devices : list loc) (keys : list key) : M unit :=
  run_loop devices AwaitingCommand keys.

(** ** main *)

Fixpoint print_devices (i : nat) (devices : list loc) : M unit :=
  match devices with
  | [] => ret tt
  | device :: rest =>
      d <- dict_get device "description" VNone ;;
      desc <- (if truthy d then
                 d' <- dict_get device "description" (VStr "") ;;
                 ret (" (" +:+ py_str d' +:+ ")")
               else ret "") ;;
      ip <- dict_getitem device "ip" ;;
      dt <- dict_getitem device "device_type" ;;
      print (MsgDeviceLine i ip dt desc) ;;;
      print_devices (S i) rest
  end.

Definition normal_path : string := os_path_join "config_storage" "normal".

Definition main (keys : list key) : M unit :=
  devices <- load_devices_from_excel_conf "switch_ssh_conf.xlsx" ;;
  match devices with
  | [] => print MsgNoDevices
  | _ :: _ =>
      print (MsgLoadedCount (length devices)) ;;;
      print_devices 1 devices ;;;
      match keys with
      | [] => emit (Call (CallInput PromptStart)) ;;; raise EOFError
      | k :: keys' =>
          answer <- input PromptStart k ;;
          let proceed := str_lower answer in
          if negb (String.eqb proceed "y") then print MsgCancelled
          else
            ensure_dir normal_path ;;;
            success_count <- process_connection devices normal_path None ;;
            print_log success_count devices true ;;;
            execute_other_command devices keys'
      end
  end.

End Code.

(** ** What a run shows *)

(** The events that tell the course of a pass: a device is announced, a
    session to it is asked for, its verdict is printed. *)
Inductive mark :=
| Attempt (ip : pyval)
| Session (kwargs : dict)
| Verdict (ok : bool).

Definition mark_of (e : event) : option mark :=
  match e with
  | Print (MsgConnecting ip _) => Some (Attempt ip)
  | Call (CallConnectHandler kw) => Some (Session kw)
  | Print MsgOk => Some (Verdict true)
  | Print MsgFail => Some (Verdict false)
  | _ => None
  end.

Definition marks (ev : list event) : list mark := omap mark_of ev.

(** What the pass shows of one device. *)
Record outcome := mk_outcome {
  host : pyval;
  params : dict;
  succeeded : bool
}.

Definition shown (o : outcome) : list mark :=
  [Attempt (host o); Session (params o); Verdict (succeeded o)].

(** The failure a collection logs, by the [except] clause that logged it. *)
Inductive error_kind :=
| Timeout
| AuthFailure
| Other (e : exn).

Definition error_of (e : event) : option error_kind :=
  match e with
  | LogError (MsgTimeout _) => Some Timeout
  | LogError (MsgAuthFailed _) => Some AuthFailure
  | LogError (MsgFetchFailed _ e) => Some (Other e)
  | _ => None
  end.

Definition errors (ev : list event) : list error_kind := omap error_of ev.

(** The calls on an open session, and the calls on the archive. *)
Definition session_call (e : event) : bool :=
  match e with
  | Call CallEnable | Call (CallSendCommand _) => true
  | _ => false
  end.

Definition archive_call (e : event) : bool :=
  match e with
  | Call (CallOpen _ _) | Call (CallWrite _ _) => true
  | _ => false
  end.

(** A pass was started: its banner was printed. *)
Definition pass_started (ev : list event) : bool :=
  existsb (fun e => match e with Print MsgStart => true | _ => false end) ev.

(** Events that are no mark of the pass and no call on the archive. *)
Definition quiet (e : event) : Prop :=
  mark_of e = None /\ archive_call e = false.

(** Quiet events that log no collection error either. *)
Definition calm (e : event) : Prop :=
  quiet e /\ error_of e = None.

(** Events that are no mark of the pass. *)
Definition unmarked (e : event) : Prop := mark_of e = None.

(** Two ways a computation may leave the state: only the world of the
    collaborators has moved, or at least the store of dicts is as it was. *)
Definition world_moved `{C : Collaborators} (s s' : state) : Prop :=
  exists w, s' = with_world s w.

Definition heap_kept `{C : Collaborators} (s s' : state) : Prop :=
  heap s' = heap s.

(** [m] emits only events of class [P] and leaves the state within [F]. *)
Definition emits `{C : Collaborators} {A}
    (F : state -> state -> Prop) (P : event -> Prop) (m : M A) : Prop :=
  forall s, Forall P (m s).1.2 /\ F s (m s).2.

(** The relations [emits] composes along: a preorder that lets the world
    of the collaborators move. *)
Class Frame `{C : Collaborators} (F : state -> state -> Prop) := {
  frame_refl : forall s, F s s;
  frame_trans : forall s1 s2 s3, F s1 s2 -> F s2 s3 -> F s1 s3;
  frame_world : forall s w, F s (with_world s w)
}.

(** [m] returns a value in [R] or raises an [Exception]; it never lets an
    interrupt through. *)
Definition safe `{C : Collaborators} {A} (R : A -> Prop) (m : M A) : Prop :=
  forall s, match (m s).1.1 with
            | Ok a => R a
            | Raise e => is_Exception e = true
            end.

(** What a collection that succeeded returns: the command and its output. *)
Definition collected (r : pyval * pyval) : Prop :=
  exists cmd out, r = (VStr cmd, VStr out).

(** The state a collection leaves: the working copy added to the store. *)
Definition after_copy `{C : Collaborators} (s : state) (dv : dict) : state :=
  with_heap s (<[fresh (dom (heap s)) := delete "description" dv]> (heap s)).

(** One block of the archive: the header line, the output, the delimiter
    line. *)
Definition archive_block (op_time : datetime) (command : pyval) (output : string)
  : string :=
  (archive_header op_time command +:+ nl) +:+ (output +:+ nl) +:+ (delimiter +:+ nl).

(** The mode [save_config_to_file] opens [p] with. *)
Definition mode_for `{C : Collaborators} (s : state) (p : string) : open_mode :=
  if bool_decide (is_Some (files s !! p)) || bool_decide (p ∈ dirs s)
  then ModeA else ModeW.

(** Every row of the frame has one cell per column. *)
Definition frame_complete (df : DataFrame) : Prop :=
  Forall (fun r => length r = length (columns df)) (rows df).

(** The dict a device reference holds names a host. *)
Definition has_host `{C : Collaborators} (s : state) (device : loc) : Prop :=
  exists dv, heap s !! device = Some dv /\ is_Some (dv !! "ip").

(** [o] is what a pass started in [s] shows of [device]: its host, and a
    session asked for with the device's fields but the description. *)
Definition outcome_of `{C : Collaborators} (s : state) (device : loc) (o : outcome) : Prop :=
  exists dv, heap s !! device = Some dv /\
             dv !! "ip" = Some (host o) /\
             params o = delete "description" dv.

(** ** A laboratory of collaborators

    A small network to run the program on: the device at 10.0.0.1 never
    answers, 10.0.0.2 rejects the credentials, 10.0.0.3 answers every
    command with nothing, every other device returns its configuration;
    a session asked for with a [description] is refused, as netmiko
    refuses an argument it does not know.
    The clock advances one second per reading, the disk refuses every
    [open] while [disk_full] is set, and [workbook] is what reading the
    spreadsheet gives. *)
Module Lab.

Record lab_world := mk_lab {
  clock : datetime;
  disk_full : bool;
  workbook : result DataFrame
}.

Definition lab_connect (kw : dict) (w : lab_world) : result dict * lab_world :=
  if decide (kw !! "ip" = Some (VStr "10.0.0.1")) then (Raise NetMikoTimeoutException, w)
  else if decide (kw !! "ip" = Some (VStr "10.0.0.2")) then
    (Raise NetMikoAuthenticationException, w)
  else if decide (kw !! "ip" = None) then (Raise (KeyError "ip"), w)
  else if decide (kw !! "description" = None) then (Ok kw, w)
  else (Raise TypeError, w).

Definition lab_send (conn : dict) (command : string) (w : lab_world)
  : result string * lab_world :=
  if decide (conn !! "ip" = Some (VStr "10.0.0.3")) then (Ok "", w)
  else
    (Ok ("hostname " +:+ py_str (default VNone (conn !! "ip")) +:+ nl +:+ "! " +:+ command),
     w).

Definition lab_now (w : lab_world) : datetime * lab_world :=
  let t := clock w in
  (t, {| clock := {| year := year t; month := month t; day := day t;
                     hour := hour t; minute := minute t; second := S (second t) |};
         disk_full := disk_full w;
         workbook := workbook w |}).

Definition lab_fault (c : call) (w : lab_world) : option exn * lab_world :=
  match c with
  | CallOpen _ _ =>
      if disk_full w then (Some (OtherException "No space left on device"), w)
      else (None, w)
  | _ => (None, w)
  end.

Definition sheet : DataFrame :=
  {| columns := ["ip"; "port"; "device_type"; "username"; "password"; "description"];
     rows := [ [VStr "10.0.0.1"; VInt 22; VStr "cisco_ios"; VStr "admin"; VStr "pw"; VStr "core"];
               [VStr "10.0.0.7"; VInt 22; VStr "huawei"; VStr "admin"; VStr "pw"; VStr "edge"] ] |}.

#[global] Instance lab : Collaborators := {|
  World := lab_world;
  Conn := dict;
  ConnectHandler := lab_connect;
  conn_enable := fun _ w => (Ok tt, w);
  conn_send_command := lab_send;
  conn_disconnect := fun _ w => (Ok tt, w);
  datetime_now := lab_now;
  os_fault := lab_fault;
  pd_read_excel := fun _ w => (workbook w, w)
|}.

Definition noon : datetime :=
  {| year := 2024; month := 3; day := 9; hour := 12; minute := 0; second := 0 |}.

Definition device (ip : string) (device_type : string) : dict :=
  {[ "ip" := VStr ip; "port" := VInt 22; "device_type" := VStr device_type;
     "username" := VStr "admin"; "password" := VStr "pw";
     "description" := VStr "rack 4" ]}.

(** The sheet without its [port] column, and the sheet with the column
    but an empty cell in it. *)
Definition sheet_without_port : DataFrame :=
  {| columns := ["ip"; "device_type"; "username"; "password"; "description"];
     rows := [ [VStr "10.0.0.1"; VStr "cisco_ios"; VStr "admin"; VStr "pw"; VStr "core"];
               [VStr "10.0.0.7"; VStr "huawei"; VStr "admin"; VStr "pw"; VStr "edge"] ] |}.

Definition sheet_with_empty_port : DataFrame :=
  {| columns := ["ip"; "port"; "device_type"; "username"; "password"];
     rows := [ [VStr "10.0.0.7"; VNaN; VStr "huawei"; VStr "admin"; VStr "pw"] ] |}.

(** Three devices in the store: one that times out, one that answers,
    one that answers with nothing. *)
Definition start_with (full : bool) (wb : result DataFrame) : state :=
  {| world := {| clock := noon; disk_full := full; workbook := wb |};
     heap := {[ 0 := device "10.0.0.1" "cisco_ios";
                1 := device "10.0.0.7" "huawei";
                2 := device "10.0.0.3" "made_up_os" ]};
     files := ∅;
     dirs := {[ "config_storage"; "config_storage/normal" ]} |}.

Definition start (full : bool) : state := start_with full (Ok sheet).

(** A process that has just started: nothing in the store yet. *)
Definition boot (wb : result DataFrame) : state :=
  {| world := {| clock := noon; disk_full := false; workbook := wb |};
     heap := ∅;
     files := ∅;
     dirs := {[ "config_storage" ]} |}.

End Lab.

(** ** More to observe *)

(** The message an [except] clause of [get_switch_config] prints and
    logs for the exception it caught, and the kind it is filed under. *)
Definition failure_message (e : exn) (ip : pyval) : message :=
  match e with
  | NetMikoTimeoutException => MsgTimeout ip
  | NetMikoAuthenticationException => MsgAuthFailed ip
  | _ => MsgFetchFailed ip e
  end.

Definition kind_of (e : exn) : error_kind :=
  match e with
  | NetMikoTimeoutException => Timeout
  | NetMikoAuthenticationException => AuthFailure
  | _ => Other e
  end.

(** The calls of a run, in order. *)
Definition call_of (e : event) : option call :=
  match e with
  | Call c => Some c
  | _ => None
  end.

Definition calls (ev : list event) : list call := omap call_of ev.

(** The command a collection runs on a session opened with [kw]: the
    caller's unless it is missing or empty, then the one for the device
    type; none when that is needed and [kw] has no device type. *)
Definition chosen (input_command : option string) (kw : dict) : option string :=
  match input_command with
  | Some c =>
      if String.eqb c "" then get_config_command <$> kw !! "device_type" else Some c
  | None => get_config_command <$> kw !! "device_type"
  end.


(** [get_switch_config] escalates when [bool(secret)] holds. *)
Definition escalates (dv : dict) : bool := truthy (default VNone (dv !! "secret")).

(** The body of the [with] once escalation is behind it: [w2] is the
    world after [enable] returned, or the world as it was when there was
    nothing to escalate. *)
Definition escalated `{C : Collaborators} (dv : dict) (conn : Conn) (w1 w2 : World) : Prop :=
  (escalates dv = false /\ w2 = w1) \/
  (escalates dv = true /\ conn_enable conn w1 = (Ok tt, w2)).

(** The dict the loader makes of a row: the cells under their column
    labels, then [secret] and [description] where the sheet has no such
    column. *)
Definition record_of (df : DataFrame) (r : list pyval) : dict :=
  list_to_map (zip (columns df) r) ∪ {[ "secret" := VNone ]} ∪ {[ "description" := VStr "" ]}.

(** The required columns the frame does not have, in the order the
    loader lists them. *)
Definition missing_columns (df : DataFrame) : list string :=
  List.filter (fun col => negb (in_columns col df)) required_columns.

(** The line [main] prints for the [i]-th device, a dict [dv]; the
    description goes in brackets when there is one. *)
Definition device_line (i : nat) (dv : dict) : event :=
  Print (MsgDeviceLine i (default VNone (dv !! "ip")) (default VNone (dv !! "device_type"))
           (if truthy (default VNone (dv !! "description"))
            then " (" +:+ py_str (default (VStr "") (dv !! "description")) +:+ ")"
            else "")).

(** The verdicts of success a run printed. *)
Definition successes (ev : list event) : nat :=
  length (List.filter (fun e => match e with Print MsgOk => true | _ => false end) ev).

(** [m] returns a value in [R] or raises an exception in [E]. *)
Definition yields `{C : Collaborators} {A}
    (R : A -> Prop) (E : exn -> Prop) (m : M A) : Prop :=
  forall s, match (m s).1.1 with
            | Ok a => R a
            | Raise e => E e
            end.

(** What can end a pass early. *)
Definition ends_pass (e : exn) : Prop :=
  e = KeyboardInterrupt \/ e = KeyError "ip".

(** Nothing is lost from [s] to [s']: every dict of the store is as it
    was, every file still starts with what it held, every directory is
    still there. *)
Definition store_kept `{C : Collaborators} (s s' : state) : Prop :=
  forall l : loc, is_Some (heap s !! l) -> heap s' !! l = heap s !! l.

Definition appended `{C : Collaborators} (s s' : state) : Prop :=
  forall p c, files s !! p = Some c -> exists x, files s' !! p = Some (c +:+ x).

Definition preserved `{C : Collaborators} (s s' : state) : Prop :=
  store_kept s s' /\ appended s s' /\ dirs s ⊆ dirs s'.

(** Events that are no verdict of the pass. *)
Definition no_verdict (e : event) : Prop :=
  match e with
  | Print MsgOk | Print MsgFail => False
  | _ => True
  end.

(** [emits] at one state. *)
Definition emits_at `{C : Collaborators} {A}
    (F : state -> state -> Prop) (P : event -> Prop) (m : M A) (s : state) : Prop :=
  Forall P (m s).1.2 /\ F s (m s).2.

(** A date of a year of four digits, as the clock gives today. *)
Definition real_date (t : datetime) : Prop :=
  (10 * 100 <= year t < 100 * 100) /\ (1 <= month t <= 12) /\ (1 <= day t <= 31).

(** The number a string of decimal digits writes. *)
Definition digits (s : string) : N :=
  fold_left (fun acc c => 10 * acc + (N_of_ascii c - 48))%N (list_ascii_of_string s) 0%N.

(** ** A scripted collaborator

    Collaborators that answer as their world says, whatever they are
    asked: to script a failure at any step of a collection. *)
Module Desk.

Record script := mk_script {
  on_connect : result unit;
  on_enable : result unit;
  on_send : result string;
  on_disconnect : result unit;
  on_open : option exn;
  on_read : result DataFrame;
  today : datetime
}.

Definition desk : Collaborators := {|
  World := script;
  Conn := unit;
  ConnectHandler := fun _ w => (on_connect w, w);
  conn_enable := fun _ w => (on_enable w, w);
  conn_send_command := fun _ _ w => (on_send w, w);
  conn_disconnect := fun _ w => (on_disconnect w, w);
  datetime_now := fun w => (today w, w);
  os_fault := fun c w =>
    (match c with CallOpen _ _ => on_open w | _ => None end, w);
  pd_read_excel := fun _ w => (on_read w, w)
|}.

(** Everything goes well. *)
Definition calm_day : script :=
  {| on_connect := Ok tt; on_enable := Ok tt; on_send := Ok "hostname sw";
     on_disconnect := Ok tt; on_open := None; on_read := Ok Lab.sheet;
     today := Lab.noon |}.

Definition router : dict :=
  {[ "ip" := VStr "10.1.1.1"; "port" := VInt 22; "device_type" := VStr "h3c";
     "username" := VStr "admin"; "password" := VStr "pw";
     "secret" := VStr "s3cret" ]}.

(** A device whose [secret] cell was left empty in the sheet. *)
Definition switch : dict :=
  {[ "ip" := VStr "10.1.1.2"; "port" := VInt 22; "device_type" := VStr "huawei";
     "username" := VStr "admin"; "password" := VStr "pw";
     "secret" := VNaN; "description" := VStr "lab" ]}.

(** A dict that names no host and no device type. *)
Definition stray : dict := {[ "port" := VInt 22 ]}.

(** A dict that names a host and no device type. *)
Definition untyped : dict := {[ "ip" := VStr "10.1.1.3"; "port" := VInt 22 ]}.

(** Days on which one step fails. *)
Definition no_answer : script :=
  {| on_connect := Raise NetMikoTimeoutException; on_enable := Ok tt;
     on_send := Ok "hostname sw"; on_disconnect := Ok tt; on_open := None;
     on_read := Ok Lab.sheet; today := Lab.noon |}.

Definition interrupted : script :=
  {| on_connect := Raise KeyboardInterrupt; on_enable := Ok tt;
     on_send := Ok "hostname sw"; on_disconnect := Ok tt; on_open := None;
     on_read := Ok Lab.sheet; today := Lab.noon |}.

Definition locked : script :=
  {| on_connect := Ok tt; on_enable := Raise (OtherException "enable failed");
     on_send := Ok "hostname sw"; on_disconnect := Ok tt; on_open := None;
     on_read := Ok Lab.sheet; today := Lab.noon |}.

Definition mute : script :=
  {| on_connect := Ok tt; on_enable := Ok tt;
     on_send := Raise NetMikoTimeoutException; on_disconnect := Ok tt; on_open := None;
     on_read := Ok Lab.sheet; today := Lab.noon |}.

Definition unreadable : script :=
  {| on_connect := Ok tt; on_enable := Ok tt;
     on_send := Ok "hostname sw"; on_disconnect := Ok tt; on_open := None;
     on_read := Raise (OtherException "No such file"); today := Lab.noon |}.

(** The store holds the four dicts; one archive file exists already. *)
Definition bench (w : script) : @state desk :=
  @mk_state desk w
    {[ 0 := router; 1 := switch; 2 := stray; 3 := untyped ]}
    {[ "config_storage/normal/10.1.1.1_20240309.txt" := "# earlier" +:+ nl ]}
    {[ "config_storage"; "config_storage/normal" ]}.

End Desk.

(** ** Running the primitives *)

Section Facts.
Context {C : Collaborators}.

Lemma with_world_same (s : state) : with_world s (world s) = s.
Proof. by destruct s. Qed.

#[global] Instance world_moved_frame : Frame world_moved.
Proof.
  split.
  - intros s. exists (world s). symmetry. apply with_world_same.
  - intros s1 s2 s3 [w ->] [w' ->]. by exists w'.
  - intros s w. by exists w.
Qed.

#[global] Instance heap_kept_frame : Frame heap_kept.
Proof.
  split.
  - by intros s.
  - intros s1 s2 s3 H12 H23. unfold heap_kept in *. congruence.
  - by intros s w.
Qed.

Section Emits.
Context (F : state -> state -> Prop) `{!Frame F} (P : event -> Prop).

Lemma emits_ret {A} (a : A) : emits F P (ret a).
Proof. intros s. split; [constructor | apply frame_refl]. Qed.

Lemma emits_raise {A} e : emits F P (@raise C A e).
Proof. intros s. split; [constructor | apply frame_refl]. Qed.

Lemma emits_emit e : P e -> emits F P (emit e).
Proof. intros He s. split; [by repeat constructor | apply frame_refl]. Qed.

Lemma emits_remote {A} c (f : World -> result A * World) :
  P (Call c) -> emits F P (remote c f).
Proof.
  intros Hc s. unfold remote. destruct (f (world s)) as [r w]. simpl.
  split; [by repeat constructor | apply frame_world].
Qed.

Lemma emits_bind {A B} (m : M A) (k : A -> M B) :
  emits F P m -> (forall a, emits F P (k a)) -> emits F P (bind m k).
Proof.
  intros Hm Hk s. unfold bind.
  destruct (Hm s) as [Hev Hs]. destruct (m s) as [[[a|e] ev] s1]; simpl in *.
  - destruct (Hk a s1) as [Hev' Hs'].
    destruct (k a s1) as [[r ev'] s2]; simpl in *.
    split; [by apply Forall_app | by eapply frame_trans].
  - done.
Qed.

Lemma emits_try {A} (m : M A) (h : exn -> M A) :
  emits F P m -> (forall e, emits F P (h e)) -> emits F P (try_except m h).
Proof.
  intros Hm Hh s. unfold try_except.
  destruct (Hm s) as [Hev Hs]. destruct (m s) as [[[a|e] ev] s1]; simpl in *.
  - done.
  - destruct (Hh e s1) as [Hev' Hs'].
    destruct (h e s1) as [[r ev'] s2]; simpl in *.
    split; [by apply Forall_app | by eapply frame_trans].
Qed.

Lemma emits_with_exit {A} (m : M A) (x : M unit) :
  emits F P m -> emits F P x -> emits F P (with_exit m x).
Proof.
  intros Hm Hx s. unfold with_exit.
  destruct (Hm s) as [Hev Hs]. destruct (m s) as [[r ev] s1]; simpl in *.
  destruct (Hx s1) as [Hev' Hs'].
  destruct (x s1) as [[[u|e] ev'] s2]; simpl in *;
    (split; [by apply Forall_app | by eapply frame_trans]).
Qed.

Lemma emits_deref l : emits F P (deref l).
Proof. intros s. split; [constructor | apply frame_refl]. Qed.

Lemma emits_now : emits F P now.
Proof.
  intros s. unfold now. destruct (datetime_now (world s)) as [t w]. simpl.
  split; [constructor | apply frame_world].
Qed.

Lemma emits_os_path_exists p : emits F P (os_path_exists p).
Proof. intros s. split; [constructor | apply frame_refl]. Qed.

Lemma emits_is_dir p : emits F P (is_dir p).
Proof. intros s. split; [constructor | apply frame_refl]. Qed.

Lemma emits_dict_get l key dflt : emits F P (dict_get l key dflt).
Proof. apply emits_bind; [apply emits_deref | intros; apply emits_ret]. Qed.

Lemma emits_dict_getitem l key : emits F P (dict_getitem l key).
Proof.
  apply emits_bind; [apply emits_deref | intros d].
  destruct (d !! key); [apply emits_ret | apply emits_raise].
Qed.

Lemma emits_weaken {A} (Q : event -> Prop) (m : M A) :
  (forall e, Q e -> P e) -> emits F Q m -> emits F P m.
Proof.
  intros HQP Hm s. destruct (Hm s) as [Hev Hs]. split; [|done].
  eapply Forall_impl; eauto.
Qed.

End Emits.

Lemma emits_set_files P f : emits heap_kept P (set_files f).
Proof. intros s. split; [constructor | done]. Qed.

Lemma emits_set_dirs P f : emits heap_kept P (set_dirs f).
Proof. intros s. split; [constructor | done]. Qed.

Ltac emits :=
  repeat first
    [ match goal with
      | |- Frame _ => apply _
      | |- forall _, emits _ _ _ => intro
      end
    | apply emits_ret | apply emits_raise | apply emits_deref | apply emits_now
    | apply emits_dict_get | apply emits_dict_getitem
    | apply emits_os_path_exists | apply emits_is_dir
    | apply emits_set_files | apply emits_set_dirs
    | apply emits_emit; [| by repeat split]
    | apply emits_remote; [| by repeat split]
    | apply emits_bind
    | apply emits_try
    | apply emits_with_exit
    | match goal with
      | |- emits _ _ (if ?b then _ else _) => destruct b
      | |- emits _ _ (match ?x with _ => _ end) => destruct x
      end ].

Lemma in_session_calm device l ic conn :
  emits world_moved calm (in_session device l ic conn).
Proof. unfold in_session, choose_command, logger_info. emits. Qed.

Lemma on_exception_quiet device e :
  emits world_moved quiet (on_exception device e).
Proof. unfold on_exception, logger_error, print. emits. Qed.

Lemma marks_app ev1 ev2 : marks (ev1 ++ ev2) = marks ev1 ++ marks ev2.
Proof. apply omap_app. Qed.

Lemma errors_app ev1 ev2 : errors (ev1 ++ ev2) = errors ev1 ++ errors ev2.
Proof. apply omap_app. Qed.

Lemma quiet_marks ev : Forall quiet ev -> marks ev = [].
Proof.
  induction 1 as [|e ev [He _] _ IH]; [done|].
  unfold marks in *. simpl. by rewrite He.
Qed.

Lemma quiet_archive ev : Forall quiet ev -> List.filter archive_call ev = [].
Proof.
  induction 1 as [|e ev [_ He] _ IH]; [done|]. simpl. by rewrite He.
Qed.

Lemma calm_errors ev : Forall calm ev -> errors ev = [].
Proof.
  induction 1 as [|e ev [_ He] _ IH]; [done|].
  unfold errors in *. simpl. by rewrite He.
Qed.

Lemma calm_quiet ev : Forall calm ev -> Forall quiet ev.
Proof. intros H. eapply Forall_impl; [exact H|]. by intros e [He _]. Qed.

(** *** The session *)

(** The [with] body and its exit, once the session is open. *)
Lemma session_calm device l ic conn :
  emits world_moved calm
    (with_exit (in_session device l ic conn) (remote CallDisconnect (conn_disconnect conn))).
Proof.
  apply emits_with_exit; [apply _ | apply in_session_calm |].
  apply emits_remote; [apply _ | by repeat split].
Qed.

Lemma safe_ret {A} (R : A -> Prop) a : R a -> safe R (ret a).
Proof. by intros Ha s. Qed.

Lemma safe_raise {A} (R : A -> Prop) e : is_Exception e = true -> safe R (@raise C A e).
Proof. by intros He s. Qed.

Lemma safe_emit (R : unit -> Prop) e : R tt -> safe R (emit e).
Proof. by intros Ha s. Qed.

Lemma safe_bind {A B} (R1 : A -> Prop) (R2 : B -> Prop) (m : M A) (k : A -> M B) :
  safe R1 m -> (forall a, R1 a -> safe R2 (k a)) -> safe R2 (bind m k).
Proof.
  intros Hm Hk s. unfold bind. specialize (Hm s).
  destruct (m s) as [[[a|e] ev] s1]; simpl in *; [|done].
  specialize (Hk a Hm s1). by destruct (k a s1) as [[r ev'] s2].
Qed.

Lemma safe_deref l : safe (fun _ => True) (deref l).
Proof. by intros s. Qed.

Lemma safe_dict_get l key dflt : safe (fun _ => True) (dict_get l key dflt).
Proof. by intros s. Qed.

Lemma safe_dict_getitem l key : safe (fun _ => True) (dict_getitem l key).
Proof.
  intros s. unfold dict_getitem, bind, deref. simpl.
  by destruct (default ∅ (heap s !! l) !! key).
Qed.

Lemma safe_enable conn :
  device_failures_only C -> safe (fun _ => True) (remote CallEnable (conn_enable conn)).
Proof.
  intros (_ & Hen & _) s. unfold remote.
  destruct (conn_enable conn (world s)) as [[u|e] w] eqn:Hr; simpl; [done|].
  apply (Hen conn (world s) e). by rewrite Hr.
Qed.

Lemma safe_send_command conn command :
  device_failures_only C ->
  safe (fun _ => True)
    (remote (CallSendCommand command) (conn_send_command conn command)).
Proof.
  intros (_ & _ & Hsend & _) s. unfold remote.
  destruct (conn_send_command conn command (world s)) as [[u|e] w] eqn:Hr; simpl; [done|].
  apply (Hsend conn command (world s) e). by rewrite Hr.
Qed.

Lemma safe_choose_command l ic : safe (fun _ => True) (choose_command l ic).
Proof.
  unfold choose_command.
  destruct ic as [c|]; [destruct (String.eqb c "")|];
    try (by apply safe_ret);
    (eapply safe_bind; [apply safe_dict_getitem | intros; by apply safe_ret]).
Qed.

Lemma in_session_safe device l ic conn :
  device_failures_only C -> safe collected (in_session device l ic conn).
Proof.
  intros Hfail. unfold in_session, logger_info.
  eapply safe_bind; [apply safe_dict_get | intros secret _].
  eapply safe_bind with (R1 := fun _ => True).
  { destruct (truthy secret); [by apply safe_enable | by apply safe_ret]. }
  intros _ _.
  eapply safe_bind; [apply safe_choose_command | intros command _].
  eapply safe_bind; [by apply (safe_emit (fun _ => True)) | intros _ _].
  eapply safe_bind; [by apply safe_send_command | intros output _].
  eapply safe_bind; [apply safe_dict_getitem | intros ip _].
  eapply safe_bind; [by apply (safe_emit (fun _ => True)) | intros _ _].
  apply safe_ret. by eexists _, _.
Qed.

Lemma session_safe device l ic conn :
  device_failures_only C ->
  safe collected
    (with_exit (in_session device l ic conn) (remote CallDisconnect (conn_disconnect conn))).
Proof.
  intros Hfail s. pose proof (in_session_safe device l ic conn Hfail s) as Hin.
  destruct Hfail as (_ & _ & _ & Hdis & _).
  unfold with_exit, remote.
  destruct (in_session device l ic conn s) as [[r ev] s1]. simpl in *.
  destruct (conn_disconnect conn (world s1)) as [[u|e] w] eqn:Hd; simpl; [done|].
  apply (Hdis conn (world s1) e). by rewrite Hd.
Qed.

Lemma on_exception_run device dv ip e s :
  is_Exception e = true ->
  heap s !! device = Some dv ->
  dv !! "ip" = Some ip ->
  exists m k, on_exception device e s = (Ok (VNone, VNone), [Print m; LogError m], s) /\
              errors [Print m; LogError m] = [k].
Proof.
  intros He Hd Hip.
  unfold on_exception, dict_getitem, bind, deref, print, logger_error, emit, ret.
  destruct e; simpl in *; try discriminate;
    repeat (first [rewrite Hd | rewrite Hip]; simpl);
    eexists _, _; (split; [reflexivity | reflexivity]).
Qed.

(** *** get_switch_config *)

Lemma try_except_bind_ok {A B} (m : M A) (k : A -> M B) (h : exn -> M B) s a ev s1 :
  m s = (Ok a, ev, s1) ->
  try_except (bind m k) h s =
    match try_except (k a) h s1 with
    | (r, ev', s2) => (r, ev ++ ev', s2)
    end.
Proof.
  intros Hm. unfold try_except, bind. rewrite Hm.
  destruct (k a s1) as [[[b|e] ev1] s2]; [reflexivity|].
  destruct (h e s2) as [[r ev2] s3]. by rewrite app_assoc.
Qed.

Lemma try_with_ConnectHandler {A} kw (body : Conn -> M A) (h : exn -> M A) s :
  try_except (with_ConnectHandler kw body) h s =
    match ConnectHandler kw (world s) with
    | (Ok conn, w) =>
        match try_except
                (with_exit (body conn) (remote CallDisconnect (conn_disconnect conn)))
                h (with_world s w) with
        | (r, ev, s2) => (r, Call (CallConnectHandler kw) :: ev, s2)
        end
    | (Raise e, w) =>
        match h e (with_world s w) with
        | (r, ev, s2) => (r, Call (CallConnectHandler kw) :: ev, s2)
        end
    end.
Proof.
  unfold with_ConnectHandler.
  destruct (ConnectHandler kw (world s)) as [[conn|e] w] eqn:Hc.
  - erewrite try_except_bind_ok; [|unfold remote; by rewrite Hc].
    by destruct (try_except _ h (with_world s w)) as [[r ev] s2].
  - unfold try_except, bind, remote. rewrite Hc.
    by destruct (h e (with_world s w)) as [[r ev] s2].
Qed.

Lemma try_connect_and_collect device l ic kw s :
  heap s !! l = Some kw ->
  try_except (connect_and_collect device l ic) (on_exception device) s =
  try_except (with_ConnectHandler kw (in_session device l ic)) (on_exception device) s.
Proof.
  intros Hl. unfold connect_and_collect.
  erewrite try_except_bind_ok; [|unfold deref; by rewrite Hl].
  by destruct (try_except _ _ s) as [[r ev] s2].
Qed.

(** Whatever happens to the session, the events after the request for it
    are quiet and only the world of the collaborators moves. *)
Lemma collect_shape device l ic kw s :
  heap s !! l = Some kw ->
  exists r ev w,
    try_except (connect_and_collect device l ic) (on_exception device) s
      = (r, Call (CallConnectHandler kw) :: ev, with_world s w) /\
    Forall quiet ev.
Proof.
  intros Hl. rewrite (try_connect_and_collect _ _ _ kw) by done.
  rewrite try_with_ConnectHandler.
  destruct (ConnectHandler kw (world s)) as [[conn|e] w1].
  - assert (emits world_moved quiet
              (try_except
                 (with_exit (in_session device l ic conn)
                    (remote CallDisconnect (conn_disconnect conn)))
                 (on_exception device))) as Hq.
    { apply emits_try; [apply _ | | apply on_exception_quiet].
      eapply emits_weaken; [| apply session_calm]. by intros e [He _]. }
    destruct (Hq (with_world s w1)) as [Hev [w Hw]].
    destruct (try_except _ _ (with_world s w1)) as [[r ev] s2]. simpl in *. subst.
    by exists r, ev, w.
  - destruct (on_exception_quiet device e (with_world s w1)) as [Hev [w Hw]].
    destruct (on_exception device e (with_world s w1)) as [[r ev] s2]. simpl in *. subst.
    by exists r, ev, w.
Qed.

(** With collaborators that fail as devices do, and a host to name in the
    log, the collection returns: either what it collected and no error,
    or nothing and one error. *)
Lemma collect_outcome device l ic kw dv ip s :
  device_failures_only C ->
  heap s !! l = Some kw ->
  heap s !! device = Some dv ->
  dv !! "ip" = Some ip ->
  exists r ev w,
    try_except (connect_and_collect device l ic) (on_exception device) s
      = (Ok r, Call (CallConnectHandler kw) :: ev, with_world s w) /\
    Forall quiet ev /\
    ((collected r /\ errors ev = []) \/
     (r = (VNone, VNone) /\ exists k, errors ev = [k])).
Proof.
  intros Hfail Hl Hd Hip. rewrite (try_connect_and_collect _ _ _ kw) by done.
  rewrite try_with_ConnectHandler.
  destruct (ConnectHandler kw (world s)) as [[conn|e] w1] eqn:Hc.
  - pose proof (session_safe device l ic conn Hfail (with_world s w1)) as Hres.
    destruct (session_calm device l ic conn (with_world s w1)) as [Hev [w Hw]].
    unfold try_except.
    destruct (with_exit _ _ (with_world s w1)) as [[[a|e] ev] s2]; simpl in *; subst.
    + exists a, ev, w. split; [done|]. split; [by apply calm_quiet|].
      left. split; [done | by apply calm_errors].
    + destruct (on_exception_run device dv ip e (with_world s w) Hres Hd Hip)
        as (m & k & Hrun & Hk).
      destruct (on_exception_quiet device e (with_world s w)) as [Hqev _].
      rewrite Hrun in *. simpl in Hqev.
      exists (VNone, VNone), (ev ++ [Print m; LogError m]), w.
      change (with_world (with_world s w1) w) with (with_world s w). rewrite Hrun.
      split; [done|]. split; [apply Forall_app; split; [by apply calm_quiet | done]|].
      right. split; [done|]. exists k.
      by rewrite errors_app, (calm_errors ev Hev), Hk.
  - assert (is_Exception e = true) as He.
    { destruct Hfail as (Hconn & _). apply (Hconn kw (world s) e). by rewrite Hc. }
    destruct (on_exception_run device dv ip e (with_world s w1) He Hd Hip)
      as (m & k & Hrun & Hk).
    destruct (on_exception_quiet device e (with_world s w1)) as [Hqev _].
    rewrite Hrun in *. simpl in Hqev.
    exists (VNone, VNone), [Print m; LogError m], w1.
    split; [done|]. split; [done|].
    right. split; [done|]. by exists k.
Qed.

Lemma copy_conn_params_run (device : loc) (dv : dict) (s : state) :
  heap s !! device = Some dv ->
  copy_conn_params device s =
    (Ok (fresh (dom (heap s))), [Print (MsgParams dv)], after_copy s dv).
Proof.
  intros Hd.
  unfold copy_conn_params, dict_copy, dict_contains, dict_del, bind, deref, alloc,
    print, emit, ret, store, after_copy.
  simpl. rewrite Hd. simpl. rewrite lookup_insert_eq. simpl.
  destruct (dv !! "description") as [v|] eqn:Hdesc.
  - rewrite bool_decide_true by eauto. simpl. rewrite lookup_insert_eq. simpl.
    rewrite Hdesc. simpl. unfold with_heap. simpl. rewrite insert_insert_eq. reflexivity.
  - rewrite bool_decide_false by (intros [? ?]; congruence). simpl.
    rewrite (delete_id dv) by done. reflexivity.
Qed.

Lemma after_copy_old (s : state) (dv : dict) (l : loc) :
  is_Some (heap s !! l) -> heap (after_copy s dv) !! l = heap s !! l.
Proof.
  intros Hl. unfold after_copy. simpl. apply lookup_insert_ne.
  intros <-. apply (is_fresh (dom (heap s))). by apply elem_of_dom.
Qed.

Lemma get_switch_config_unfold device ic dv s :
  heap s !! device = Some dv ->
  get_switch_config device ic s =
    match try_except (connect_and_collect device (fresh (dom (heap s))) ic)
            (on_exception device) (after_copy s dv) with
    | (r, ev, s2) => (r, Print (MsgParams dv) :: ev, s2)
    end.
Proof.
  intros Hd. unfold get_switch_config.
  erewrite try_except_bind_ok; [|by apply copy_conn_params_run].
  by destruct (try_except _ _ (after_copy s dv)) as [[r ev] s2].
Qed.

Lemma get_switch_config_shape device ic dv s :
  heap s !! device = Some dv ->
  exists r ev w,
    get_switch_config device ic s
      = (r, Print (MsgParams dv) :: Call (CallConnectHandler (delete "description" dv)) :: ev,
         with_world (after_copy s dv) w) /\
    Forall quiet ev.
Proof.
  intros Hd. rewrite (get_switch_config_unfold _ _ dv) by done.
  destruct (collect_shape device (fresh (dom (heap s))) ic (delete "description" dv)
              (after_copy s dv)) as (r & ev & w & Hrun & Hev).
  { unfold after_copy. simpl. apply lookup_insert_eq. }
  rewrite Hrun. by exists r, ev, w.
Qed.

Lemma get_switch_config_outcome device ic dv ip s :
  device_failures_only C ->
  heap s !! device = Some dv ->
  dv !! "ip" = Some ip ->
  exists r ev w,
    get_switch_config device ic s
      = (Ok r, Print (MsgParams dv) :: Call (CallConnectHandler (delete "description" dv)) :: ev,
         with_world (after_copy s dv) w) /\
    Forall quiet ev /\
    ((collected r /\ errors ev = []) \/
     (r = (VNone, VNone) /\ exists k, errors ev = [k])).
Proof.
  intros Hfail Hd Hip. rewrite (get_switch_config_unfold _ _ dv) by done.
  destruct (collect_outcome device (fresh (dom (heap s))) ic (delete "description" dv)
              dv ip (after_copy s dv) Hfail) as (r & ev & w & Hrun & Hev & Hcases).
  { unfold after_copy. simpl. apply lookup_insert_eq. }
  { rewrite after_copy_old; [done | by rewrite Hd]. }
  { done. }
  rewrite Hrun. by exists r, ev, w.
Qed.

(** *** save_config_to_file *)

Lemma append_assoc (a b c : string) : (a +:+ b) +:+ c = a +:+ (b +:+ c).
Proof.
  induction a as [|x a IH]; [done|].
  change (String x ((a +:+ b) +:+ c) = String x (a +:+ (b +:+ c))).
  by rewrite IH.
Qed.

Lemma save_config_to_file_unmarked ip command config output_dir :
  emits heap_kept unmarked (save_config_to_file ip command config output_dir).
Proof.
  unfold save_config_to_file, handle_Exception, open_file, os_request, file_write,
    py_add_str, logger_info, logger_error.
  emits.
Qed.

(** A write the operating system lets through appends one block to the
    file of the host and the day. *)
Lemma save_config_to_file_run ip command output output_dir s t w1 w2 :
  let p := os_path_join output_dir (archive_filename ip t) in
  datetime_now (world s) = (t, w1) ->
  os_fault (CallOpen p (mode_for s p)) w1 = (None, w2) ->
  p ∉ dirs s ->
  save_config_to_file ip command (VStr output) output_dir s =
    (Ok (Some p),
     [ Call (CallOpen p (mode_for s p));
       Call (CallWrite p (archive_header t command +:+ nl));
       Call (CallWrite p (output +:+ nl));
       Call (CallWrite p (delimiter +:+ nl));
       LogInfo (MsgSaved (archive_filename ip t)) ],
     with_files (with_world s w2)
       (<[p := default "" (files s !! p) +:+ archive_block t command output]> (files s))).
Proof.
  intros p Hnow Hfault Hdir.
  unfold save_config_to_file, open_file, os_request, file_write, py_add_str,
    logger_info, try_except, bind, now, os_path_exists, remote, is_dir, set_files,
    emit, ret.
  rewrite Hnow. simpl.
  fold p. fold (mode_for s p). rewrite Hfault. simpl.
  rewrite (bool_decide_false (p ∈ dirs s)) by done.
  assert (mode_for s p = match files s !! p with Some _ => ModeA | None => ModeW end) as Hm.
  { unfold mode_for.
    rewrite (bool_decide_false (p ∈ dirs s)) by done. rewrite orb_false_r.
    destruct (files s !! p) as [c|] eqn:Hp.
    - by rewrite bool_decide_true by eauto.
    - by rewrite bool_decide_false by (intros [? ?]; congruence). }
  destruct (mode_for s p); destruct (files s !! p) as [c|] eqn:Hp; try discriminate;
    simpl; rewrite ?Hp, !lookup_insert_eq; simpl; unfold with_files; simpl;
    rewrite ?lookup_insert_eq, !insert_insert_eq; simpl;
    unfold archive_block; rewrite ?append_assoc; reflexivity.
Qed.

(** A write the operating system refuses is logged and leaves the files
    as they were. *)
Lemma save_config_to_file_refused ip command config output_dir s t w1 w2 e :
  let p := os_path_join output_dir (archive_filename ip t) in
  datetime_now (world s) = (t, w1) ->
  os_fault (CallOpen p (mode_for s p)) w1 = (Some e, w2) ->
  is_Exception e = true ->
  save_config_to_file ip command config output_dir s =
    (Ok None,
     [ Call (CallOpen p (mode_for s p)); LogError (MsgSaveFailed e) ],
     with_world s w2).
Proof.
  intros p Hnow Hfault He.
  unfold save_config_to_file, open_file, os_request, handle_Exception, logger_error,
    try_except, bind, now, os_path_exists, remote, emit, ret, raise.
  rewrite Hnow. simpl.
  fold p. fold (mode_for s p). rewrite Hfault. simpl. rewrite He. reflexivity.
Qed.

Lemma safe_total {A} (m : M A) :
  (forall s, exists a, (m s).1.1 = Ok a) -> safe (fun _ => True) m.
Proof. intros Hm s. destruct (Hm s) as [a ->]. done. Qed.

Lemma safe_os_request c :
  device_failures_only C -> safe (fun _ => True) (os_request c).
Proof.
  intros (_ & _ & _ & _ & Hos) s. unfold os_request, bind, remote.
  destruct (os_fault c (world s)) as [[e|] w] eqn:Hf; simpl; [|done].
  apply (Hos c (world s) e). by rewrite Hf.
Qed.

Lemma safe_open_file p mode :
  device_failures_only C -> safe (fun _ => True) (open_file p mode).
Proof.
  intros Hfail. unfold open_file.
  eapply safe_bind; [by apply safe_os_request | intros _ _].
  eapply safe_bind with (R1 := fun _ => True);
    [apply safe_total; intros s; by eexists | intros d _].
  destruct d; [by apply safe_raise|].
  destruct mode; apply safe_total; intros s; by eexists.
Qed.

Lemma safe_file_write p data : safe (fun _ => True) (file_write p data).
Proof. apply safe_total. intros s. by eexists. Qed.

Lemma save_config_to_file_returns ip command config output_dir s :
  device_failures_only C ->
  exists r, (save_config_to_file ip command config output_dir s).1.1 = Ok r.
Proof.
  intros Hfail. unfold save_config_to_file.
  match goal with
  | |- context [try_except ?m ?h] => assert (safe (fun _ => True) m) as Hbody
  end.
  { cbv zeta.
    eapply safe_bind with (R1 := fun _ => True).
    { apply safe_total. intros s0. unfold now.
      destruct (datetime_now (world s0)); by eexists. }
    intros op_time _.
    eapply safe_bind with (R1 := fun _ => True);
      [apply safe_total; intros s0; by eexists | intros ex _].
    eapply safe_bind; [by apply safe_open_file | intros _ _].
    eapply safe_bind; [apply safe_file_write | intros _ _].
    eapply safe_bind with (R1 := fun _ => True).
    { destruct config; by (apply safe_raise || apply safe_ret). }
    intros body _.
    eapply safe_bind; [apply safe_file_write | intros _ _].
    eapply safe_bind; [apply safe_file_write | intros _ _].
    eapply safe_bind; [by apply (safe_emit (fun _ => True)) | intros _ _].
    by apply safe_ret. }
  unfold try_except. specialize (Hbody s).
  match goal with
  | |- context [match ?x with _ => _ end] => destruct x as [[[a|e] ev] s1]
  end; simpl in *; [by eexists|].
  unfold handle_Exception. rewrite Hbody. by eexists.
Qed.

(** *** One device of the pass *)

Lemma bind_run {A B} (m : M A) (k : A -> M B) s a ev s1 :
  m s = (Ok a, ev, s1) ->
  bind m k s = match k a s1 with (r, ev', s2) => (r, ev ++ ev', s2) end.
Proof. intros Hm. unfold bind. by rewrite Hm. Qed.

Lemma dict_getitem_run l key d v s :
  heap s !! l = Some d -> d !! key = Some v ->
  dict_getitem l key s = (Ok v, [], s).
Proof.
  intros Hl Hk. unfold dict_getitem, bind, deref, ret. rewrite Hl. simpl.
  by rewrite Hk.
Qed.

Lemma dict_get_run l key dflt d s :
  heap s !! l = Some d ->
  dict_get l key dflt s = (Ok (default dflt (d !! key)), [], s).
Proof. intros Hl. unfold dict_get, bind, deref, ret. by rewrite Hl. Qed.

Lemma unmarked_marks ev : Forall unmarked ev -> marks ev = [].
Proof.
  induction 1 as [|e ev He _ IH]; [done|].
  unfold marks in *. simpl. by rewrite He.
Qed.

(** The pass announces the device, asks once for a session with the
    working copy, prints one verdict, and keeps every dict it was given. *)
Lemma process_device_outcome output_dir ic count device dv ip s :
  device_failures_only C ->
  heap s !! device = Some dv ->
  dv !! "ip" = Some ip ->
  exists (b : bool) ev s',
    process_device output_dir ic count device s
      = (Ok (if b then S count else count), ev, s') /\
    marks ev = [Attempt ip; Session (delete "description" dv); Verdict b] /\
    (forall l : loc, is_Some (heap s !! l) -> heap s' !! l = heap s !! l).
Proof.
  intros Hfail Hd Hip. unfold process_device.
  erewrite bind_run; [|by eapply dict_getitem_run].
  erewrite bind_run; [|by eapply dict_get_run].
  erewrite bind_run; [|reflexivity].
  destruct (get_switch_config_outcome device ic dv ip s Hfail Hd Hip)
    as ([command config] & ev & w & Hrun & Hq & _).
  erewrite bind_run; [|exact Hrun].
  cbv beta iota.
  destruct (truthy config).
  - destruct (save_config_to_file_returns ip command config output_dir
                (with_world (after_copy s dv) w) Hfail) as [r Hr].
    destruct (save_config_to_file_unmarked ip command config output_dir
                (with_world (after_copy s dv) w)) as [Hev Hheap].
    destruct (save_config_to_file ip command config output_dir
                (with_world (after_copy s dv) w)) as [[r' ev2] s2] eqn:Hsave.
    simpl in Hr, Hev, Hheap. subst r'.
    erewrite bind_run; [|exact Hsave].
    exists true. eexists _, _. split; [reflexivity|]. split.
    + simpl. unfold marks. simpl. rewrite !omap_app.
      fold (marks ev) (marks ev2).
      by rewrite (quiet_marks ev Hq), (unmarked_marks ev2 Hev).
    + intros l Hl. simpl. rewrite Hheap. simpl. by apply after_copy_old.
  - exists false. eexists _, _. split; [reflexivity|]. split.
    + simpl. unfold marks. simpl. rewrite !omap_app.
      fold (marks ev). by rewrite (quiet_marks ev Hq).
    + intros l Hl. simpl. by apply after_copy_old.
Qed.

(** *** The pass *)

Lemma for_devices_outcomes output_dir ic devices :
  device_failures_only C ->
  forall count s,
    Forall (has_host s) devices ->
    exists outs ev s',
      for_devices output_dir ic devices count s
        = (Ok (count + length (List.filter succeeded outs)), ev, s') /\
      Forall2 (outcome_of s) devices outs /\
      marks ev = concat (map shown outs) /\
      (forall l : loc, is_Some (heap s !! l) -> heap s' !! l = heap s !! l).
Proof.
  intros Hfail. induction devices as [|device rest IH]; intros count s Hhosts.
  - exists [], [], s. simpl. rewrite Nat.add_0_r. by repeat split; try constructor.
  - apply Forall_cons in Hhosts as [(dv & Hd & [ip Hip]) Hrest].
    destruct (process_device_outcome output_dir ic count device dv ip s Hfail Hd Hip)
      as (b & ev1 & s1 & Hrun & Hmarks & Hkept).
    assert (Forall (has_host s1) rest) as Hrest1.
    { eapply Forall_impl; [exact Hrest|]. intros l (dl & Hl & Hipl).
      exists dl. split; [|done]. rewrite Hkept; [done | by rewrite Hl]. }
    destruct (IH (if b then S count else count) s1 Hrest1)
      as (outs & ev2 & s2 & Hloop & Houts & Hmarks2 & Hkept2).
    exists ({| host := ip; params := delete "description" dv; succeeded := b |} :: outs),
      (ev1 ++ ev2), s2.
    split; [|split; [|split]].
    + simpl. erewrite bind_run; [|exact Hrun]. rewrite Hloop.
      do 2 f_equal. destruct b; simpl; f_equal; lia.
    + constructor; [by exists dv|].
      apply Forall2_same_length_lookup. split; [by eapply Forall2_length|].
      intros i l o Hl Ho.
      destruct (Forall2_lookup_lr _ _ _ _ _ _ Houts Hl Ho) as (dl & Hdl & Hio & Hpo).
      exists dl. split; [|done].
      rewrite <- Hkept; [done|].
      eapply Forall_lookup_1 in Hrest; [|exact Hl]. destruct Hrest as (d' & -> & _). eauto.
    + rewrite marks_app, Hmarks, Hmarks2. reflexivity.
    + intros l Hl. rewrite Hkept2; [by apply Hkept|]. rewrite Hkept; done.
Qed.

(** [C1] In one pass every device is processed exactly once, in the order
    of the list: with collaborators that fail as devices do and devices
    that name their host, [process_connection] returns, and what it shows
    is, device after device, the host announced, one session asked for
    with the device's own fields, and one verdict; the tally it returns
    counts the verdicts of success. A failure of one device never ends
    the pass. *)
Theorem process_connection_one_outcome_per_device
    (devices : list loc) (output_dir : string) (ic : option string) (s : state) :
  device_failures_only C ->
  Forall (has_host s) devices ->
  exists outs ev s',
    process_connection devices output_dir ic s
      = (Ok (length (List.filter succeeded outs)), ev, s') /\
    Forall2 (outcome_of s) devices outs /\
    marks ev = concat (map shown outs).
Proof.
  intros Hfail Hhosts.
  destruct (for_devices_outcomes output_dir ic devices Hfail 0 s Hhosts)
    as (outs & ev & s' & Hloop & Houts & Hmarks & _).
  exists outs, ([Print MsgStart; Print MsgDashes] ++ ev ++ [Print MsgEquals]), s'.
  split; [|split; [done|]].
  - unfold process_connection.
    erewrite bind_run; [|reflexivity]. erewrite bind_run; [|reflexivity].
    erewrite bind_run; [|exact Hloop]. reflexivity.
  - rewrite !marks_app, Hmarks. simpl. by rewrite app_nil_r.
Qed.

(** The two hypotheses of the pass mark what it does not survive: an
    interrupt, which no [except] clause of [get_switch_config] catches,
    and a dict without the key [ip], which [process_connection] reads
    outside any [try]. *)
Lemma interrupt_ends_pass
    (device : loc) (rest : list loc) (dv : dict) (ip : pyval)
    (output_dir : string) (ic : option string) (s : state) (w : World) :
  heap s !! device = Some dv ->
  dv !! "ip" = Some ip ->
  ConnectHandler (delete "description" dv) (world s) = (Raise KeyboardInterrupt, w) ->
  (process_connection (device :: rest) output_dir ic s).1.1 = Raise KeyboardInterrupt.
Proof.
  intros Hd Hip Hconn.
  assert ((get_switch_config device ic s).1.1 = Raise KeyboardInterrupt) as Hgs.
  { rewrite (get_switch_config_unfold _ _ dv) by done.
    rewrite (try_connect_and_collect _ _ _ (delete "description" dv))
      by (unfold after_copy; simpl; apply lookup_insert_eq).
    rewrite try_with_ConnectHandler.
    change (world (after_copy s dv)) with (world s). rewrite Hconn.
    unfold on_exception, raise. reflexivity. }
  destruct (get_switch_config device ic s) as [[r ev] s1] eqn:Hrun.
  simpl in Hgs. subst r.
  unfold process_connection.
  erewrite bind_run; [|reflexivity]. erewrite bind_run; [|reflexivity].
  simpl for_devices. unfold process_device.
  unfold bind at 1. unfold bind at 1.
  erewrite bind_run; [|by eapply dict_getitem_run].
  erewrite bind_run; [|by eapply dict_get_run].
  erewrite bind_run; [|reflexivity].
  unfold bind. rewrite Hrun. reflexivity.
Qed.

Lemma nameless_device_ends_pass
    (device : loc) (rest : list loc) (dv : dict)
    (output_dir : string) (ic : option string) (s : state) :
  heap s !! device = Some dv ->
  dv !! "ip" = None ->
  process_connection (device :: rest) output_dir ic s
    = (Raise (KeyError "ip"), [Print MsgStart; Print MsgDashes], s).
Proof.
  intros Hd Hip. unfold process_connection.
  erewrite bind_run; [|reflexivity]. erewrite bind_run; [|reflexivity].
  simpl for_devices. unfold process_device, dict_getitem, bind, deref, raise.
  rewrite Hd. simpl. by rewrite Hip.
Qed.

(** [C2] A device whose session cannot be opened in time is neither
    escalated nor sent a command, and nothing is archived for it:
    [get_switch_config] asks for the session, reports the timeout twice
    (screen and log) and returns nothing; the pass prints the verdict of
    failure, leaves the tally and the files as they were, and goes on with
    the devices that remain. *)
Theorem timeout_skips_session_and_archive
    (device : loc) (rest : list loc) (dv : dict) (ip : pyval)
    (output_dir : string) (ic : option string) (count : nat)
    (s : state) (w : World) :
  heap s !! device = Some dv ->
  dv !! "ip" = Some ip ->
  ConnectHandler (delete "description" dv) (world s) = (Raise NetMikoTimeoutException, w) ->
  let collected_ev :=
    [ Print (MsgParams dv);
      Call (CallConnectHandler (delete "description" dv));
      Print (MsgTimeout ip);
      LogError (MsgTimeout ip) ] in
  let device_ev :=
    Print (MsgConnecting ip (default (VStr "") (dv !! "description")))
      :: collected_ev ++ [Print MsgFail] in
  let s' := with_world (after_copy s dv) w in
  get_switch_config device ic s = (Ok (VNone, VNone), collected_ev, s') /\
  process_device output_dir ic count device s = (Ok count, device_ev, s') /\
  List.filter session_call device_ev = [] /\
  List.filter archive_call device_ev = [] /\
  files s' = files s /\
  for_devices output_dir ic (device :: rest) count s =
    match for_devices output_dir ic rest count s' with
    | (r, ev, s'') => (r, device_ev ++ ev, s'')
    end.
Proof.
  intros Hd Hip Hconn collected_ev device_ev s'.
  assert (get_switch_config device ic s = (Ok (VNone, VNone), collected_ev, s')) as Hgs.
  { rewrite (get_switch_config_unfold _ _ dv) by done.
    rewrite (try_connect_and_collect _ _ _ (delete "description" dv))
      by (unfold after_copy; simpl; apply lookup_insert_eq).
    rewrite try_with_ConnectHandler.
    change (world (after_copy s dv)) with (world s). rewrite Hconn.
    unfold on_exception.
    assert (dict_getitem device "ip" s' = (Ok ip, [], s')) as Hget.
    { eapply dict_getitem_run; [|exact Hip].
      unfold s'. simpl. rewrite lookup_insert_ne; [done|].
      intros <-. apply (is_fresh (dom (heap s))). apply elem_of_dom. by rewrite Hd. }
    fold s'.
    erewrite bind_run; [|exact Hget]. erewrite bind_run; [|reflexivity].
    erewrite bind_run; [|exact Hget]. erewrite bind_run; [|reflexivity].
    reflexivity. }
  assert (process_device output_dir ic count device s = (Ok count, device_ev, s')) as Hpd.
  { unfold process_device.
    erewrite bind_run; [|by eapply dict_getitem_run].
    erewrite bind_run; [|by eapply dict_get_run].
    erewrite bind_run; [|reflexivity].
    erewrite bind_run; [|exact Hgs]. reflexivity. }
  repeat split; try done.
  simpl. erewrite bind_run; [|exact Hpd].
  by destruct (for_devices output_dir ic rest count s') as [[r ev] s''].
Qed.

(** [C3] Every collection ends in exactly one of two ways: it returns the
    command and its output and logs no error, or it returns no output
    (and no command) and logs exactly one error, of the kind of the
    [except] clause that caught it. *)
Theorem collection_outcome_exclusive
    (device : loc) (dv : dict) (ic : option string) (s : state) :
  device_failures_only C ->
  heap s !! device = Some dv ->
  is_Some (dv !! "ip") ->
  exists command output ev s',
    get_switch_config device ic s = (Ok (command, output), ev, s') /\
    ((exists cmd out, command = VStr cmd /\ output = VStr out /\ errors ev = []) \/
     (command = VNone /\ output = VNone /\ exists kind, errors ev = [kind])).
Proof.
  intros Hfail Hd [ip Hip].
  destruct (get_switch_config_outcome device ic dv ip s Hfail Hd Hip)
    as ([command output] & ev & w & Hrun & _ & Hcases).
  exists command, output. eexists _, _. split; [exact Hrun|].
  destruct Hcases as [[(cmd & out & [= -> ->]) Herr] | [[= -> ->] [kind Herr]]].
  - left. by exists cmd, out.
  - right. repeat split. by exists kind.
Qed.

(** [C7] A collection never touches the dict of the device: it works on a
    copy, a new object of the store, from which [description] is removed
    before the session is asked for; the device's dict, and every other
    dict that was in the store, is afterwards what it was. *)
Theorem collection_keeps_profile
    (device : loc) (dv : dict) (ic : option string) (s : state) :
  heap s !! device = Some dv ->
  exists r ev s',
    get_switch_config device ic s
      = (r, Print (MsgParams dv)
              :: Call (CallConnectHandler (delete "description" dv)) :: ev, s') /\
    heap s' !! device = Some dv /\
    (forall l : loc, is_Some (heap s !! l) -> heap s' !! l = heap s !! l) /\
    (exists copy : loc,
        heap s !! copy = None /\
        heap s' !! copy = Some (delete "description" dv)).
Proof.
  intros Hd.
  destruct (get_switch_config_shape device ic dv s Hd) as (r & ev & w & Hrun & _).
  exists r, ev. eexists. split; [exact Hrun|].
  split; [|split].
  - simpl. rewrite lookup_insert_ne; [done|].
    intros <-. apply (is_fresh (dom (heap s))). apply elem_of_dom. by rewrite Hd.
  - intros l Hl. by apply after_copy_old.
  - exists (fresh (dom (heap s))). split.
    + apply not_elem_of_dom. apply is_fresh.
    + simpl. apply lookup_insert_eq.
Qed.

(** The archive file of a host depends on the directory, the host and the
    calendar day only. *)
Lemma archive_path_of_day (output_dir : string) (ip : pyval) (t1 t2 : datetime) :
  same_day t1 t2 ->
  os_path_join output_dir (archive_filename ip t1)
  = os_path_join output_dir (archive_filename ip t2).
Proof.
  intros (Hy & Hm & Hd). unfold archive_filename, strftime_Ymd.
  by rewrite Hy, Hm, Hd.
Qed.

Lemma mode_for_existing (s : state) (p c : string) :
  files s !! p = Some c -> mode_for s p = ModeA.
Proof. intros Hp. unfold mode_for. rewrite bool_decide_true by eauto. done. Qed.

(** [C4] The path of the archive file is a function of the host and the
    calendar day of the write (in a given archive directory), and two
    writes for one host on one day, both let through by the operating
    system, leave one file: what it held before, then the block of the
    first write, then the block of the second. The second write opens the
    file for appending and the first block stays as written; no other
    file changes. *)
Theorem archive_accumulates_per_host_and_day
    (ip command1 command2 : pyval) (output1 output2 output_dir : string)
    (s : state) (t1 t2 : datetime) (w1 w2 w3 w4 : World) :
  let p := os_path_join output_dir (archive_filename ip t1) in
  let before := default "" (files s !! p) in
  same_day t1 t2 ->
  p ∉ dirs s ->
  datetime_now (world s) = (t1, w1) ->
  os_fault (CallOpen p (mode_for s p)) w1 = (None, w2) ->
  datetime_now w2 = (t2, w3) ->
  os_fault (CallOpen p ModeA) w3 = (None, w4) ->
  os_path_join output_dir (archive_filename ip t2) = p /\
  exists ev1 s1 ev2 s2,
    save_config_to_file ip command1 (VStr output1) output_dir s = (Ok (Some p), ev1, s1) /\
    save_config_to_file ip command2 (VStr output2) output_dir s1 = (Ok (Some p), ev2, s2) /\
    files s1 !! p = Some (before +:+ archive_block t1 command1 output1) /\
    files s2 !! p =
      Some (before +:+ archive_block t1 command1 output1
                   +:+ archive_block t2 command2 output2) /\
    (exists tail, ev2 = Call (CallOpen p ModeA) :: tail) /\
    (forall q, q ≠ p -> files s2 !! q = files s !! q).
Proof.
  intros p before Hday Hdir Hnow1 Hopen1 Hnow2 Hopen2.
  assert (os_path_join output_dir (archive_filename ip t2) = p) as Hp.
  { symmetry. by apply archive_path_of_day. }
  split; [done|].
  pose proof (save_config_to_file_run ip command1 output1 output_dir s t1 w1 w2
                Hnow1 Hopen1 Hdir) as Hrun1.
  fold p in Hrun1. fold before in Hrun1.
  set (s1 := with_files (with_world s w2)
               (<[p := before +:+ archive_block t1 command1 output1]> (files s))) in *.
  assert (files s1 !! p = Some (before +:+ archive_block t1 command1 output1)) as Hfile1.
  { unfold s1. simpl. apply lookup_insert_eq. }
  pose proof (save_config_to_file_run ip command2 output2 output_dir s1 t2 w3 w4) as Hrun2.
  cbv zeta in Hrun2. rewrite Hp in Hrun2. rewrite (mode_for_existing s1 p _ Hfile1) in Hrun2.
  specialize (Hrun2 Hnow2 Hopen2 Hdir). rewrite Hfile1 in Hrun2. simpl in Hrun2.
  eexists _, s1, _, _. split; [exact Hrun1|]. split; [exact Hrun2|].
  split; [exact Hfile1|]. split; [|split].
  - simpl. rewrite lookup_insert_eq. by rewrite append_assoc.
  - by eexists.
  - intros q Hq. simpl. by rewrite !lookup_insert_ne.
Qed.

(** [C5] When the collection of a device has succeeded and the operating
    system refuses the archive file, the failure is logged and the device
    still counts: the pass prints the verdict of success, adds one to the
    tally, and goes on with the devices that remain. *)
Theorem archive_failure_keeps_success
    (device : loc) (rest : list loc) (dv : dict) (ip command config : pyval)
    (output_dir : string) (ic : option string) (count : nat)
    (s s1 : state) (ev : list event) (t : datetime) (w1 w2 : World) (e : exn) :
  let p := os_path_join output_dir (archive_filename ip t) in
  let device_ev :=
    Print (MsgConnecting ip (default (VStr "") (dv !! "description")))
      :: ev ++ [ Call (CallOpen p (mode_for s1 p));
                 LogError (MsgSaveFailed e);
                 Print MsgOk ] in
  heap s !! device = Some dv ->
  dv !! "ip" = Some ip ->
  get_switch_config device ic s = (Ok (command, config), ev, s1) ->
  truthy config = true ->
  datetime_now (world s1) = (t, w1) ->
  os_fault (CallOpen p (mode_for s1 p)) w1 = (Some e, w2) ->
  is_Exception e = true ->
  save_config_to_file ip command config output_dir s1
    = (Ok None, [Call (CallOpen p (mode_for s1 p)); LogError (MsgSaveFailed e)],
       with_world s1 w2) /\
  process_device output_dir ic count device s
    = (Ok (S count), device_ev, with_world s1 w2) /\
  for_devices output_dir ic (device :: rest) count s =
    match for_devices output_dir ic rest (S count) (with_world s1 w2) with
    | (r, ev', s') => (r, device_ev ++ ev', s')
    end.
Proof.
  intros p device_ev Hd Hip Hgs Htruthy Hnow Hfault He.
  pose proof (save_config_to_file_refused ip command config output_dir s1 t w1 w2 e
                Hnow Hfault He) as Hsave.
  fold p in Hsave.
  assert (process_device output_dir ic count device s
          = (Ok (S count), device_ev, with_world s1 w2)) as Hpd.
  { unfold process_device.
    erewrite bind_run; [|by eapply dict_getitem_run].
    erewrite bind_run; [|by eapply dict_get_run].
    erewrite bind_run; [|reflexivity].
    erewrite bind_run; [|exact Hgs].
    cbv beta iota. rewrite Htruthy.
    erewrite bind_run; [|exact Hsave].
    reflexivity. }
  split; [exact Hsave|]. split; [exact Hpd|].
  simpl. erewrite bind_run; [|exact Hpd].
  by destruct (for_devices output_dir ic rest (S count) (with_world s1 w2)) as [[r ev'] s'].
Qed.

(** A collection leaves the files as they were and calls nothing on the
    archive. *)
Lemma get_switch_config_files device ic dv s r ev s1 :
  heap s !! device = Some dv ->
  get_switch_config device ic s = (r, ev, s1) ->
  files s1 = files s /\ dirs s1 = dirs s /\ List.filter archive_call ev = [].
Proof.
  intros Hd Hrun.
  destruct (get_switch_config_shape device ic dv s Hd) as (r' & ev' & w & Hrun' & Hq).
  rewrite Hrun in Hrun'. injection Hrun' as -> -> ->.
  repeat split. simpl. by apply quiet_archive.
Qed.

(** [C10] Success is read off the output, not off the completion of the
    command. A device whose command returned the empty string gets the
    verdict of failure: the tally stays, no file is opened or written,
    the files are as before. And an empty command from the caller counts
    as none: the collection, hence the pass, runs as without a command,
    with the command [get_config_command] gives for the device type. *)
Theorem empty_output_is_failure_and_empty_command_is_default
    (device : loc) (dv : dict) (ip command : pyval)
    (output_dir : string) (ic : option string) (count : nat)
    (s s1 : state) (ev : list event) :
  heap s !! device = Some dv ->
  dv !! "ip" = Some ip ->
  get_switch_config device ic s = (Ok (command, VStr ""), ev, s1) ->
  let device_ev :=
    Print (MsgConnecting ip (default (VStr "") (dv !! "description")))
      :: ev ++ [Print MsgFail] in
  (process_device output_dir ic count device s = (Ok count, device_ev, s1) /\
   List.filter archive_call device_ev = [] /\
   files s1 = files s) /\
  ((forall s0, get_switch_config device (Some "") s0 = get_switch_config device None s0) /\
   (forall devices s0,
      process_connection devices output_dir (Some "") s0
      = process_connection devices output_dir None s0) /\
   (forall l kw dt s0,
      heap s0 !! l = Some kw -> kw !! "device_type" = Some dt ->
      choose_command l (Some "") s0 = (Ok (get_config_command dt), [], s0))).
Proof.
  intros Hd Hip Hgs device_ev.
  destruct (get_switch_config_files device ic dv s _ _ _ Hd Hgs) as (Hfiles & _ & Harch).
  split; [split; [|split]|split; [|split]].
  - unfold process_device.
    erewrite bind_run; [|by eapply dict_getitem_run].
    erewrite bind_run; [|by eapply dict_get_run].
    erewrite bind_run; [|reflexivity].
    erewrite bind_run; [|exact Hgs]. reflexivity.
  - unfold device_ev. simpl. rewrite List.filter_app, Harch. reflexivity.
  - exact Hfiles.
  - reflexivity.
  - intros devices s0. unfold process_connection.
    assert (forall n s', for_devices output_dir (Some "") devices n s'
                         = for_devices output_dir None devices n s') as Hloop.
    { induction devices as [|d devices IH]; intros n s'; [done|]. simpl.
      unfold bind.
      change (process_device output_dir (Some "") n d s')
        with (process_device output_dir None n d s').
      destruct (process_device output_dir None n d s') as [[[a|e0] ev0] s2]; [|done].
      by rewrite IH. }
    unfold bind. simpl. by rewrite Hloop.
  - intros l kw dt s0 Hl Hdt. unfold choose_command. simpl.
    erewrite bind_run; [|by eapply dict_getitem_run]. reflexivity.
Qed.

(** *** get_config_command *)

Lemma command_table_keys_distinct : NoDup command_table.*1.
Proof. apply (bool_decide_unpack _). vm_compute. exact I. Qed.

(** [C6] The resolver is a total function of the device type: each of the
    nine dialects of its table resolves to the command the table gives
    it, and everything else, ["made_up_os"] for one, resolves to the
    fallback ["show running-config"]. *)
Theorem get_config_command_table_or_fallback :
  (forall k v, (k, v) ∈ command_table -> get_config_command (VStr k) = v) /\
  (forall device_type,
     (forall k, k ∈ command_table.*1 -> device_type ≠ VStr k) ->
     get_config_command device_type = "show running-config") /\
  get_config_command (VStr "made_up_os") = "show running-config".
Proof.
  split; [|split].
  - intros k v Hin. unfold get_config_command, commands.
    rewrite (elem_of_list_to_map_1 _ _ _ command_table_keys_distinct Hin). done.
  - intros [|k| |] Hnot; try done. unfold get_config_command, commands.
    rewrite (not_elem_of_list_to_map_1 command_table k); [done|].
    intros Hk. by apply (Hnot k).
  - reflexivity.
Qed.

(** *** The interactive loop *)

(** [C8] At the prompt for a command, [exit] stops the loop and no pass
    is run; any other line is kept as the command and the confirmation is
    asked. At the confirmation, a line that does not lower to [y] stops
    the loop and no pass is run; a line that does runs one pass with the
    kept command on the directory of ad-hoc results, prints the tally and
    asks for a command again. Once stopped, the loop reads nothing more. *)
Theorem interactive_loop_transitions
    (devices : list loc) (command answer : string) (keys : list key) (s : state) :
  loop_step devices AwaitingCommand (Line "exit") s
    = (Ok Stopped, [Call (CallInput PromptCommand); LogInfo MsgUserExit], s) /\
  (command ≠ "exit" ->
   loop_step devices AwaitingCommand (Line command) s
     = (Ok (AwaitingConfirmation command), [Call (CallInput PromptCommand)], s)) /\
  (str_lower answer ≠ "y" ->
   loop_step devices (AwaitingConfirmation command) (Line answer) s
     = (Ok Stopped, [Call (CallInput PromptProceed); Print MsgCancelled], s)) /\
  (str_lower answer = "y" ->
   forall ev_dir s0 n ev_pass s1,
     ensure_dir other_dir s = (Ok tt, ev_dir, s0) ->
     process_connection devices other_dir (Some command) s0 = (Ok n, ev_pass, s1) ->
     loop_step devices (AwaitingConfirmation command) (Line answer) s
       = (Ok AwaitingCommand,
          [Call (CallInput PromptProceed); Print (MsgExecuting command)]
            ++ ev_dir ++ ev_pass
            ++ [ Print (MsgTally n (length devices)); Print MsgLogFile;
                 Print (MsgConfigPath "config_storage/other"); Print MsgStars ],
          s1)) /\
  run_loop devices Stopped keys s = (Ok tt, [], s) /\
  execute_other_command devices (Line "exit" :: keys) s
    = (Ok tt, [Call (CallInput PromptCommand); LogInfo MsgUserExit], s).
Proof.
  split; [reflexivity|].
  split; [|split; [|split; [|split; [by destruct keys | by destruct keys]]]].
  - intros Hne. unfold loop_step, try_except, bind, input, emit, ret. simpl.
    destruct (String.eqb_spec command "exit"); [done | reflexivity].
  - intros Hne. unfold loop_step, try_except, bind, input, emit, ret, print. simpl.
    destruct (String.eqb_spec (str_lower answer) "y"); [done | reflexivity].
  - intros Hy ev_dir s0 n ev_pass s1 Hdir Hpass.
    unfold loop_step, try_except.
    erewrite bind_run; [|reflexivity]. cbv beta iota zeta.
    rewrite Hy. change (negb ("y" =? "y")%string) with false. cbv iota.
    erewrite bind_run; [|reflexivity].
    erewrite bind_run; [|exact Hdir].
    erewrite bind_run; [|exact Hpass].
    reflexivity.
Qed.

(** *** The inventory *)

(** A sheet without the [port] column never reaches the defaults: the
    loader logs the column as missing and returns no device. *)
Lemma load_devices_requires_port (file_path : string) (df : DataFrame)
    (s : state) (w : World) :
  pd_read_excel file_path (world s) = (Ok df, w) ->
  "port" ∉ columns df ->
  exists missing,
    load_devices_from_excel_conf file_path s
      = (Ok [], [Call (CallReadExcel file_path); LogError (MsgMissingColumns missing)],
         with_world s w) /\
    "port" ∈ missing.
Proof.
  intros Hread Hport.
  unfold load_devices_from_excel_conf, try_except.
  erewrite bind_run; [|unfold remote; by rewrite Hread].
  cbv beta zeta.
  set (missing := List.filter _ required_columns).
  assert (In "port" missing) as Hin.
  { apply filter_In. split; [right; by left|].
    unfold in_columns. by rewrite bool_decide_false. }
  destruct missing as [|col missing]; [destruct Hin|].
  exists (col :: missing). split; [reflexivity|].
  by apply list_elem_of_In.
Qed.

Lemma alloc_all_run (ds : list dict) :
  forall s, exists ls s',
    alloc_all ds s = (Ok ls, [], s') /\
    Forall2 (fun l d => heap s' !! l = Some d) ls ds /\
    (forall l : loc, is_Some (heap s !! l) -> heap s' !! l = heap s !! l).
Proof.
  induction ds as [|d ds IH]; intros s.
  - exists [], s. by repeat split; try constructor.
  - set (l := fresh (dom (heap s))).
    destruct (IH (with_heap s (<[l := d]> (heap s)))) as (ls & s' & Hrun & Hall & Hkept).
    exists (l :: ls), s'. split; [|split].
    + simpl. erewrite bind_run; [|reflexivity]. fold l.
      erewrite bind_run; [|exact Hrun]. reflexivity.
    + constructor; [|done].
      rewrite Hkept; simpl; rewrite lookup_insert_eq; eauto.
    + intros l' Hl'. rewrite Hkept; simpl.
      * apply lookup_insert_ne. intros <-.
        apply (is_fresh (dom (heap s))). by apply elem_of_dom.
      * rewrite lookup_insert_ne; [done|]. intros <-.
        apply (is_fresh (dom (heap s))). by apply elem_of_dom.
Qed.

Lemma default_column_complete c v df :
  frame_complete df -> frame_complete (default_column c v df).
Proof.
  unfold default_column, frame_complete. destruct (in_columns c df); [done|].
  intros Hdf. simpl. apply Forall_forall. intros r Hr.
  apply list_elem_of_In, in_map_iff in Hr as (r0 & <- & Hr0).
  rewrite !length_app. simpl.
  apply list_elem_of_In in Hr0. rewrite Forall_forall in Hdf.
  specialize (Hdf r0 Hr0). simpl in Hdf. lia.
Qed.

Lemma default_column_keeps c v df k :
  k ∈ columns df -> k ∈ columns (default_column c v df).
Proof.
  unfold default_column. destruct (in_columns c df); [done|]. simpl. set_solver.
Qed.

Lemma records_have_column df k :
  frame_complete df -> k ∈ columns df ->
  Forall (fun d : dict => is_Some (d !! k)) (df_to_dict_records df).
Proof.
  intros Hdf Hk. unfold df_to_dict_records. apply Forall_forall. intros d Hd.
  apply list_elem_of_In, in_map_iff in Hd as (r & <- & Hr).
  apply list_elem_of_In in Hr. unfold frame_complete in Hdf.
  rewrite Forall_forall in Hdf. specialize (Hdf r Hr).
  destruct (list_to_map (zip (columns df) r) !! k) as [v|] eqn:Hlook; [by eexists|].
  apply not_elem_of_list_to_map in Hlook.
  rewrite fst_zip in Hlook by lia. done.
Qed.

(** The devices the loader returns all name a host: [ip] is a required
    column, and every record of the sheet has a cell for it. *)
Lemma loaded_devices_have_hosts file_path df w s devices ev s' :
  pd_read_excel file_path (world s) = (Ok df, w) ->
  frame_complete df ->
  load_devices_from_excel_conf file_path s = (Ok devices, ev, s') ->
  Forall (has_host s') devices.
Proof.
  intros Hread Hdf.
  unfold load_devices_from_excel_conf, try_except.
  erewrite bind_run; [|unfold remote; by rewrite Hread].
  cbv beta zeta.
  destruct (List.filter _ required_columns) as [|col missing] eqn:Hmissing.
  - assert ("ip" ∈ columns df) as Hip.
    { destruct (in_columns "ip" df) eqn:Hin;
        [by apply bool_decide_eq_true in Hin|].
      assert (In "ip" []) as [].
      rewrite <- Hmissing. apply filter_In. split; [by left | by rewrite Hin]. }
    set (df3 := default_column "description" (VStr "")
                  (default_column "secret" VNone (default_column "port" (VInt 22) df))).
    destruct (alloc_all_run (df_to_dict_records df3) (with_world s w))
      as (ls & s2 & Hrun & Hall & _).
    erewrite bind_run; [|exact Hrun]. simpl. intros [= <- <- <-].
    assert (Forall (fun d : dict => is_Some (d !! "ip")) (df_to_dict_records df3)) as Hrec.
    { apply records_have_column.
      - by do 3 apply default_column_complete.
      - by do 3 apply default_column_keeps. }
    clear Hrun. induction Hall as [|l d ls ds Hl Hall IH]; [constructor|].
    apply Forall_cons in Hrec as [Hd Hrec].
    constructor; [by exists d | by apply IH].
  - simpl. intros [= <- <- <-]. constructor.
Qed.

(** ** Beyond one collection *)

(** *** Results: what is returned, what can be raised *)

Lemma yields_ret {A} (R : A -> Prop) E a : R a -> yields R E (ret a).
Proof. by intros Ha s. Qed.

Lemma yields_raise {A} (R : A -> Prop) (E : exn -> Prop) e :
  E e -> yields R E (@raise C A e).
Proof. by intros He s. Qed.

Lemma yields_bind {A B} (R1 : A -> Prop) (R2 : B -> Prop) E (m : M A) (k : A -> M B) :
  yields R1 E m -> (forall a, R1 a -> yields R2 E (k a)) -> yields R2 E (bind m k).
Proof.
  intros Hm Hk s. unfold bind. specialize (Hm s).
  destruct (m s) as [[[a|e] ev] s1]; simpl in *; [|done].
  specialize (Hk a Hm s1). by destruct (k a s1) as [[r ev'] s2].
Qed.

(** What a [try] lets out is what its handlers let out. *)
Lemma yields_try {A} (R : A -> Prop) E E0 (m : M A) (h : exn -> M A) :
  yields R E0 m -> (forall e, E0 e -> yields R E (h e)) -> yields R E (try_except m h).
Proof.
  intros Hm Hh s. unfold try_except. specialize (Hm s).
  destruct (m s) as [[[a|e] ev] s1]; simpl in *; [done|].
  specialize (Hh e Hm s1). by destruct (h e s1) as [[r ev'] s2].
Qed.

Lemma yields_weaken {A} (R R' : A -> Prop) (E E' : exn -> Prop) (m : M A) :
  (forall a, R a -> R' a) -> (forall e, E e -> E' e) -> yields R E m -> yields R' E' m.
Proof.
  intros HR HE Hm s. specialize (Hm s).
  destruct ((m s).1.1); [by apply HR | by apply HE].
Qed.

Lemma yields_anything {A} (m : M A) : yields (fun _ => True) (fun _ => True) m.
Proof. intros s. by destruct ((m s).1.1). Qed.

Lemma yields_dict_getitem E l key :
  E (KeyError key) -> yields (fun _ => True) E (dict_getitem l key).
Proof.
  intros He s. unfold dict_getitem, bind, deref. simpl.
  by destruct (default ∅ (heap s !! l) !! key).
Qed.

Lemma yields_handle_Exception {A} (R : A -> Prop) (h : exn -> M A) e :
  (forall e', yields R (fun x => x = KeyboardInterrupt) (h e')) ->
  yields R (fun x => x = KeyboardInterrupt) (handle_Exception h e).
Proof.
  intros Hh. unfold handle_Exception. destruct e; simpl; try apply Hh.
  by apply yields_raise.
Qed.

Lemma on_exception_yields device e :
  yields (fun _ => True) ends_pass (on_exception device e).
Proof.
  assert (forall m : pyval -> message,
            yields (fun _ => True) ends_pass
              (ip <- dict_getitem device "ip" ;;
               print (m ip) ;;;
               ip <- dict_getitem device "ip" ;;
               logger_error (m ip) ;;;
               ret (VNone, VNone))) as Hclause.
  { intros m.
    eapply yields_bind; [apply yields_dict_getitem; by right | intros ip _].
    eapply yields_bind with (R1 := fun _ => True); [by intros s | intros _ _].
    eapply yields_bind; [apply yields_dict_getitem; by right | intros ip' _].
    eapply yields_bind with (R1 := fun _ => True); [by intros s | intros _ _].
    by apply yields_ret. }
  unfold on_exception. destruct e;
    try (apply (Hclause MsgTimeout) || apply (Hclause MsgAuthFailed)
         || apply (Hclause (fun ip => MsgFetchFailed ip _))).
  apply yields_raise. by left.
Qed.

Lemma get_switch_config_yields device ic :
  yields (fun _ => True) ends_pass (get_switch_config device ic).
Proof.
  unfold get_switch_config.
  eapply yields_try; [apply yields_anything | intros e _; apply on_exception_yields].
Qed.

Lemma save_config_to_file_yields ip command config output_dir :
  yields (fun _ => True) (fun x => x = KeyboardInterrupt)
    (save_config_to_file ip command config output_dir).
Proof.
  unfold save_config_to_file.
  eapply yields_try; [apply yields_anything | intros e _].
  apply yields_handle_Exception. intros e'.
  eapply yields_bind with (R1 := fun _ => True); [by intros s | intros _ _].
  by apply yields_ret.
Qed.

Lemma process_device_yields output_dir ic count device :
  yields (fun n => n = count \/ n = S count) ends_pass
    (process_device output_dir ic count device).
Proof.
  unfold process_device.
  eapply yields_bind; [apply yields_dict_getitem; by right | intros ip _].
  eapply yields_bind with (R1 := fun _ => True); [by intros s | intros desc _].
  eapply yields_bind with (R1 := fun _ => True); [by intros s | intros _ _].
  eapply yields_bind; [apply get_switch_config_yields | intros [command config] _].
  destruct (truthy config).
  - eapply yields_bind with (R1 := fun _ => True).
    { eapply yields_weaken; [| |apply save_config_to_file_yields]; [done|].
      intros e ->. by left. }
    intros _ _.
    eapply yields_bind with (R1 := fun _ => True); [by intros s | intros _ _].
    apply yields_ret. by right.
  - eapply yields_bind with (R1 := fun _ => True); [by intros s | intros _ _].
    apply yields_ret. by left.
Qed.

Lemma for_devices_yields output_dir ic devices :
  forall count,
    yields (fun n => count <= n <= count + length devices) ends_pass
      (for_devices output_dir ic devices count).
Proof.
  induction devices as [|device rest IH]; intros count.
  - apply yields_ret. simpl. lia.
  - simpl for_devices.
    eapply yields_bind; [apply process_device_yields | intros n Hn].
    eapply yields_weaken; [| |apply IH]; [|done].
    intros n' Hn'. simpl in *. lia.
Qed.

(** [X1] A pass ends in one of three ways: it returns a tally, which is at
    most the number of devices; it is interrupted; or it meets a dict
    without the key [ip]. No other exception leaves it, whatever the
    collaborators do. *)
Theorem pass_returns_or_ends_early
    (devices : list loc) (output_dir : string) (ic : option string) (s : state) :
  match (process_connection devices output_dir ic s).1.1 with
  | Ok n => n <= length devices
  | Raise e => e = KeyboardInterrupt \/ e = KeyError "ip"
  end.
Proof.
  assert (yields (fun n => n <= length devices) ends_pass
            (process_connection devices output_dir ic)) as Hpass.
  { unfold process_connection.
    eapply yields_bind with (R1 := fun _ => True); [by intros s0 | intros _ _].
    eapply yields_bind with (R1 := fun _ => True); [by intros s0 | intros _ _].
    eapply yields_bind; [apply for_devices_yields | intros n Hn].
    eapply yields_bind with (R1 := fun _ => True); [by intros s0 | intros _ _].
    apply yields_ret. simpl in Hn. lia. }
  exact (Hpass s).
Qed.

(** *** The interactive loop and interrupts *)

Lemma loop_step_yields devices st k :
  yields (fun _ => True) (fun e => e ≠ KeyboardInterrupt) (loop_step devices st k).
Proof.
  unfold loop_step.
  eapply yields_try; [apply yields_anything | intros e _].
  destruct e; try (by apply yields_raise).
  eapply yields_bind with (R1 := fun _ => True); [by intros s | intros _ _].
  by apply yields_ret.
Qed.

Lemma run_loop_yields devices keys :
  forall st,
    yields (fun _ => True) (fun e => e ≠ KeyboardInterrupt) (run_loop devices st keys).
Proof.
  induction keys as [|k keys IH]; intros st.
  - destruct st; simpl run_loop; try (by apply yields_ret);
      (eapply yields_bind with (R1 := fun _ => True); [by intros s | intros _ _];
       by apply yields_raise).
  - destruct st; simpl run_loop; try (by apply yields_ret);
      (eapply yields_bind; [apply loop_step_yields | intros st' _; apply IH]).
Qed.

(** [X18] No interrupt leaves the interactive loop: typed at a prompt or raised
    in the middle of an ad-hoc pass, it is reported and the loop stops,
    returning normally, with whatever the pass had done so far. *)
Theorem interactive_loop_contains_interrupts
    (devices : list loc) (command answer : string) (keys : list key)
    (s s0 s1 : state) (ev_dir ev_pass : list event) :
  (execute_other_command devices keys s).1.1 ≠ Raise KeyboardInterrupt /\
  loop_step devices AwaitingCommand CtrlC s
    = (Ok Stopped, [Call (CallInput PromptCommand); Print MsgInterrupted], s) /\
  loop_step devices (AwaitingConfirmation command) CtrlC s
    = (Ok Stopped, [Call (CallInput PromptProceed); Print MsgInterrupted], s) /\
  (str_lower answer = "y" ->
   ensure_dir other_dir s = (Ok tt, ev_dir, s0) ->
   process_connection devices other_dir (Some command) s0
     = (Raise KeyboardInterrupt, ev_pass, s1) ->
   loop_step devices (AwaitingConfirmation command) (Line answer) s
     = (Ok Stopped,
        [Call (CallInput PromptProceed); Print (MsgExecuting command)]
          ++ ev_dir ++ ev_pass ++ [Print MsgInterrupted],
        s1)).
Proof.
  split; [|split; [reflexivity|split; [reflexivity|]]].
  - pose proof (run_loop_yields devices keys AwaitingCommand s) as Hrun.
    unfold execute_other_command.
    destruct ((run_loop devices AwaitingCommand keys s).1.1); [done|].
    intros [= ->]. done.
  - intros Hy Hdir Hpass. unfold loop_step, try_except.
    erewrite bind_run; [|reflexivity]. cbv beta iota zeta.
    rewrite Hy. change (negb ("y" =? "y")%string) with false. cbv iota.
    erewrite bind_run; [|reflexivity].
    erewrite bind_run; [|exact Hdir].
    unfold bind at 1. rewrite Hpass. simpl. by rewrite <- !app_assoc.
Qed.

(** *** Nothing is lost *)

Lemma append_nil_r (s : string) : s +:+ "" = s.
Proof.
  induction s as [|x s IH]; [done|].
  change (String x (s +:+ "") = String x s). by rewrite IH.
Qed.

Lemma store_kept_trans s1 s2 s3 :
  store_kept s1 s2 -> store_kept s2 s3 -> store_kept s1 s3.
Proof.
  intros H12 H23 l Hl. rewrite H23; [by apply H12|]. by rewrite H12.
Qed.

Lemma appended_trans s1 s2 s3 :
  appended s1 s2 -> appended s2 s3 -> appended s1 s3.
Proof.
  intros H12 H23 p c Hp.
  destruct (H12 p c Hp) as [x Hx]. destruct (H23 p _ Hx) as [y Hy].
  exists (x +:+ y). by rewrite <- append_assoc.
Qed.

#[global] Instance preserved_frame : Frame preserved.
Proof.
  split.
  - intros s. split; [done|]. split; [|done].
    intros p c Hp. exists "". by rewrite append_nil_r.
  - intros s1 s2 s3 (Hs & Ha & Hd) (Hs' & Ha' & Hd').
    split; [by eapply store_kept_trans|]. split; [by eapply appended_trans|].
    set_solver.
  - intros s w. split; [done|]. split; [|done].
    intros p c Hp. exists "". by rewrite append_nil_r.
Qed.

Lemma emits_frame {A} (F G : state -> state -> Prop) P (m : M A) :
  (forall s s', F s s' -> G s s') -> emits F P m -> emits G P m.
Proof. intros HFG Hm s. destruct (Hm s) as [Hev Hs]. split; [done | by apply HFG]. Qed.

Lemma world_moved_preserved s s' : world_moved s s' -> preserved s s'.
Proof. intros [w ->]. apply frame_world. Qed.

Lemma emits_at_bind {A B} F `{!Frame F} P (m : M A) (k : A -> M B) s :
  emits_at F P m s -> (forall a, emits F P (k a)) -> emits_at F P (bind m k) s.
Proof.
  intros [Hev Hs] Hk. unfold emits_at, bind in *.
  destruct (m s) as [[[a|e] ev] s1]; simpl in *; [|done].
  destruct (Hk a s1) as [Hev' Hs'].
  destruct (k a s1) as [[r ev'] s2]; simpl in *.
  split; [by apply Forall_app | by eapply frame_trans].
Qed.

Lemma with_heap_preserved s l d :
  heap s !! l = None -> preserved s (with_heap s (<[l := d]> (heap s))).
Proof.
  intros Hl. split; [|split; [|done]].
  - intros l' Hl'. simpl. apply lookup_insert_ne. intros <-.
    rewrite Hl in Hl'. by destruct Hl'.
  - intros p c Hp. exists "". by rewrite append_nil_r.
Qed.

Lemma fresh_unused (s : state) : heap s !! fresh (dom (heap s)) = None.
Proof. apply not_elem_of_dom. apply is_fresh. Qed.

Lemma emits_alloc P d : emits preserved P (alloc d).
Proof.
  intros s. split; [constructor|]. apply with_heap_preserved, fresh_unused.
Qed.

(** The working copy is a new object, whatever the reference holds. *)
Lemma copy_conn_params_any (device : loc) (s : state) :
  let dv := default ∅ (heap s !! device) in
  copy_conn_params device s =
    (Ok (fresh (dom (heap s))), [Print (MsgParams dv)], after_copy s dv).
Proof.
  intros dv. subst dv.
  unfold copy_conn_params, dict_copy, dict_contains, dict_del, bind, deref, alloc,
    print, emit, ret, store, after_copy.
  simpl. rewrite lookup_insert_eq. simpl.
  destruct (default ∅ (heap s !! device) !! "description") as [v|] eqn:Hdesc.
  - rewrite bool_decide_true by eauto. simpl. rewrite lookup_insert_eq. simpl.
    rewrite Hdesc. simpl. unfold with_heap. simpl. rewrite insert_insert_eq. reflexivity.
  - rewrite bool_decide_false by (intros [? ?]; congruence). simpl.
    rewrite (delete_id (default ∅ (heap s !! device))) by done. reflexivity.
Qed.

Lemma emits_copy_conn_params P device :
  (forall d, P (Print (MsgParams d))) ->
  emits preserved P (copy_conn_params device).
Proof.
  intros HP s. rewrite copy_conn_params_any. simpl.
  split; [by repeat constructor|]. apply with_heap_preserved, fresh_unused.
Qed.

Lemma emits_file_write P p data :
  P (Call (CallWrite p data)) -> emits preserved P (file_write p data).
Proof.
  intros HP s. unfold file_write, bind, emit, set_files. simpl.
  split; [by repeat constructor|]. split; [done|]. split; [|done].
  intros q c Hq. simpl. destruct (decide (p = q)) as [<-|Hne].
  - rewrite lookup_insert_eq, Hq. simpl. by eexists.
  - rewrite lookup_insert_ne by done. exists "". by rewrite Hq, append_nil_r.
Qed.

(** [open] in the mode chosen by [os.path.exists]: a file that exists is
    opened for appending, so what it holds stays. *)
Lemma emits_open_checked {A} P p (k : M A) :
  P (Call (CallOpen p ModeA)) -> P (Call (CallOpen p ModeW)) ->
  emits preserved P k ->
  emits preserved P
    (ex <- os_path_exists p ;; open_file p (if ex then ModeA else ModeW) ;;; k).
Proof.
  intros HA HW Hk s.
  set (ex := bool_decide (is_Some (files s !! p)) || bool_decide (p ∈ dirs s)).
  assert (emits_at preserved P (open_file p (if ex then ModeA else ModeW)) s) as Hopen.
  { unfold emits_at, open_file, os_request, bind, remote, is_dir, set_files, raise, ret.
    destruct (os_fault (CallOpen p (if ex then ModeA else ModeW)) (world s))
      as [[e|] w] eqn:Hf; simpl.
    - split; [destruct ex; by repeat constructor | apply frame_world].
    - destruct (bool_decide (p ∈ dirs s)) eqn:Hdir; simpl.
      + split; [destruct ex; by repeat constructor | apply frame_world].
      + split; [destruct ex; by repeat constructor|].
        subst ex. rewrite ?Hdir, orb_false_r.
        destruct (files s !! p) as [c|] eqn:Hp.
        * rewrite bool_decide_true by eauto. simpl.
          split; [done|]. split; [|done].
          intros q c' Hq. simpl. exists "". rewrite append_nil_r.
          destruct (decide (p = q)) as [<-|Hne].
          -- rewrite lookup_insert_eq, Hp. simpl. congruence.
          -- by rewrite lookup_insert_ne.
        * rewrite bool_decide_false by (intros [? ?]; congruence). simpl.
          split; [done|]. split; [|done].
          intros q c' Hq. simpl. exists "". rewrite append_nil_r.
          rewrite lookup_insert_ne; [done|]. intros <-. congruence. }
  pose proof (emits_at_bind preserved P _ (fun _ => k) s Hopen (fun _ => Hk)) as Hall.
  unfold emits_at in Hall.
  erewrite bind_run; [|reflexivity]. fold ex.
  by destruct (bind (open_file p (if ex then ModeA else ModeW)) (fun _ => k) s)
    as [[r ev] s'].
Qed.

Lemma emits_os_mkdir P p : P (Call (CallMkdir p)) -> emits preserved P (os_mkdir p).
Proof.
  intros HP s. unfold os_mkdir, os_request, bind, remote, os_path_exists, set_dirs,
    raise, ret.
  destruct (os_fault (CallMkdir p) (world s)) as [[e|] w]; simpl.
  - split; [by repeat constructor | apply frame_world].
  - destruct (_ || _); simpl.
    + split; [by repeat constructor | apply frame_world].
    + split; [by repeat constructor|]. split; [done|]. split.
      * intros q c Hq. exists "". by rewrite append_nil_r.
      * simpl. set_solver.
Qed.

Ltac keeps :=
  repeat first
    [ match goal with
      | |- Frame _ => apply _
      | |- forall _, emits _ _ _ => intro
      end
    | apply emits_ret | apply emits_raise | apply emits_deref | apply emits_now
    | apply emits_dict_get | apply emits_dict_getitem
    | apply emits_os_path_exists
    | apply emits_alloc
    | apply emits_file_write; done
    | apply emits_os_mkdir; done
    | apply emits_emit; [| done]
    | apply emits_remote; [| done]
    | apply emits_bind
    | apply emits_try
    | apply emits_with_exit
    | match goal with
      | |- emits _ _ (if ?b then _ else _) => destruct b
      | |- emits _ _ (match ?x with _ => _ end) => destruct x
      end ].

Lemma get_switch_config_preserved device ic :
  emits preserved no_verdict (get_switch_config device ic).
Proof.
  unfold get_switch_config.
  apply emits_try; [apply _ | |].
  - apply emits_bind; [apply _ | by apply emits_copy_conn_params |].
    intros l. apply (emits_frame world_moved); [apply world_moved_preserved|].
    unfold connect_and_collect, with_ConnectHandler, in_session, choose_command,
      logger_info.
    keeps.
  - intros e. apply (emits_frame world_moved); [apply world_moved_preserved|].
    unfold on_exception, logger_error, print. keeps.
Qed.

Lemma save_config_to_file_preserved ip command config output_dir :
  emits preserved no_verdict (save_config_to_file ip command config output_dir).
Proof.
  unfold save_config_to_file.
  apply emits_try; [apply _ | |].
  - apply emits_bind; [apply _ | apply emits_now; apply _ |].
    intros op_time. cbv zeta.
    apply emits_open_checked; [done | done |].
    unfold py_add_str, logger_info. keeps.
  - intros e. unfold handle_Exception, logger_error. keeps.
Qed.

Lemma process_device_preserved output_dir ic count device :
  emits preserved (fun _ => True) (process_device output_dir ic count device).
Proof.
  unfold process_device, print.
  apply emits_bind; [apply _ | keeps |]. intros ip.
  apply emits_bind; [apply _ | keeps |]. intros desc.
  apply emits_bind; [apply _ | keeps |]. intros _.
  apply emits_bind; [apply _ | |].
  { eapply emits_weaken; [|apply get_switch_config_preserved]. done. }
  intros [command config]. destruct (truthy config).
  - apply emits_bind; [apply _ | |].
    { eapply emits_weaken; [|apply save_config_to_file_preserved]. done. }
    intros _. keeps.
  - keeps.
Qed.

Lemma for_devices_preserved output_dir ic devices :
  forall count, emits preserved (fun _ => True) (for_devices output_dir ic devices count).
Proof.
  induction devices as [|device rest IH]; intros count; simpl for_devices.
  - keeps.
  - apply emits_bind; [apply _ | apply process_device_preserved | intros n; apply IH].
Qed.

Lemma process_connection_preserved devices output_dir ic :
  emits preserved (fun _ => True) (process_connection devices output_dir ic).
Proof.
  unfold process_connection, print.
  apply emits_bind; [apply _ | keeps |]. intros _.
  apply emits_bind; [apply _ | keeps |]. intros _.
  apply emits_bind; [apply _ | apply for_devices_preserved |]. intros n. keeps.
Qed.

Lemma ensure_dir_preserved p : emits preserved (fun _ => True) (ensure_dir p).
Proof. unfold ensure_dir. keeps. Qed.

Lemma print_log_preserved n devices flag :
  emits preserved (fun _ => True) (print_log n devices flag).
Proof. unfold print_log, print. keeps. Qed.

Lemma loop_step_preserved devices st k :
  emits preserved (fun _ => True) (loop_step devices st k).
Proof.
  unfold loop_step.
  apply emits_try; [apply _ | |].
  - destruct st.
    + unfold input, logger_info. keeps.
    + unfold input, print.
      apply emits_bind; [apply _ | keeps |]. intros answer. cbv zeta.
      destruct (negb _); [keeps|].
      apply emits_bind; [apply _ | keeps |]. intros _.
      apply emits_bind; [apply _ | apply ensure_dir_preserved |]. intros _.
      apply emits_bind; [apply _ | apply process_connection_preserved |]. intros n.
      apply emits_bind; [apply _ | apply print_log_preserved |]. intros _. keeps.
    + keeps.
  - intros e. unfold print. keeps.
Qed.

Lemma run_loop_preserved devices keys :
  forall st, emits preserved (fun _ => True) (run_loop devices st keys).
Proof.
  induction keys as [|k keys IH]; intros st.
  - destruct st; simpl run_loop; keeps.
  - destruct st; simpl run_loop; [| |keeps];
      (apply emits_bind; [apply _ | apply loop_step_preserved | intros st'; apply IH]).
Qed.

Lemma alloc_all_preserved ds : emits preserved (fun _ => True) (alloc_all ds).
Proof. induction ds as [|d ds IH]; simpl alloc_all; keeps. exact IH. Qed.

Lemma load_devices_preserved file_path :
  emits preserved (fun _ => True) (load_devices_from_excel_conf file_path).
Proof.
  unfold load_devices_from_excel_conf, handle_Exception, logger_info, logger_error.
  apply emits_try; [apply _ | | keeps].
  apply emits_bind; [apply _ | keeps |]. intros df. cbv zeta.
  destruct (List.filter _ required_columns); [|keeps].
  apply emits_bind; [apply _ | apply alloc_all_preserved |]. intros devices. keeps.
Qed.

Lemma print_devices_preserved devices :
  forall i, emits preserved (fun _ => True) (print_devices i devices).
Proof.
  induction devices as [|d devices IH]; intros i; simpl print_devices; unfold print.
  - keeps.
  - apply emits_bind; [apply _ | keeps |]. intros dsc.
    apply emits_bind; [apply _ | keeps |]. intros desc.
    apply emits_bind; [apply _ | keeps |]. intros ip.
    apply emits_bind; [apply _ | keeps |]. intros dt.
    apply emits_bind; [apply _ | keeps |]. intros _. apply IH.
Qed.

Lemma main_preserved keys : emits preserved (fun _ => True) (main keys).
Proof.
  unfold main.
  apply emits_bind; [apply _ | apply load_devices_preserved |]. intros devices.
  destruct devices as [|d devices]; [unfold print; keeps|].
  apply emits_bind; [apply _ | unfold print; keeps |]. intros _.
  apply emits_bind; [apply _ | apply print_devices_preserved |]. intros _.
  destruct keys as [|k keys]; [keeps|].
  apply emits_bind; [apply _ | unfold input; keeps |]. intros answer. cbv zeta.
  destruct (negb _); [unfold print; keeps|].
  apply emits_bind; [apply _ | apply ensure_dir_preserved |]. intros _.
  apply emits_bind; [apply _ | apply process_connection_preserved |]. intros n.
  apply emits_bind; [apply _ | apply print_log_preserved |]. intros _.
  apply run_loop_preserved.
Qed.

(** [X10] The archive is only ever added to. Whatever the operator types and
    whatever the collaborators do, a file that exists when the program, a
    pass or a single write starts still begins with what it held when
    that ends: nothing is truncated, rewritten or removed. *)
Theorem archive_only_grows
    (keys : list key) (devices : list loc) (ip command config : pyval)
    (output_dir : string) (ic : option string) (s : state) (p c : string) :
  files s !! p = Some c ->
  (exists x, files (main keys s).2 !! p = Some (c +:+ x)) /\
  (exists x, files (execute_other_command devices keys s).2 !! p = Some (c +:+ x)) /\
  (exists x, files (process_connection devices output_dir ic s).2 !! p = Some (c +:+ x)) /\
  (exists x, files (save_config_to_file ip command config output_dir s).2 !! p
             = Some (c +:+ x)).
Proof.
  intros Hp. repeat split.
  - destruct (main_preserved keys s) as (_ & _ & Ha & _). by apply Ha.
  - destruct (run_loop_preserved devices keys AwaitingCommand s) as (_ & _ & Ha & _).
    by apply Ha.
  - destruct (process_connection_preserved devices output_dir ic s) as (_ & _ & Ha & _).
    by apply Ha.
  - destruct (save_config_to_file_preserved ip command config output_dir s)
      as (_ & _ & Ha & _).
    by apply Ha.
Qed.

(** [X11] No dict of the store is ever changed: after the program, the loop or
    a pass, on every path, each dict that was there, the devices' among
    them, is what it was. *)
Theorem device_dicts_never_change
    (keys : list key) (devices : list loc)
    (output_dir : string) (ic : option string) (s : state) (l : loc) (d : dict) :
  heap s !! l = Some d ->
  heap (process_connection devices output_dir ic s).2 !! l = Some d /\
  heap (execute_other_command devices keys s).2 !! l = Some d /\
  heap (main keys s).2 !! l = Some d.
Proof.
  intros Hl. repeat split.
  - destruct (process_connection_preserved devices output_dir ic s) as (_ & Hs & _).
    rewrite Hs; [done | by rewrite Hl].
  - destruct (run_loop_preserved devices keys AwaitingCommand s) as (_ & Hs & _).
    unfold execute_other_command. rewrite Hs; [done | by rewrite Hl].
  - destruct (main_preserved keys s) as (_ & Hs & _).
    rewrite Hs; [done | by rewrite Hl].
Qed.

(** *** The tally *)

Lemma successes_app ev1 ev2 : successes (ev1 ++ ev2) = successes ev1 + successes ev2.
Proof. unfold successes. by rewrite List.filter_app, length_app. Qed.

Lemma no_verdict_successes ev : Forall no_verdict ev -> successes ev = 0.
Proof.
  induction 1 as [|e ev He _ IH]; [done|].
  unfold successes in *. simpl.
  destruct e as [[]| | |]; simpl in *; done.
Qed.

Lemma process_device_tally output_dir ic count device s :
  match (process_device output_dir ic count device s).1.1 with
  | Ok n => n = count + successes (process_device output_dir ic count device s).1.2
  | Raise _ => True
  end.
Proof.
  unfold process_device, dict_getitem, dict_get, bind, deref, print, emit, ret, raise.
  simpl. destruct (default ∅ (heap s !! device) !! "ip") as [ip|]; simpl; [|done].
  destruct (get_switch_config_preserved device ic s) as [Hev _].
  destruct (get_switch_config device ic s) as [[[[command config]|e] ev] s1];
    simpl in *; [|done].
  destruct (truthy config); simpl.
  - destruct (save_config_to_file_preserved ip command config output_dir s1) as [Hev2 _].
    destruct (save_config_to_file ip command config output_dir s1)
      as [[[r|e] ev2] s2]; simpl in *; [|done].
    change (Print (MsgConnecting ip (default (VStr "") (default ∅ (heap s !! device) !! "description")))
              :: ev ++ ev2 ++ [Print MsgOk])
      with ([Print (MsgConnecting ip (default (VStr "") (default ∅ (heap s !! device) !! "description")))]
              ++ ev ++ ev2 ++ [Print MsgOk]).
    rewrite !successes_app, (no_verdict_successes ev Hev), (no_verdict_successes ev2 Hev2).
    unfold successes. simpl. lia.
  - change (Print (MsgConnecting ip (default (VStr "") (default ∅ (heap s !! device) !! "description")))
              :: ev ++ [Print MsgFail])
      with ([Print (MsgConnecting ip (default (VStr "") (default ∅ (heap s !! device) !! "description")))]
              ++ ev ++ [Print MsgFail]).
    rewrite !successes_app, (no_verdict_successes ev Hev).
    unfold successes. simpl. lia.
Qed.

Lemma for_devices_tally output_dir ic devices :
  forall count s,
    match (for_devices output_dir ic devices count s).1.1 with
    | Ok n => n = count + successes (for_devices output_dir ic devices count s).1.2
    | Raise _ => True
    end.
Proof.
  induction devices as [|device rest IH]; intros count s; simpl for_devices.
  - unfold ret, successes. simpl. lia.
  - pose proof (process_device_tally output_dir ic count device s) as Hd.
    unfold bind.
    destruct (process_device output_dir ic count device s) as [[[n|e] ev] s1];
      simpl in *; [|done].
    specialize (IH n s1).
    destruct (for_devices output_dir ic rest n s1) as [[[n'|e] ev'] s2];
      simpl in *; [|done].
    rewrite successes_app. lia.
Qed.

(** [X3] The tally a pass returns is the number of verdicts of success it
    printed, on every run: a device is counted exactly when its line
    ended in the tick. *)
Theorem tally_counts_printed_successes
    (devices : list loc) (output_dir : string) (ic : option string) (s : state) :
  match (process_connection devices output_dir ic s).1.1 with
  | Ok n => n = successes (process_connection devices output_dir ic s).1.2
  | Raise _ => True
  end.
Proof.
  pose proof (for_devices_tally output_dir ic devices 0 s) as Hloop.
  unfold process_connection, bind, print, emit, ret. simpl.
  destruct (for_devices output_dir ic devices 0 s) as [[[n|e] ev] s1]; simpl in *; [|done].
  change (Print MsgStart :: Print MsgDashes :: ev ++ [Print MsgEquals])
    with ([Print MsgStart; Print MsgDashes] ++ ev ++ [Print MsgEquals]).
  rewrite !successes_app. unfold successes at 1 3. simpl. lia.
Qed.

(** *** The calls of a collection *)

Lemma calls_app ev1 ev2 : calls (ev1 ++ ev2) = calls ev1 ++ calls ev2.
Proof. apply omap_app. Qed.



Lemma choose_command_run l ic kw s :
  heap s !! l = Some kw ->
  choose_command l ic s =
    (match chosen ic kw with
     | Some c => Ok c
     | None => Raise (KeyError "device_type")
     end, [], s).
Proof.
  intros Hl.
  assert ((dt <- dict_getitem l "device_type" ;; ret (get_config_command dt)) s
          = (match get_config_command <$> kw !! "device_type" with
             | Some c => Ok c
             | None => Raise (KeyError "device_type")
             end, [], s)) as Hdefault.
  { unfold dict_getitem, bind, deref, ret, raise. rewrite Hl. simpl.
    by destruct (kw !! "device_type"). }
  unfold choose_command, chosen. destruct ic as [c|]; [|exact Hdefault].
  destruct (String.eqb c ""); [exact Hdefault | reflexivity].
Qed.


Lemma remote_run {A} c (f : World -> result A * World) s :
  remote c f s = ((f (world s)).1, [Call c], with_world s (f (world s)).2).
Proof. unfold remote. by destruct (f (world s)). Qed.


(** A collection whose session was opened: the body of the [with], the
    disconnect, then the handler if either raised. *)
Lemma get_switch_config_opened device ic dv conn w1 s :
  heap s !! device = Some dv ->
  ConnectHandler (delete "description" dv) (world s) = (Ok conn, w1) ->
  let body := in_session device (fresh (dom (heap s))) ic conn
                (with_world (after_copy s dv) w1) in
  let bye := conn_disconnect conn (world body.2) in
  let opened := [Print (MsgParams dv);
                 Call (CallConnectHandler (delete "description" dv))] in
  get_switch_config device ic s =
    match (match bye.1 with Ok _ => body.1.1 | Raise e => Raise e end) with
    | Ok a => (Ok a, opened ++ body.1.2 ++ [Call CallDisconnect], with_world body.2 bye.2)
    | Raise e =>
        match on_exception device e (with_world body.2 bye.2) with
        | (r, ev, s') => (r, opened ++ (body.1.2 ++ [Call CallDisconnect]) ++ ev, s')
        end
    end.
Proof.
  intros Hd Hconn body bye opened.
  rewrite (get_switch_config_unfold _ _ dv) by done.
  rewrite (try_connect_and_collect _ _ _ (delete "description" dv))
    by (unfold after_copy; simpl; apply lookup_insert_eq).
  rewrite try_with_ConnectHandler.
  change (world (after_copy s dv)) with (world s). rewrite Hconn.
  unfold try_except, with_exit, remote. fold body.
  destruct body as [[r_in ev_in] s_in] eqn:Hbody. simpl in bye. simpl.
  subst bye. destruct (conn_disconnect conn (world s_in)) as [[u|e] w2]; simpl.
  - destruct r_in as [a|e]; [reflexivity|].
    by destruct (on_exception device e (with_world s_in w2)) as [[r ev] s'].
  - by destruct (on_exception device e (with_world s_in w2)) as [[r ev] s'].
Qed.

(** A collection that could not open its session. *)
Lemma get_switch_config_unopened device ic dv e w1 s :
  heap s !! device = Some dv ->
  ConnectHandler (delete "description" dv) (world s) = (Raise e, w1) ->
  get_switch_config device ic s =
    match on_exception device e (with_world (after_copy s dv) w1) with
    | (r, ev, s') =>
        (r, Print (MsgParams dv)
              :: Call (CallConnectHandler (delete "description" dv)) :: ev, s')
    end.
Proof.
  intros Hd Hconn.
  rewrite (get_switch_config_unfold _ _ dv) by done.
  rewrite (try_connect_and_collect _ _ _ (delete "description" dv))
    by (unfold after_copy; simpl; apply lookup_insert_eq).
  rewrite try_with_ConnectHandler.
  change (world (after_copy s dv)) with (world s). rewrite Hconn.
  by destruct (on_exception device e (with_world (after_copy s dv) w1)) as [[r ev] s'].
Qed.

Lemma chosen_without_description ic dv :
  chosen ic (delete "description" dv) = chosen ic dv.
Proof.
  unfold chosen. by rewrite lookup_delete_ne.
Qed.


(** *** Failures, step by step *)

Lemma on_exception_message device dv ip e s :
  is_Exception e = true ->
  heap s !! device = Some dv ->
  dv !! "ip" = Some ip ->
  on_exception device e s
    = (Ok (VNone, VNone),
       [Print (failure_message e ip); LogError (failure_message e ip)], s).
Proof.
  intros He Hd Hip.
  unfold on_exception, dict_getitem, bind, deref, print, logger_error, emit, ret.
  destruct e; simpl in *; try discriminate;
    repeat (first [rewrite Hd | rewrite Hip]; simpl); reflexivity.
Qed.

Lemma errors_of_failure e ip :
  errors [Print (failure_message e ip); LogError (failure_message e ip)] = [kind_of e].
Proof. by destruct e. Qed.

Lemma in_session_run device l ic conn kw dv s w2 :
  heap s !! l = Some kw ->
  heap s !! device = Some dv ->
  escalated kw conn (world s) w2 ->
  let enabled := if escalates kw then [Call CallEnable] else [] in
  in_session device l ic conn s =
    match chosen ic kw with
    | None => (Raise (KeyError "device_type"), enabled, with_world s w2)
    | Some c =>
        match conn_send_command conn c w2 with
        | (Raise e, w3) =>
            (Raise e,
             enabled ++ [LogInfo (MsgExecute c); Call (CallSendCommand c)],
             with_world s w3)
        | (Ok o, w3) =>
            match dv !! "ip" with
            | Some ip =>
                (Ok (VStr c, VStr o),
                 enabled ++ [LogInfo (MsgExecute c); Call (CallSendCommand c);
                             LogInfo (MsgFetched ip)],
                 with_world s w3)
            | None =>
                (Raise (KeyError "ip"),
                 enabled ++ [LogInfo (MsgExecute c); Call (CallSendCommand c)],
                 with_world s w3)
            end
        end
    end.
Proof.
  intros Hl Hd Hesc enabled. subst enabled. unfold in_session.
  erewrite bind_run; [|by eapply dict_get_run].
  assert ((if truthy (default VNone (kw !! "secret"))
           then remote CallEnable (conn_enable conn) else ret tt) s
          = (Ok tt, if escalates kw then [Call CallEnable] else [], with_world s w2))
    as Hstep.
  { unfold escalated, escalates in *.
    destruct Hesc as [[-> ->]|[-> Hen]].
    - unfold ret. by rewrite with_world_same.
    - rewrite remote_run, Hen. reflexivity. }
  erewrite bind_run; [|exact Hstep].
  unfold bind at 1.
  rewrite (choose_command_run l ic kw (with_world s w2)) by done.
  destruct (chosen ic kw) as [c|]; [|by rewrite app_nil_r].
  unfold logger_info. erewrite bind_run; [|reflexivity].
  unfold bind at 1. rewrite remote_run. simpl.
  destruct (conn_send_command conn c w2) as [[o|e] w3]; simpl; [|reflexivity].
  unfold dict_getitem, bind, deref, emit, ret, raise. simpl. rewrite Hd. simpl.
  destruct (dv !! "ip"); reflexivity.
Qed.

Lemma in_session_enable_failed device l ic conn kw s e w2 :
  heap s !! l = Some kw ->
  escalates kw = true ->
  conn_enable conn (world s) = (Raise e, w2) ->
  in_session device l ic conn s = (Raise e, [Call CallEnable], with_world s w2).
Proof.
  intros Hl Hesc Hen. unfold in_session.
  erewrite bind_run; [|by eapply dict_get_run].
  unfold escalates in Hesc. rewrite Hesc.
  unfold bind. rewrite remote_run, Hen. reflexivity.
Qed.

(** What the working copy is keyed by, seen from the device's dict. *)
Lemma escalates_without_description dv :
  escalates (delete "description" dv) = escalates dv.
Proof. unfold escalates. by rewrite lookup_delete_ne. Qed.

Lemma after_copy_copy (s : state) (dv : dict) (w : World) :
  heap (with_world (after_copy s dv) w) !! fresh (dom (heap s))
  = Some (delete "description" dv).
Proof. simpl. apply lookup_insert_eq. Qed.

Lemma after_copy_device (s : state) (device : loc) (dv : dict) (w : World) :
  heap s !! device = Some dv ->
  heap (with_world (after_copy s dv) w) !! device = Some dv.
Proof.
  intros Hd. simpl. rewrite lookup_insert_ne; [done|].
  intros <-. apply (is_fresh (dom (heap s))). apply elem_of_dom. by rewrite Hd.
Qed.

(** The body raised [e], the session closed well: the failure is filed. *)
Lemma body_failure_reported device dv ip ic conn s w1 e ev_in w2 w3 :
  heap s !! device = Some dv ->
  dv !! "ip" = Some ip ->
  ConnectHandler (delete "description" dv) (world s) = (Ok conn, w1) ->
  in_session device (fresh (dom (heap s))) ic conn (with_world (after_copy s dv) w1)
    = (Raise e, ev_in, with_world (after_copy s dv) w2) ->
  conn_disconnect conn w2 = (Ok tt, w3) ->
  is_Exception e = true ->
  get_switch_config device ic s
    = (Ok (VNone, VNone),
       [Print (MsgParams dv); Call (CallConnectHandler (delete "description" dv))]
         ++ ev_in
         ++ [Call CallDisconnect;
             Print (failure_message e ip); LogError (failure_message e ip)],
       with_world (after_copy s dv) w3).
Proof.
  intros Hdevice Hip Hconn Hbody Hbye He.
  rewrite (get_switch_config_opened device ic dv conn w1 s Hdevice Hconn).
  cbv zeta. rewrite Hbody. simpl. rewrite Hbye. simpl.
  rewrite (on_exception_message device dv ip e _ He);
    [|by apply after_copy_device|exact Hip].
  simpl. by rewrite <- app_assoc.
Qed.

Lemma escalated_without_description dv conn w1 w2 :
  escalated dv conn w1 w2 -> escalated (delete "description" dv) conn w1 w2.
Proof. unfold escalated. by rewrite escalates_without_description. Qed.

(** [X5] A session that cannot be opened is filed by the type of the exception
    and by nothing else: a timeout under the timeout message, a rejected
    login under the authentication message, anything else under the
    general message with the exception itself. The collection returns
    nothing, and no call follows the failed one. *)
Theorem connect_failure_is_filed_by_type
    (device : loc) (dv : dict) (ip : pyval) (ic : option string)
    (s : state) (e : exn) (w : World) :
  heap s !! device = Some dv ->
  dv !! "ip" = Some ip ->
  ConnectHandler (delete "description" dv) (world s) = (Raise e, w) ->
  is_Exception e = true ->
  let ev := [ Print (MsgParams dv);
              Call (CallConnectHandler (delete "description" dv));
              Print (failure_message e ip);
              LogError (failure_message e ip) ] in
  get_switch_config device ic s
    = (Ok (VNone, VNone), ev, with_world (after_copy s dv) w) /\
  errors ev = [kind_of e].
Proof.
  intros Hd Hip Hconn He ev. split.
  - rewrite (get_switch_config_unopened device ic dv e w s Hd Hconn).
    rewrite (on_exception_message device dv ip e _ He);
      [done | by apply after_copy_device | exact Hip].
  - unfold ev. by destruct e.
Qed.

(** [X6] An escalation that fails ends the collection: no command is sent, the
    session is closed, the failure is filed by the type of the exception
    and nothing is returned. *)
Theorem failed_escalation_sends_nothing
    (device : loc) (dv : dict) (ip : pyval) (ic : option string)
    (conn : Conn) (s : state) (e : exn) (w1 w2 w3 : World) :
  heap s !! device = Some dv ->
  dv !! "ip" = Some ip ->
  ConnectHandler (delete "description" dv) (world s) = (Ok conn, w1) ->
  escalates dv = true ->
  conn_enable conn w1 = (Raise e, w2) ->
  conn_disconnect conn w2 = (Ok tt, w3) ->
  is_Exception e = true ->
  get_switch_config device ic s
    = (Ok (VNone, VNone),
       [ Print (MsgParams dv);
         Call (CallConnectHandler (delete "description" dv));
         Call CallEnable;
         Call CallDisconnect;
         Print (failure_message e ip);
         LogError (failure_message e ip) ],
       with_world (after_copy s dv) w3).
Proof.
  intros Hd Hip Hconn Hesc Hen Hbye He.
  rewrite (body_failure_reported device dv ip ic conn s w1 e [Call CallEnable] w2 w3);
    try done.
  etrans; [apply (in_session_enable_failed _ _ _ _ (delete "description" dv) _ e w2)|];
    [apply after_copy_copy | by rewrite escalates_without_description | done | done].
Qed.

(** [X7] A command that fails is filed by the type of the exception too, so a
    timeout while the command runs is filed exactly as a session that
    could not be opened; the session is closed before the failure is
    reported. *)
Theorem command_failure_is_filed_by_type
    (device : loc) (dv : dict) (ip : pyval) (ic : option string) (c : string)
    (conn : Conn) (s : state) (e : exn) (w1 w2 w3 w4 : World) :
  heap s !! device = Some dv ->
  dv !! "ip" = Some ip ->
  ConnectHandler (delete "description" dv) (world s) = (Ok conn, w1) ->
  escalated dv conn w1 w2 ->
  chosen ic dv = Some c ->
  conn_send_command conn c w2 = (Raise e, w3) ->
  conn_disconnect conn w3 = (Ok tt, w4) ->
  is_Exception e = true ->
  let ev :=
    [ Print (MsgParams dv); Call (CallConnectHandler (delete "description" dv)) ]
      ++ (if escalates dv then [Call CallEnable] else [])
      ++ [ LogInfo (MsgExecute c);
           Call (CallSendCommand c);
           Call CallDisconnect;
           Print (failure_message e ip);
           LogError (failure_message e ip) ] in
  get_switch_config device ic s
    = (Ok (VNone, VNone), ev, with_world (after_copy s dv) w4) /\
  errors ev = [kind_of e].
Proof.
  intros Hd Hip Hconn Hesc Hc Hsend Hbye He ev. split.
  - rewrite (body_failure_reported device dv ip ic conn s w1 e
               ((if escalates dv then [Call CallEnable] else [])
                  ++ [LogInfo (MsgExecute c); Call (CallSendCommand c)]) w3 w4);
      try done.
    + unfold ev. simpl. by rewrite <- !app_assoc.
    + rewrite (in_session_run device _ ic conn (delete "description" dv) dv _ w2);
        [| apply after_copy_copy | by apply after_copy_device
         | by apply escalated_without_description].
      rewrite chosen_without_description, Hc, Hsend, escalates_without_description.
      reflexivity.
  - unfold ev. rewrite !errors_app.
    destruct (escalates dv); by destruct e.
Qed.

(** [X8] A device without a device type, collected without a command of the
    caller: the session is opened and closed, nothing is sent, and the
    missing key is filed as a failure of the device. *)
Theorem missing_device_type_is_a_failure
    (device : loc) (dv : dict) (ip : pyval) (ic : option string)
    (conn : Conn) (s : state) (w1 w2 w3 : World) :
  heap s !! device = Some dv ->
  dv !! "ip" = Some ip ->
  dv !! "device_type" = None ->
  ic = None \/ ic = Some "" ->
  ConnectHandler (delete "description" dv) (world s) = (Ok conn, w1) ->
  escalated dv conn w1 w2 ->
  conn_disconnect conn w2 = (Ok tt, w3) ->
  get_switch_config device ic s
    = (Ok (VNone, VNone),
       [ Print (MsgParams dv); Call (CallConnectHandler (delete "description" dv)) ]
         ++ (if escalates dv then [Call CallEnable] else [])
         ++ [ Call CallDisconnect;
              Print (MsgFetchFailed ip (KeyError "device_type"));
              LogError (MsgFetchFailed ip (KeyError "device_type")) ],
       with_world (after_copy s dv) w3).
Proof.
  intros Hd Hip Hdt Hic Hconn Hesc Hbye.
  assert (chosen ic dv = None) as Hc.
  { unfold chosen. destruct Hic as [-> | ->]; simpl; by rewrite Hdt. }
  rewrite (body_failure_reported device dv ip ic conn s w1 (KeyError "device_type")
             (if escalates dv then [Call CallEnable] else []) w2 w3);
    try done.
  rewrite (in_session_run device _ ic conn (delete "description" dv) dv _ w2);
    [| apply after_copy_copy | by apply after_copy_device
     | by apply escalated_without_description].
  by rewrite chosen_without_description, Hc, escalates_without_description.
Qed.

(** [X9] A collection that goes well returns the command that was chosen and
    the output as the device sent it, logs no error, and has closed the
    session by the time it returns. The command is the caller's when
    there is a non-empty one, whatever the device type. *)
Theorem collection_returns_command_and_output
    (device : loc) (dv : dict) (ip : pyval) (ic : option string) (c o : string)
    (conn : Conn) (s : state) (w1 w2 w3 w4 : World) :
  heap s !! device = Some dv ->
  dv !! "ip" = Some ip ->
  ConnectHandler (delete "description" dv) (world s) = (Ok conn, w1) ->
  escalated dv conn w1 w2 ->
  chosen ic dv = Some c ->
  conn_send_command conn c w2 = (Ok o, w3) ->
  conn_disconnect conn w3 = (Ok tt, w4) ->
  let ev :=
    [ Print (MsgParams dv); Call (CallConnectHandler (delete "description" dv)) ]
      ++ (if escalates dv then [Call CallEnable] else [])
      ++ [ LogInfo (MsgExecute c);
           Call (CallSendCommand c);
           LogInfo (MsgFetched ip);
           Call CallDisconnect ] in
  get_switch_config device ic s
    = (Ok (VStr c, VStr o), ev, with_world (after_copy s dv) w4) /\
  errors ev = [] /\
  (forall c', c' ≠ "" -> chosen (Some c') dv = Some c').
Proof.
  intros Hd Hip Hconn Hesc Hc Hsend Hbye ev. split; [|split].
  - rewrite (get_switch_config_opened device ic dv conn w1 s Hd Hconn). cbv zeta.
    rewrite (in_session_run device _ ic conn (delete "description" dv) dv _ w2);
      [| apply after_copy_copy | by apply after_copy_device
       | by apply escalated_without_description].
    rewrite chosen_without_description, Hc, Hsend, Hip, escalates_without_description.
    simpl. rewrite Hbye. simpl. unfold ev.
    destruct (escalates dv); reflexivity.
  - unfold ev. destruct (escalates dv); reflexivity.
  - intros c' Hc'. unfold chosen.
    destruct (String.eqb_spec c' ""); [done | reflexivity].
Qed.

(** *** The inventory, column by column *)

(** [X13] A workbook that cannot be read gives no device: the failure is
    logged, the store is untouched, and [main] reports that nothing was
    loaded and ends without asking anything. *)
Theorem unreadable_workbook_gives_no_device
    (file_path : string) (keys : list key) (s : state) (e : exn) (w : World) :
  pd_read_excel file_path (world s) = (Raise e, w) ->
  is_Exception e = true ->
  load_devices_from_excel_conf file_path s
    = (Ok [], [Call (CallReadExcel file_path); LogError (MsgReadFailed e)],
       with_world s w) /\
  (file_path = "switch_ssh_conf.xlsx" ->
   main keys s
     = (Ok tt,
        [Call (CallReadExcel file_path); LogError (MsgReadFailed e); Print MsgNoDevices],
        with_world s w)).
Proof.
  intros Hread He.
  assert (load_devices_from_excel_conf file_path s
          = (Ok [], [Call (CallReadExcel file_path); LogError (MsgReadFailed e)],
             with_world s w)) as Hload.
  { unfold load_devices_from_excel_conf, try_except.
    unfold bind at 1. rewrite remote_run, Hread. simpl.
    unfold handle_Exception. rewrite He. reflexivity. }
  split; [exact Hload|]. intros ->.
  unfold main. erewrite bind_run; [|exact Hload]. reflexivity.
Qed.

(** [X14] One required column missing rejects the whole sheet, whatever its
    rows: the loader logs exactly the required columns the sheet lacks,
    in the order [ip], [port], [device_type], [username], [password],
    allocates nothing and returns no device. *)
Theorem missing_column_rejects_sheet
    (file_path col : string) (df : DataFrame) (s : state) (w : World) :
  pd_read_excel file_path (world s) = (Ok df, w) ->
  col ∈ required_columns ->
  col ∉ columns df ->
  load_devices_from_excel_conf file_path s
    = (Ok [],
       [Call (CallReadExcel file_path); LogError (MsgMissingColumns (missing_columns df))],
       with_world s w) /\
  (forall c, c ∈ missing_columns df <-> c ∈ required_columns /\ c ∉ columns df).
Proof.
  intros Hread Hreq Hcol.
  assert (forall c, c ∈ missing_columns df <-> c ∈ required_columns /\ c ∉ columns df)
    as Hmissing.
  { intros c. unfold missing_columns. rewrite list_elem_of_In, filter_In.
    rewrite <- list_elem_of_In. unfold in_columns.
    rewrite negb_true_iff, bool_decide_eq_false. done. }
  split; [|exact Hmissing].
  unfold load_devices_from_excel_conf, try_except.
  erewrite bind_run; [|by rewrite remote_run, Hread].
  cbv beta zeta. fold (missing_columns df).
  destruct (missing_columns df) as [|c0 rest] eqn:Hm; [|reflexivity].
  assert (col ∈ []) as Hin by (apply Hmissing; done).
  by apply elem_of_nil in Hin.
Qed.

Lemma union_default_present (d : dict) c v :
  is_Some (d !! c) -> d ∪ {[ c := v ]} = d.
Proof.
  intros [x Hx]. apply map_eq. intros k.
  destruct (decide (k = c)) as [->|Hne].
  - rewrite Hx. by apply lookup_union_Some_l.
  - apply lookup_union_l. by apply lookup_singleton_ne.
Qed.

Lemma records_default_column c v df :
  frame_complete df ->
  df_to_dict_records (default_column c v df)
  = map (fun d : dict => d ∪ {[ c := v ]}) (df_to_dict_records df).
Proof.
  intros Hdf. unfold default_column.
  destruct (in_columns c df) eqn:Hin.
  - apply bool_decide_eq_true in Hin.
    pose proof (records_have_column df c Hdf Hin) as Hrec.
    induction Hrec as [|d ds Hd _ IH]; [done|]. simpl.
    by rewrite union_default_present, <- IH.
  - unfold df_to_dict_records, df_set_column. simpl. rewrite !map_map.
    apply map_ext_in. intros r Hr.
    unfold frame_complete in Hdf. rewrite Forall_forall in Hdf.
    specialize (Hdf r (proj2 (list_elem_of_In _ _) Hr)). simpl in Hdf.
    cbv beta. rewrite zip_with_app by done. simpl.
    rewrite list_to_map_app. simpl. by rewrite insert_empty.
Qed.

(** The references the loader hands out are new, distinct, and hold the
    dicts in order; nothing but the store changes. *)
Lemma alloc_all_fresh (ds : list dict) :
  forall s, exists ls s',
    alloc_all ds s = (Ok ls, [], s') /\
    NoDup ls /\
    Forall2 (fun l d => heap s !! l = None /\ heap s' !! l = Some d) ls ds /\
    (forall l : loc, is_Some (heap s !! l) -> heap s' !! l = heap s !! l) /\
    s' = with_heap s (heap s').
Proof.
  induction ds as [|d ds IH]; intros s.
  - exists [], s. repeat split; try constructor. by destruct s.
  - set (l := fresh (dom (heap s))).
    assert (heap s !! l = None) as Hl by apply fresh_unused.
    destruct (IH (with_heap s (<[l := d]> (heap s))))
      as (ls & s' & Hrun & Hnodup & Hall & Hkept & Hrest).
    simpl in Hkept.
    assert (heap s' !! l = Some d) as Hd.
    { rewrite Hkept; rewrite lookup_insert_eq; eauto. }
    exists (l :: ls), s'. repeat split.
    + simpl. erewrite bind_run; [|reflexivity]. fold l.
      erewrite bind_run; [|exact Hrun]. reflexivity.
    + constructor; [|done]. intros Hin.
      apply list_elem_of_lookup in Hin as [i Hi].
      destruct (Forall2_lookup_l _ _ _ _ _ Hall Hi) as (d' & _ & Hnone & _).
      simpl in Hnone. by rewrite lookup_insert_eq in Hnone.
    + constructor; [done|].
      eapply Forall2_impl; [exact Hall|]. intros l' d' [Hnone Hsome]. simpl in Hnone.
      split; [|done].
      apply lookup_insert_None in Hnone. tauto.
    + intros l' Hl'. rewrite Hkept.
      * apply lookup_insert_ne. intros <-. rewrite Hl in Hl'. by destruct Hl'.
      * rewrite lookup_insert_ne; [done|]. intros <-. rewrite Hl in Hl'. by destruct Hl'.
    + rewrite Hrest at 1. by destruct s.
Qed.

Lemma Forall2_map_r {A B D} (P : A -> D -> Prop) (f : B -> D) l k :
  Forall2 P l (map f k) <-> Forall2 (fun a b => P a (f b)) l k.
Proof.
  revert l. induction k as [|b k IH]; intros l; simpl.
  - split; intros H; inversion H; constructor.
  - split; intros H; inversion H; subst; constructor; auto; by apply IH.
Qed.

Lemma missing_columns_spec df c :
  c ∈ missing_columns df <-> c ∈ required_columns /\ c ∉ columns df.
Proof.
  unfold missing_columns. rewrite list_elem_of_In, filter_In.
  rewrite <- list_elem_of_In. unfold in_columns.
  rewrite negb_true_iff, bool_decide_eq_false. done.
Qed.

Lemma nothing_missing df c :
  missing_columns df = [] -> c ∈ required_columns -> c ∈ columns df.
Proof.
  intros Hm Hc. destruct (decide (c ∈ columns df)) as [|Hno]; [done|].
  assert (c ∈ missing_columns df) as Hin by (by apply missing_columns_spec).
  rewrite Hm in Hin. by apply elem_of_nil in Hin.
Qed.

Lemma load_devices_run (file_path : string) (df : DataFrame) (s : state) (w : World) :
  pd_read_excel file_path (world s) = (Ok df, w) ->
  frame_complete df ->
  missing_columns df = [] ->
  exists devices s',
    load_devices_from_excel_conf file_path s
      = (Ok devices,
         [Call (CallReadExcel file_path); LogInfo (MsgLoaded file_path (length (rows df)))],
         s') /\
    NoDup devices /\
    Forall2 (fun l r => heap s !! l = None /\ heap s' !! l = Some (record_of df r))
      devices (rows df) /\
    (forall l : loc, is_Some (heap s !! l) -> heap s' !! l = heap s !! l) /\
    s' = with_heap (with_world s w) (heap s').
Proof.
  intros Hread Hdf Hmissing.
  assert (default_column "port" (VInt 22) df = df) as Hport.
  { unfold default_column, in_columns. rewrite bool_decide_true; [done|].
    apply nothing_missing; [done|]. set_solver. }
  set (df3 := default_column "description" (VStr "")
                (default_column "secret" VNone (default_column "port" (VInt 22) df))).
  assert (df_to_dict_records df3 = map (record_of df) (rows df)) as Hrecords.
  { unfold df3. rewrite Hport.
    rewrite records_default_column by (by apply default_column_complete).
    rewrite records_default_column by done.
    unfold df_to_dict_records. rewrite !map_map. reflexivity. }
  destruct (alloc_all_fresh (df_to_dict_records df3) (with_world s w))
    as (ls & s' & Hrun & Hnodup & Hall & Hkept & Hrest).
  exists ls, s'. repeat split; try done.
  - unfold load_devices_from_excel_conf, try_except.
    erewrite bind_run; [|by rewrite remote_run, Hread].
    cbv beta zeta. fold (missing_columns df). rewrite Hmissing. fold df3.
    erewrite bind_run; [|exact Hrun]. simpl.
    apply Forall2_length in Hall. rewrite Hall, Hrecords, length_map. reflexivity.
  - rewrite Hrecords in Hall. by apply Forall2_map_r in Hall.
Qed.

Lemma record_of_has_field df r k :
  length r = length (columns df) ->
  k ∈ columns df ++ ["secret"; "description"] ->
  is_Some (record_of df r !! k).
Proof.
  intros Hlen Hk. unfold record_of.
  destruct (decide (k ∈ columns df)) as [Hin|Hout].
  - assert (is_Some ((list_to_map (zip (columns df) r) : dict) !! k)) as [v Hv].
    { destruct ((list_to_map (zip (columns df) r) : dict) !! k) as [v|] eqn:Hlook;
        [by eexists|].
      apply not_elem_of_list_to_map_2 in Hlook.
      rewrite fst_zip in Hlook by lia. done. }
    exists v. apply lookup_union_Some_l, lookup_union_Some_l, Hv.
  - apply elem_of_app in Hk as [Hk|Hk]; [done|].
    apply lookup_union_is_Some.
    apply elem_of_cons in Hk as [->|Hk].
    + left. apply lookup_union_is_Some. right. by rewrite lookup_singleton_eq.
    + apply elem_of_cons in Hk as [->|Hk]; [|by apply elem_of_nil in Hk].
      right. by rewrite lookup_singleton_eq.
Qed.

Lemma rows_complete (df : DataFrame) (P : loc -> list pyval -> Prop) devices :
  frame_complete df ->
  Forall2 P devices (rows df) ->
  Forall2 (fun l r => P l r /\ length r = length (columns df)) devices (rows df).
Proof.
  unfold frame_complete. intros Hdf Hall.
  induction Hall as [|l r ls rs Hl _ IH]; [constructor|].
  inversion Hdf; subst. constructor; auto.
Qed.

(** [X15] A sheet with every required column loads row by row: one device per
    row, in the order of the rows, each a new dict of its own that holds
    the row's cells under the column labels, with [secret] set to [None]
    and [description] to the empty string only where the sheet has no
    such column. Every device so has each required field, a [secret] and
    a [description]; a cell that is there is never replaced; the dicts
    that were in the store stay, and nothing else changes but the
    store. *)
Theorem loader_returns_rows_with_defaults
    (file_path : string) (df : DataFrame) (s : state) (w : World) :
  pd_read_excel file_path (world s) = (Ok df, w) ->
  frame_complete df ->
  missing_columns df = [] ->
  exists devices s',
    load_devices_from_excel_conf file_path s
      = (Ok devices,
         [Call (CallReadExcel file_path); LogInfo (MsgLoaded file_path (length (rows df)))],
         s') /\
    NoDup devices /\
    Forall2 (fun l r =>
               (heap s !! l = None /\ heap s' !! l = Some (record_of df r)) /\
               (forall k v, (list_to_map (zip (columns df) r) : dict) !! k = Some v ->
                            record_of df r !! k = Some v) /\
               Forall (fun k => is_Some (record_of df r !! k))
                 (required_columns ++ ["secret"; "description"]))
      devices (rows df) /\
    (forall l : loc, is_Some (heap s !! l) -> heap s' !! l = heap s !! l) /\
    s' = with_heap (with_world s w) (heap s').
Proof.
  intros Hread Hdf Hmissing.
  destruct (load_devices_run file_path df s w Hread Hdf Hmissing)
    as (devices & s' & Hrun & Hnodup & Hall & Hkept & Hrest).
  exists devices, s'. repeat split; try done.
  eapply Forall2_impl; [exact (rows_complete df _ devices Hdf Hall)|].
  intros l r [Hheld Hlen]. cbv beta. repeat split; try apply Hheld.
  - intros k v Hk. unfold record_of.
    by apply lookup_union_Some_l, lookup_union_Some_l.
  - apply Forall_forall. intros k Hk. apply record_of_has_field; [done|].
    apply elem_of_app in Hk as [Hk|Hk]; apply elem_of_app; [left|by right].
    by apply nothing_missing.
Qed.

(** *** The listing and the first prompt *)

Lemma print_devices_run (devices : list loc) (dicts : list dict) :
  forall i s,
    Forall2 (fun l dv => heap s !! l = Some dv /\
                         is_Some (dv !! "ip") /\ is_Some (dv !! "device_type"))
      devices dicts ->
    print_devices i devices s
      = (Ok tt, zip_with device_line (seq i (length dicts)) dicts, s).
Proof.
  intros i s Hall. revert i.
  induction Hall as [|l dv ls dvs (Hl & [ip Hip] & [dt Hdt]) _ IH]; intros i; [done|].
  simpl print_devices.
  erewrite bind_run; [|by eapply dict_get_run].
  assert ((if truthy (default VNone (dv !! "description")) then
             d' <- dict_get l "description" (VStr "") ;;
             ret (" (" +:+ py_str d' +:+ ")")
           else ret "") s
          = (Ok (if truthy (default VNone (dv !! "description"))
                 then " (" +:+ py_str (default (VStr "") (dv !! "description")) +:+ ")"
                 else ""), [], s)) as Hdesc.
  { destruct (truthy _); [|reflexivity].
    erewrite bind_run; [|by eapply dict_get_run]. reflexivity. }
  erewrite bind_run; [|exact Hdesc].
  erewrite bind_run; [|by eapply dict_getitem_run].
  erewrite bind_run; [|by eapply dict_getitem_run].
  erewrite bind_run; [|reflexivity].
  rewrite IH. simpl. unfold device_line. by rewrite Hip, Hdt.
Qed.

Lemma lower_ascii_y c : lower_ascii c = "y"%char <-> c = "y"%char \/ c = "Y"%char.
Proof.
  destruct c as [[] [] [] [] [] [] [] []]; vm_compute;
    (split; [intros [=]; auto | intros [[=]|[=]]; auto]).
Qed.

Lemma str_lower_y answer : str_lower answer = "y" <-> answer = "y" \/ answer = "Y".
Proof.
  destruct answer as [|c [|c' rest]]; simpl.
  - split; [done|by intros [|]].
  - split.
    + intros [= Hc]. apply lower_ascii_y in Hc as [->| ->]; auto.
    + intros [[= ->]|[= ->]]; reflexivity.
  - split; [done|by intros [|]].
Qed.

Lemma decline_run answer : answer ≠ "y" -> answer ≠ "Y" ->
  negb (String.eqb (str_lower answer) "y") = true.
Proof.
  intros Hy HY. apply negb_true_iff, String.eqb_neq.
  intros Hl. apply str_lower_y in Hl as [|]; done.
Qed.

(** What [main] does up to its first prompt, on a sheet that loads. *)
Lemma main_opening (df : DataFrame) (s : state) (w : World) :
  pd_read_excel "switch_ssh_conf.xlsx" (world s) = (Ok df, w) ->
  frame_complete df ->
  missing_columns df = [] ->
  rows df ≠ [] ->
  exists devices s1,
    load_devices_from_excel_conf "switch_ssh_conf.xlsx" s
      = (Ok devices,
         [Call (CallReadExcel "switch_ssh_conf.xlsx");
          LogInfo (MsgLoaded "switch_ssh_conf.xlsx" (length (rows df)))], s1) /\
    length devices = length (rows df) /\
    devices ≠ [] /\
    files s1 = files s /\ dirs s1 = dirs s /\
    print_devices 1 devices s1
      = (Ok tt, zip_with device_line (seq 1 (length (rows df))) (record_of df <$> rows df), s1).
Proof.
  intros Hread Hdf Hmissing Hrows.
  destruct (load_devices_run _ df s w Hread Hdf Hmissing)
    as (devices & s1 & Hrun & _ & Hall & _ & Hrest).
  exists devices, s1.
  assert (length devices = length (rows df)) as Hlen by (by eapply Forall2_length).
  repeat split; try done.
  - intros ->. destruct (rows df); done.
  - by rewrite Hrest.
  - by rewrite Hrest.
  - rewrite <- (length_fmap (record_of df) (rows df)).
    apply print_devices_run. apply Forall2_fmap_r.
    eapply Forall2_impl; [exact (rows_complete df _ devices Hdf Hall)|].
    intros l r [[_ Hheld] Hlen']. cbv beta. split; [done|].
    split; apply record_of_has_field; try done; apply elem_of_app; left;
      apply nothing_missing; try done; set_solver.
Qed.

(** [X16] A run the operator declines does nothing but read the sheet and list
    it: [main] prints the count and one numbered line per row, in the
    order of the rows, asks once, prints that the run is cancelled and
    returns. Anything but [y] or [Y] declines. No session is asked for,
    no file or directory is made, and the keys left are not read. *)
Theorem declined_run_only_lists
    (df : DataFrame) (answer : string) (keys : list key) (s : state) (w : World) :
  pd_read_excel "switch_ssh_conf.xlsx" (world s) = (Ok df, w) ->
  frame_complete df ->
  missing_columns df = [] ->
  rows df ≠ [] ->
  answer ≠ "y" -> answer ≠ "Y" ->
  exists s1,
    main (Line answer :: keys) s
      = (Ok tt,
         [Call (CallReadExcel "switch_ssh_conf.xlsx");
          LogInfo (MsgLoaded "switch_ssh_conf.xlsx" (length (rows df)));
          Print (MsgLoadedCount (length (rows df)))]
         ++ zip_with device_line (seq 1 (length (rows df))) (record_of df <$> rows df)
         ++ [Call (CallInput PromptStart); Print MsgCancelled],
         s1) /\
    files s1 = files s /\ dirs s1 = dirs s.
Proof.
  intros Hread Hdf Hmissing Hrows Hy HY.
  destruct (main_opening df s w Hread Hdf Hmissing Hrows)
    as (devices & s1 & Hload & Hlen & Hsome & Hfiles & Hdirs & Hlist).
  exists s1. split; [|done].
  unfold main. erewrite bind_run; [|exact Hload].
  destruct devices as [|device rest]; [done|].
  erewrite bind_run; [|reflexivity].
  erewrite bind_run; [|exact Hlist].
  erewrite bind_run; [|reflexivity].
  cbv zeta. rewrite decline_run by done.
  rewrite Hlen. reflexivity.
Qed.

Lemma bind_raises {A B} (m : M A) (k : A -> M B) s e :
  (m s).1.1 = Raise e -> (bind m k s).1.1 = Raise e.
Proof. unfold bind. destruct (m s) as [[r ev] s1]. simpl. by intros ->. Qed.

Lemma bind_result {A B} (m : M A) (k : A -> M B) s a ev s1 :
  m s = (Ok a, ev, s1) -> (bind m k s).1.1 = (k a s1).1.1.
Proof.
  intros Hm. erewrite bind_run; [|exact Hm]. by destruct (k a s1) as [[r ev'] s2].
Qed.

(** [X17] [main] has no handler of its own. An interrupt at its first prompt
    leaves [main] as [KeyboardInterrupt], after the listing and before
    any session; and with the run confirmed, a failure to make the
    archive directory and whatever ends the first pass leave [main] as
    they are: only the interactive loop contains an interrupt. *)
Theorem first_prompt_and_first_pass_are_unguarded
    (df : DataFrame) (keys : list key) (s : state) (w : World) :
  pd_read_excel "switch_ssh_conf.xlsx" (world s) = (Ok df, w) ->
  frame_complete df ->
  missing_columns df = [] ->
  rows df ≠ [] ->
  exists devices ev s1,
    load_devices_from_excel_conf "switch_ssh_conf.xlsx" s = (Ok devices, ev, s1) /\
    main (CtrlC :: keys) s
      = (Raise KeyboardInterrupt,
         [Call (CallReadExcel "switch_ssh_conf.xlsx");
          LogInfo (MsgLoaded "switch_ssh_conf.xlsx" (length (rows df)));
          Print (MsgLoadedCount (length (rows df)))]
         ++ zip_with device_line (seq 1 (length (rows df))) (record_of df <$> rows df)
         ++ [Call (CallInput PromptStart)],
         s1) /\
    (forall answer e,
       str_lower answer = "y" ->
       (ensure_dir normal_path s1).1.1 = Raise e ->
       (main (Line answer :: keys) s).1.1 = Raise e) /\
    (forall answer e ev_dir s2,
       str_lower answer = "y" ->
       ensure_dir normal_path s1 = (Ok tt, ev_dir, s2) ->
       (process_connection devices normal_path None s2).1.1 = Raise e ->
       (main (Line answer :: keys) s).1.1 = Raise e).
Proof.
  intros Hread Hdf Hmissing Hrows.
  destruct (main_opening df s w Hread Hdf Hmissing Hrows)
    as (devices & s1 & Hload & Hlen & Hsome & Hfiles & Hdirs & Hlist).
  eexists devices, _, s1. split; [exact Hload|].
  destruct devices as [|device rest]; [done|].
  assert (forall answer,
            str_lower answer = "y" ->
            (main (Line answer :: keys) s).1.1
            = ((ensure_dir normal_path ;;;
                success_count <- process_connection (device :: rest) normal_path None ;;
                print_log success_count (device :: rest) true ;;;
                execute_other_command (device :: rest) keys) s1).1.1) as Hgo.
  { intros answer Hanswer. unfold main.
    erewrite bind_result; [|exact Hload]. cbv beta iota.
    erewrite bind_result; [|reflexivity]. cbv beta.
    erewrite bind_result; [|exact Hlist]. cbv beta.
    erewrite (bind_result (input PromptStart (Line answer))); [|reflexivity].
    cbv beta zeta. rewrite Hanswer. reflexivity. }
  split; [|split].
  - unfold main. erewrite bind_run; [|exact Hload]. cbv beta iota.
    erewrite bind_run; [|reflexivity].
    erewrite bind_run; [|exact Hlist].
    rewrite Hlen. reflexivity.
  - intros answer e Hanswer Hdir. rewrite Hgo by done. by apply bind_raises.
  - intros answer e ev_dir s2 Hanswer Hdir Hpass. rewrite Hgo by done.
    erewrite bind_result; [|exact Hdir]. by apply bind_raises.
Qed.

(** *** One archive file per host and day *)

Lemma list_of_append a b :
  list_ascii_of_string (a +:+ b) = list_ascii_of_string a ++ list_ascii_of_string b.
Proof.
  induction a as [|c a IH]; [done|].
  change (String c a +:+ b) with (String c (a +:+ b)). simpl. by rewrite IH.
Qed.

Lemma list_of_string_inj a b :
  list_ascii_of_string a = list_ascii_of_string b -> a = b.
Proof.
  intros H. rewrite <- (string_of_list_ascii_of_string a),
    <- (string_of_list_ascii_of_string b). by rewrite H.
Qed.

Lemma append_cancel_l a x y : a +:+ x = a +:+ y -> x = y.
Proof.
  induction a as [|c a IH]; [done|].
  change (String c a +:+ x) with (String c (a +:+ x)).
  change (String c a +:+ y) with (String c (a +:+ y)). intros [= H]. auto.
Qed.

(** Two digits for a number below a hundred, and the digits read back
    as the number. *)
Lemma pad2_reads n :
  n < 100 -> length (list_ascii_of_string (pad2 n)) = 2 /\ digits (pad2 n) = N.of_nat n.
Proof.
  intros Hn.
  assert (forallb (fun n => Nat.eqb (length (list_ascii_of_string (pad2 n))) 2
                            && N.eqb (digits (pad2 n)) (N.of_nat n)) (seq 0 100) = true) as Hall
    by (vm_compute; reflexivity).
  rewrite forallb_forall in Hall. specialize (Hall n).
  rewrite in_seq, andb_true_iff, Nat.eqb_eq, N.eqb_eq in Hall. apply Hall. lia.
Qed.

(** A year of four digits is written as it is, in four characters. *)
Lemma pad4_four_digits n :
  10 * 100 <= n < 100 * 100 ->
  pad4 n = pretty n /\ length (list_ascii_of_string (pad4 n)) = 4.
Proof.
  intros Hn.
  assert (pad4 n = pretty n) as Hpad.
  { unfold pad4.
    destruct (Nat.ltb_spec n 10); [lia|].
    destruct (Nat.ltb_spec n 100); [lia|].
    destruct (Nat.ltb_spec n 1000); [lia|]. reflexivity. }
  split; [exact Hpad|]. rewrite Hpad.
  unfold pretty, pretty_nat, pretty, pretty_N.
  set (x := N.of_nat n).
  assert (1000 <= x < 10000)%N as Hx by lia.
  assert (100 <= x / 10 < 1000)%N as H1.
  { split; [apply N.div_le_lower_bound | apply N.Div0.div_lt_upper_bound]; lia. }
  assert (10 <= x / 10 / 10 < 100)%N as H2.
  { split; [apply N.div_le_lower_bound | apply N.Div0.div_lt_upper_bound]; lia. }
  assert (1 <= x / 10 / 10 / 10 < 10)%N as H3.
  { split; [apply N.div_le_lower_bound | apply N.Div0.div_lt_upper_bound]; lia. }
  assert (x / 10 / 10 / 10 / 10 = 0)%N as H4 by (apply N.div_small; lia).
  destruct (decide (x = 0%N)); [lia|].
  rewrite (pretty_N_go_step x) by lia.
  rewrite (pretty_N_go_step (x / 10)) by lia.
  rewrite (pretty_N_go_step (x / 10 / 10)) by lia.
  rewrite (pretty_N_go_step (x / 10 / 10 / 10)) by lia.
  rewrite H4, pretty_N_go_0. reflexivity.
Qed.

Lemma strftime_Ymd_length t :
  real_date t -> length (list_ascii_of_string (strftime_Ymd t)) = 8.
Proof.
  intros (Hy & [_ Hm] & [_ Hd]). unfold strftime_Ymd.
  rewrite !list_of_append, !length_app.
  destruct (pad4_four_digits (year t) Hy) as [_ ->].
  destruct (pad2_reads (month t)) as [-> _]; [lia|].
  destruct (pad2_reads (day t)) as [-> _]; [lia|]. reflexivity.
Qed.

Lemma strftime_Ymd_inj t1 t2 :
  real_date t1 -> real_date t2 ->
  strftime_Ymd t1 = strftime_Ymd t2 -> same_day t1 t2.
Proof.
  intros (Hy1 & Hm1 & Hd1) (Hy2 & Hm2 & Hd2) Heq.
  apply (f_equal list_ascii_of_string) in Heq. unfold strftime_Ymd in Heq.
  rewrite !list_of_append in Heq.
  destruct (pad4_four_digits _ Hy1) as [Py1 Ly1].
  destruct (pad4_four_digits _ Hy2) as [Py2 Ly2].
  destruct (pad2_reads (month t1)) as [Lm1 Rm1]; [lia|].
  destruct (pad2_reads (month t2)) as [Lm2 Rm2]; [lia|].
  destruct (pad2_reads (day t1)) as [Ld1 Rd1]; [lia|].
  destruct (pad2_reads (day t2)) as [Ld2 Rd2]; [lia|].
  apply app_inj_1 in Heq as [Hy Heq]; [|congruence].
  apply app_inj_1 in Heq as [Hm Hd]; [|congruence].
  apply list_of_string_inj in Hy, Hm, Hd.
  rewrite Py1, Py2 in Hy. apply (inj pretty) in Hy.
  rewrite Hm in Rm1. rewrite Hd in Rd1.
  unfold same_day. lia.
Qed.

Lemma archive_filename_inj ip1 ip2 t1 t2 :
  real_date t1 -> real_date t2 ->
  archive_filename ip1 t1 = archive_filename ip2 t2 ->
  py_str ip1 = py_str ip2 /\ same_day t1 t2.
Proof.
  intros H1 H2 Heq. unfold archive_filename in Heq.
  apply (f_equal list_ascii_of_string) in Heq.
  rewrite !(list_of_append (py_str _)) in Heq.
  apply app_inj_2 in Heq as [Hip Heq].
  - split; [by apply list_of_string_inj|].
    apply list_of_string_inj in Heq.
    apply (append_cancel_l "_") in Heq.
    apply (f_equal list_ascii_of_string) in Heq. rewrite !list_of_append in Heq.
    apply app_inj_2 in Heq as [Heq _]; [|done].
    by apply strftime_Ymd_inj, list_of_string_inj.
  - rewrite !(list_of_append "_"), !list_of_append, !length_app.
    by rewrite !strftime_Ymd_length.
Qed.

Lemma startswith_sep_append a b :
  startswith_sep a = false -> a ≠ "" -> startswith_sep (a +:+ b) = false.
Proof. destruct a as [|c a]; [done|]. by intros. Qed.

Lemma os_path_join_relative a b :
  startswith_sep a = false -> startswith_sep b = false ->
  startswith_sep (os_path_join a b) = false.
Proof.
  intros Ha Hb. unfold os_path_join. rewrite Hb.
  destruct a as [|c a]; [done|].
  by destruct (String.eqb _ _ || endswith_sep _).
Qed.

Lemma os_path_join_inj a b1 b2 :
  startswith_sep a = false ->
  os_path_join a b1 = os_path_join a b2 -> b1 = b2.
Proof.
  intros Ha Heq.
  destruct (startswith_sep b1) eqn:H1, (startswith_sep b2) eqn:H2.
  - unfold os_path_join in Heq. by rewrite H1, H2 in Heq.
  - pose proof (os_path_join_relative a b2 Ha H2) as Hrel.
    rewrite <- Heq in Hrel. unfold os_path_join in Hrel. rewrite H1 in Hrel. congruence.
  - pose proof (os_path_join_relative a b1 Ha H1) as Hrel.
    rewrite Heq in Hrel. unfold os_path_join in Hrel. rewrite H2 in Hrel. congruence.
  - unfold os_path_join in Heq. rewrite H1, H2 in Heq.
    destruct (String.eqb a "" || endswith_sep a).
    + by apply append_cancel_l in Heq.
    + by apply append_cancel_l, append_cancel_l in Heq.
Qed.

(** [X12] The archive rotates by host and day: under a relative directory, as
    the two the program uses are, two writes go to one file exactly when
    their hosts print alike and their times fall on one calendar day,
    for dates of a year of four digits. A write of another day, or for
    another host, never lands in the file of this one. *)
Theorem archive_file_per_host_and_day
    (ip1 ip2 : pyval) (t1 t2 : datetime) (output_dir : string) :
  startswith_sep output_dir = false ->
  real_date t1 -> real_date t2 ->
  (os_path_join output_dir (archive_filename ip1 t1)
   = os_path_join output_dir (archive_filename ip2 t2)
   <-> py_str ip1 = py_str ip2 /\ same_day t1 t2).
Proof.
  intros Hdir H1 H2. split.
  - intros Heq. apply os_path_join_inj in Heq; [|done].
    by apply archive_filename_inj.
  - intros [Hip (Hy & Hm & Hd)].
    unfold archive_filename, strftime_Ymd. by rewrite Hip, Hy, Hm, Hd.
Qed.

(** *** Where a pass ends early *)

(** [X2] The pass stops at the device that ends it, wherever in the list it
    stands: a dict without [ip] raises [KeyError] before anything is
    printed for it, and an interrupt while the session is opened leaves
    [get_switch_config] after the request, with no verdict. The devices
    that remain are not attempted. *)
Theorem pass_stops_at_the_device_that_ends_it
    (device : loc) (rest : list loc) (dv : dict)
    (output_dir : string) (ic : option string) (count : nat) (s : state) :
  heap s !! device = Some dv ->
  (dv !! "ip" = None ->
   for_devices output_dir ic (device :: rest) count s = (Raise (KeyError "ip"), [], s)) /\
  (forall ip w,
     dv !! "ip" = Some ip ->
     ConnectHandler (delete "description" dv) (world s) = (Raise KeyboardInterrupt, w) ->
     for_devices output_dir ic (device :: rest) count s
       = (Raise KeyboardInterrupt,
          [ Print (MsgConnecting ip (default (VStr "") (dv !! "description")));
            Print (MsgParams dv);
            Call (CallConnectHandler (delete "description" dv)) ],
          with_world (after_copy s dv) w)).
Proof.
  intros Hd. split.
  - intros Hip. simpl for_devices.
    unfold process_device, dict_getitem, bind, deref, raise.
    rewrite Hd. simpl. by rewrite Hip.
  - intros ip w Hip Hconn.
    assert (process_device output_dir ic count device s
            = (Raise KeyboardInterrupt,
               [ Print (MsgConnecting ip (default (VStr "") (dv !! "description")));
                 Print (MsgParams dv);
                 Call (CallConnectHandler (delete "description" dv)) ],
               with_world (after_copy s dv) w)) as Hdevice.
    { unfold process_device.
      erewrite bind_run; [|by eapply dict_getitem_run].
      erewrite bind_run; [|by eapply dict_get_run].
      erewrite bind_run; [|reflexivity].
      unfold bind at 1.
      rewrite (get_switch_config_unopened _ _ dv KeyboardInterrupt w) by done.
      reflexivity. }
    simpl for_devices. unfold bind at 1. by rewrite Hdevice.
Qed.

End Facts.


(** ** The laboratory *)

Lemma run_eta `{C : Collaborators} {A} (m : M A) (s : state) (a : A) :
  (m s).1.1 = Ok a -> m s = (Ok a, (m s).1.2, (m s).2).
Proof. destruct (m s) as [[r ev] s']. simpl. by intros ->. Qed.

Lemma lab_fails_as_devices : device_failures_only Lab.lab.
Proof.
  unfold device_failures_only. simpl. repeat split.
  - intros kw w e. unfold Lab.lab_connect.
    repeat case_decide; simpl; intros [= <-]; done.
  - by intros c w e ?.
  - intros c cmd w e. unfold Lab.lab_send.
    repeat case_decide; simpl; by intros ?.
  - by intros c w e ?.
  - intros o w e. unfold Lab.lab_fault.
    destruct o; simpl; try (by intros ?).
    destruct (Lab.disk_full w); simpl; intros [= <-]; done.
Qed.

Lemma lab_has_host full (l : loc) ip device_type :
  heap (Lab.start full) !! l = Some (Lab.device ip device_type) ->
  has_host (Lab.start full) l.
Proof.
  intros Hl. exists (Lab.device ip device_type). split; [exact Hl|].
  exists (VStr ip). unfold Lab.device.
  rewrite lookup_insert_eq. reflexivity.
Qed.

Lemma lab_has_hosts full : Forall (has_host (Lab.start full)) [0; 1; 2].
Proof.
  repeat (apply Forall_cons; split); [| | | by apply Forall_nil].
  - apply (lab_has_host full 0 "10.0.0.1" "cisco_ios"). reflexivity.
  - apply (lab_has_host full 1 "10.0.0.7" "huawei"). reflexivity.
  - apply (lab_has_host full 2 "10.0.0.3" "made_up_os"). reflexivity.
Qed.

(** A pass over a device that times out and one that answers: a tally
    of one, both devices shown, in the order given. *)
Example pass_with_one_timeout :
  let run := process_connection [0; 1] normal_path None (Lab.start false) in
  run.1.1 = Ok 1 /\
  marks run.1.2 =
    [ Attempt (VStr "10.0.0.1");
      Session (delete "description" (Lab.device "10.0.0.1" "cisco_ios"));
      Verdict false;
      Attempt (VStr "10.0.0.7");
      Session (delete "description" (Lab.device "10.0.0.7" "huawei"));
      Verdict true ] /\
  errors run.1.2 = [Timeout] /\
  files run.2 !! "config_storage/normal/10.0.0.7_20240309.txt" =
    Some (archive_block Lab.noon (VStr "display current-configuration")
            ("hostname 10.0.0.7" +:+ nl +:+ "! display current-configuration")).
Proof. repeat split; vm_compute; reflexivity. Qed.

(** The whole program on the laboratory's sheet: a first pass, one ad-hoc
    command confirmed with [Y], then [exit]. Each pass archives the one
    device that answers, the first under [normal], the second under
    [other]. *)
Example main_session :
  let run := main [Line "y"; Line "show version"; Line "Y"; Line "exit"]
               (Lab.boot (Ok Lab.sheet)) in
  run.1.1 = Ok tt /\
  List.filter (fun e => match e with Print (MsgTally _ _) => true | _ => false end)
    run.1.2 = [Print (MsgTally 1 2); Print (MsgTally 1 2)] /\
  (map fst (map_to_list (files run.2))) ≡ₚ
    [ "config_storage/normal/10.0.0.7_20240309.txt";
      "config_storage/other/10.0.0.7_20240309.txt" ].
Proof.
  repeat split; try (vm_compute; reflexivity).
  apply (bool_decide_unpack _). vm_compute. exact I.
Qed.

(** A cell left empty in the [port] column stays [nan] in the device. *)
Example empty_port_cell_stays_nan :
  let run := load_devices_from_excel_conf "switch_ssh_conf.xlsx"
               (Lab.boot (Ok Lab.sheet_with_empty_port)) in
  run.1.1 = Ok [0] /\
  (heap run.2 !! 0) ≫= (fun d => d !! "port") = Some VNaN.
Proof. split; vm_compute; reflexivity. Qed.

Lemma process_connection_one_outcome_per_device_witness :
  exists outs ev s',
    process_connection [0; 1; 2] normal_path None (Lab.start false)
      = (Ok (length (List.filter succeeded outs)), ev, s') /\
    Forall2 (outcome_of (Lab.start false)) [0; 1; 2] outs /\
    marks ev = concat (map shown outs).
Proof.
  apply (process_connection_one_outcome_per_device (C := Lab.lab)).
  - apply lab_fails_as_devices.
  - apply lab_has_hosts.
Defined.

Lemma timeout_skips_session_and_archive_witness :
  exists ev s',
    process_device normal_path None 0 0 (Lab.start false) = (Ok 0, ev, s') /\
    List.filter session_call ev = [] /\
    List.filter archive_call ev = [] /\
    files s' = files (Lab.start false).
Proof.
  destruct (timeout_skips_session_and_archive (C := Lab.lab)
              0 [1; 2] (Lab.device "10.0.0.1" "cisco_ios") (VStr "10.0.0.1")
              normal_path None 0 (Lab.start false) (world (Lab.start false)))
    as (_ & Hdevice & Hsession & Harchive & Hfiles & _).
  - reflexivity.
  - vm_compute. reflexivity.
  - vm_compute. reflexivity.
  - eexists _, _. split; [exact Hdevice|]. split; [exact Hsession|].
    split; [exact Harchive | exact Hfiles].
Defined.

Lemma collection_outcome_exclusive_witness :
  exists command output ev s',
    get_switch_config 1 None (Lab.start false) = (Ok (command, output), ev, s') /\
    ((exists cmd out, command = VStr cmd /\ output = VStr out /\ errors ev = []) \/
     (command = VNone /\ output = VNone /\ exists kind, errors ev = [kind])).
Proof.
  apply (collection_outcome_exclusive (C := Lab.lab)
           1 (Lab.device "10.0.0.7" "huawei") None (Lab.start false)).
  - apply lab_fails_as_devices.
  - reflexivity.
  - exists (VStr "10.0.0.7"). vm_compute. reflexivity.
Defined.

Lemma collection_keeps_profile_witness :
  exists r ev s',
    get_switch_config 1 None (Lab.start false)
      = (r, Print (MsgParams (Lab.device "10.0.0.7" "huawei"))
              :: Call (CallConnectHandler
                         (delete "description" (Lab.device "10.0.0.7" "huawei"))) :: ev,
         s') /\
    heap s' !! 1 = Some (Lab.device "10.0.0.7" "huawei") /\
    (forall l : loc, is_Some (heap (Lab.start false) !! l) ->
                     heap s' !! l = heap (Lab.start false) !! l) /\
    (exists copy : loc,
        heap (Lab.start false) !! copy = None /\
        heap s' !! copy = Some (delete "description" (Lab.device "10.0.0.7" "huawei"))).
Proof.
  apply (collection_keeps_profile (C := Lab.lab)
           1 (Lab.device "10.0.0.7" "huawei") None (Lab.start false)).
  reflexivity.
Defined.

Lemma archive_accumulates_per_host_and_day_witness :
  let p := "config_storage/normal/10.0.0.7_20240309.txt" in
  let t2 := {| year := 2024; month := 3; day := 9;
               hour := 12; minute := 0; second := 1 |} in
  exists ev1 s1 ev2 s2,
    save_config_to_file (VStr "10.0.0.7") (VStr "show version") (VStr "A")
      normal_path (Lab.start false) = (Ok (Some p), ev1, s1) /\
    save_config_to_file (VStr "10.0.0.7") (VStr "show clock") (VStr "B")
      normal_path s1 = (Ok (Some p), ev2, s2) /\
    files s1 !! p = Some (archive_block Lab.noon (VStr "show version") "A") /\
    files s2 !! p =
      Some (archive_block Lab.noon (VStr "show version") "A"
            +:+ archive_block t2 (VStr "show clock") "B").
Proof.
  intros p t2.
  destruct (archive_accumulates_per_host_and_day (C := Lab.lab)
              (VStr "10.0.0.7") (VStr "show version") (VStr "show clock") "A" "B"
              normal_path (Lab.start false) Lab.noon t2
              (Lab.lab_now (world (Lab.start false))).2
              (Lab.lab_now (world (Lab.start false))).2
              (Lab.lab_now (Lab.lab_now (world (Lab.start false))).2).2
              (Lab.lab_now (Lab.lab_now (world (Lab.start false))).2).2)
    as (_ & ev1 & s1 & ev2 & s2 & Hone & Htwo & Hfile1 & Hfile2 & _).
  - repeat split.
  - apply (bool_decide_unpack _). vm_compute. exact I.
  - reflexivity.
  - reflexivity.
  - reflexivity.
  - reflexivity.
  - exists ev1, s1, ev2, s2. split; [exact Hone|]. split; [exact Htwo|].
    split; [exact Hfile1 | exact Hfile2].
Defined.

Lemma archive_failure_keeps_success_witness :
  exists ev s',
    process_device normal_path None 0 1 (Lab.start true) = (Ok 1, ev, s') /\
    files s' = files (Lab.start true).
Proof.
  pose (collected := get_switch_config 1 None (Lab.start true)).
  pose (w1 := (Lab.lab_now (world collected.2)).2).
  destruct (archive_failure_keeps_success (C := Lab.lab)
              1 [2] (Lab.device "10.0.0.7" "huawei") (VStr "10.0.0.7")
              (VStr "display current-configuration")
              (VStr ("hostname 10.0.0.7" +:+ nl +:+ "! display current-configuration"))
              normal_path None 0 (Lab.start true) collected.2 collected.1.2
              Lab.noon w1 w1 (OtherException "No space left on device"))
    as (_ & Hdevice & _).
  - reflexivity.
  - vm_compute. reflexivity.
  - apply run_eta. vm_compute. reflexivity.
  - reflexivity.
  - vm_compute. reflexivity.
  - vm_compute. reflexivity.
  - reflexivity.
  - eexists _, _. split; [exact Hdevice|]. vm_compute. reflexivity.
Defined.

Lemma empty_output_is_failure_and_empty_command_is_default_witness :
  exists ev s',
    process_device normal_path None 0 2 (Lab.start false) = (Ok 0, ev, s') /\
    List.filter archive_call ev = [] /\
    files s' = files (Lab.start false).
Proof.
  pose (collected := get_switch_config 2 None (Lab.start false)).
  destruct (empty_output_is_failure_and_empty_command_is_default (C := Lab.lab)
              2 (Lab.device "10.0.0.3" "made_up_os") (VStr "10.0.0.3")
              (VStr "show running-config") normal_path None 0 (Lab.start false)
              collected.2 collected.1.2)
    as ((Hdevice & Harchive & Hfiles) & _).
  - reflexivity.
  - vm_compute. reflexivity.
  - apply run_eta. vm_compute. reflexivity.
  - eexists _, _. split; [exact Hdevice|]. split; [exact Harchive | exact Hfiles].
Defined.

Lemma get_config_command_table_or_fallback_witness :
  get_config_command (VStr "huawei") = "display current-configuration" /\
  get_config_command (VStr "cisco_iosx") = "show running-config" /\
  get_config_command VNaN = "show running-config".
Proof.
  destruct get_config_command_table_or_fallback as (Htable & Hfallback & _).
  split; [|split].
  - apply Htable. apply list_elem_of_In. simpl. tauto.
  - apply Hfallback. intros k Hk Heq. injection Heq as <-.
    apply list_elem_of_In in Hk. simpl in Hk.
    repeat (destruct Hk as [Hk|Hk]; [discriminate Hk|]). exact Hk.
  - apply Hfallback. intros k _ Heq. discriminate Heq.
Defined.

Lemma interactive_loop_transitions_witness :
  loop_step [0; 1; 2] AwaitingCommand (Line "show version") (Lab.start false)
    = (Ok (AwaitingConfirmation "show version"), [Call (CallInput PromptCommand)],
       Lab.start false) /\
  loop_step [0; 1; 2] (AwaitingConfirmation "show version") (Line "no") (Lab.start false)
    = (Ok Stopped, [Call (CallInput PromptProceed); Print MsgCancelled], Lab.start false) /\
  exists ev s1,
    loop_step [0; 1; 2] (AwaitingConfirmation "show version") (Line "Y") (Lab.start false)
      = (Ok AwaitingCommand, ev, s1).
Proof.
  destruct (interactive_loop_transitions (C := Lab.lab)
              [0; 1; 2] "show version" "no" [] (Lab.start false))
    as (_ & Hcommand & Hno & _).
  destruct (interactive_loop_transitions (C := Lab.lab)
              [0; 1; 2] "show version" "Y" [] (Lab.start false))
    as (_ & _ & _ & Hyes & _).
  split; [apply Hcommand; discriminate|].
  split; [apply Hno; vm_compute; discriminate|].
  eexists _, _. eapply Hyes.
  - reflexivity.
  - apply run_eta. vm_compute. reflexivity.
  - apply (run_eta _ _ 1). vm_compute. reflexivity.
Defined.

(** [C9] A sheet without a [port] column is rejected, not completed with
    port 22: the loader logs the column as missing and returns no device,
    and [main] announces that no device was loaded and runs no pass. The
    same sheet with the column loads its two devices. *)
Theorem inventory_without_port_is_rejected :
  let s := Lab.boot (Ok Lab.sheet_without_port) in
  (load_devices_from_excel_conf "switch_ssh_conf.xlsx" s).1
  = (Ok [],
     [ Call (CallReadExcel "switch_ssh_conf.xlsx");
       LogError (MsgMissingColumns ["port"]) ]) /\
  (main [Line "y"; Line "exit"] s).1
  = (Ok tt,
     [ Call (CallReadExcel "switch_ssh_conf.xlsx");
       LogError (MsgMissingColumns ["port"]);
       Print MsgNoDevices ]) /\
  (load_devices_from_excel_conf "switch_ssh_conf.xlsx" (Lab.boot (Ok Lab.sheet))).1.1
  = Ok [0; 1].
Proof.
  split; [|split]; vm_compute; reflexivity.
Qed.

(** ** The scripted collaborator at work *)

Lemma run_eta_result `{C : Collaborators} {A} (m : M A) (s : state) (r : result A) :
  (m s).1.1 = r -> m s = (r, (m s).1.2, (m s).2).
Proof. destruct (m s) as [[r' ev] s']. simpl. by intros ->. Qed.

Lemma interactive_loop_contains_interrupts_witness :
  let s := Desk.bench Desk.interrupted in
  loop_step (C := Desk.desk) [0; 1] (AwaitingConfirmation "show version") (Line "y") s
    = (Ok Stopped,
       [Call (CallInput PromptProceed); Print (MsgExecuting "show version")]
         ++ (ensure_dir other_dir s).1.2
         ++ (process_connection [0; 1] other_dir (Some "show version")
               (ensure_dir other_dir s).2).1.2
         ++ [Print MsgInterrupted],
       (process_connection [0; 1] other_dir (Some "show version")
          (ensure_dir other_dir s).2).2).
Proof.
  intros s.
  destruct (interactive_loop_contains_interrupts (C := Desk.desk)
              [0; 1] "show version" "y" [] s (ensure_dir other_dir s).2
              (process_connection [0; 1] other_dir (Some "show version")
                 (ensure_dir other_dir s).2).2
              (ensure_dir other_dir s).1.2
              (process_connection [0; 1] other_dir (Some "show version")
                 (ensure_dir other_dir s).2).1.2)
    as (_ & _ & _ & Hpass).
  apply Hpass.
  - reflexivity.
  - apply run_eta. vm_compute. reflexivity.
  - apply run_eta_result. vm_compute. reflexivity.
Defined.

Lemma archive_only_grows_witness :
  let p := "config_storage/normal/10.1.1.1_20240309.txt" in
  exists x,
    files (process_connection (C := Desk.desk) [0; 1] normal_path None
             (Desk.bench Desk.calm_day)).2 !! p
    = Some (("# earlier" +:+ nl) +:+ x).
Proof.
  intros p.
  destruct (archive_only_grows (C := Desk.desk)
              [] [0; 1] VNone VNone VNone normal_path None
              (Desk.bench Desk.calm_day) p ("# earlier" +:+ nl))
    as (_ & _ & Hpass & _).
  - reflexivity.
  - exact Hpass.
Defined.

Lemma device_dicts_never_change_witness :
  heap (process_connection (C := Desk.desk) [0; 1; 3] normal_path None
          (Desk.bench Desk.calm_day)).2 !! 1 = Some Desk.switch /\
  heap (main (C := Desk.desk) [Line "y"; Line "exit"] (Desk.bench Desk.calm_day)).2 !! 1
    = Some Desk.switch.
Proof.
  destruct (device_dicts_never_change (C := Desk.desk)
              [Line "y"; Line "exit"] [0; 1; 3] normal_path None
              (Desk.bench Desk.calm_day) 1 Desk.switch)
    as (Hpass & _ & Hmain).
  - reflexivity.
  - split; [exact Hpass | exact Hmain].
Defined.


Lemma connect_failure_is_filed_by_type_witness :
  (get_switch_config (C := Desk.desk) 1 None (Desk.bench Desk.no_answer)).1
  = (Ok (VNone, VNone),
     [ Print (MsgParams Desk.switch);
       Call (CallConnectHandler (delete "description" Desk.switch));
       Print (MsgTimeout (VStr "10.1.1.2"));
       LogError (MsgTimeout (VStr "10.1.1.2")) ]).
Proof.
  destruct (connect_failure_is_filed_by_type (C := Desk.desk)
              1 Desk.switch (VStr "10.1.1.2") None (Desk.bench Desk.no_answer)
              NetMikoTimeoutException Desk.no_answer)
    as [Hrun _].
  - reflexivity.
  - reflexivity.
  - reflexivity.
  - reflexivity.
  - rewrite Hrun. reflexivity.
Defined.

Lemma failed_escalation_sends_nothing_witness :
  calls (get_switch_config (C := Desk.desk) 0 (Some "show version")
           (Desk.bench Desk.locked)).1.2
  = [CallConnectHandler Desk.router; CallEnable; CallDisconnect].
Proof.
  rewrite (failed_escalation_sends_nothing (C := Desk.desk)
             0 Desk.router (VStr "10.1.1.1") (Some "show version") tt
             (Desk.bench Desk.locked) (OtherException "enable failed")
             Desk.locked Desk.locked Desk.locked);
    [|reflexivity..].
  vm_compute. reflexivity.
Defined.

Lemma command_failure_is_filed_by_type_witness :
  (get_switch_config (C := Desk.desk) 0 None (Desk.bench Desk.mute)).1
  = (Ok (VNone, VNone),
     [ Print (MsgParams Desk.router);
       Call (CallConnectHandler (delete "description" Desk.router));
       Call CallEnable;
       LogInfo (MsgExecute "display current-configuration");
       Call (CallSendCommand "display current-configuration");
       Call CallDisconnect;
       Print (MsgTimeout (VStr "10.1.1.1"));
       LogError (MsgTimeout (VStr "10.1.1.1")) ]).
Proof.
  destruct (command_failure_is_filed_by_type (C := Desk.desk)
              0 Desk.router (VStr "10.1.1.1") None "display current-configuration" tt
              (Desk.bench Desk.mute) NetMikoTimeoutException
              Desk.mute Desk.mute Desk.mute Desk.mute)
    as [Hrun _].
  - reflexivity.
  - reflexivity.
  - reflexivity.
  - right. split; reflexivity.
  - reflexivity.
  - reflexivity.
  - reflexivity.
  - reflexivity.
  - rewrite Hrun. reflexivity.
Defined.

Lemma missing_device_type_is_a_failure_witness :
  (get_switch_config (C := Desk.desk) 3 (Some "") (Desk.bench Desk.calm_day)).1
  = (Ok (VNone, VNone),
     [ Print (MsgParams Desk.untyped);
       Call (CallConnectHandler (delete "description" Desk.untyped));
       Call CallDisconnect;
       Print (MsgFetchFailed (VStr "10.1.1.3") (KeyError "device_type"));
       LogError (MsgFetchFailed (VStr "10.1.1.3") (KeyError "device_type")) ]).
Proof.
  rewrite (missing_device_type_is_a_failure (C := Desk.desk)
             3 Desk.untyped (VStr "10.1.1.3") (Some "") tt
             (Desk.bench Desk.calm_day) Desk.calm_day Desk.calm_day Desk.calm_day).
  - reflexivity.
  - reflexivity.
  - reflexivity.
  - reflexivity.
  - by right.
  - reflexivity.
  - left. split; reflexivity.
  - reflexivity.
Defined.

Lemma collection_returns_command_and_output_witness :
  (get_switch_config (C := Desk.desk) 1 (Some "show version")
     (Desk.bench Desk.calm_day)).1.1
  = Ok (VStr "show version", VStr "hostname sw").
Proof.
  destruct (collection_returns_command_and_output (C := Desk.desk)
              1 Desk.switch (VStr "10.1.1.2") (Some "show version")
              "show version" "hostname sw" tt
              (Desk.bench Desk.calm_day)
              Desk.calm_day Desk.calm_day Desk.calm_day Desk.calm_day)
    as [Hrun _].
  - reflexivity.
  - reflexivity.
  - reflexivity.
  - right. split; reflexivity.
  - reflexivity.
  - reflexivity.
  - reflexivity.
  - rewrite Hrun. reflexivity.
Defined.

Lemma unreadable_workbook_gives_no_device_witness :
  main (C := Desk.desk) [Line "y"] (Desk.bench Desk.unreadable)
  = (Ok tt,
     [ Call (CallReadExcel "switch_ssh_conf.xlsx");
       LogError (MsgReadFailed (OtherException "No such file"));
       Print MsgNoDevices ],
     Desk.bench Desk.unreadable).
Proof.
  destruct (unreadable_workbook_gives_no_device (C := Desk.desk)
              "switch_ssh_conf.xlsx" [Line "y"] (Desk.bench Desk.unreadable)
              (OtherException "No such file") Desk.unreadable)
    as [_ Hmain].
  - reflexivity.
  - reflexivity.
  - apply Hmain. reflexivity.
Defined.

Lemma missing_column_rejects_sheet_witness :
  load_devices_from_excel_conf "switch_ssh_conf.xlsx" (Lab.boot (Ok Lab.sheet_without_port))
  = (Ok [],
     [ Call (CallReadExcel "switch_ssh_conf.xlsx");
       LogError (MsgMissingColumns (missing_columns Lab.sheet_without_port)) ],
     Lab.boot (Ok Lab.sheet_without_port)).
Proof.
  destruct (missing_column_rejects_sheet (C := Lab.lab)
              "switch_ssh_conf.xlsx" "port" Lab.sheet_without_port
              (Lab.boot (Ok Lab.sheet_without_port))
              (world (Lab.boot (Ok Lab.sheet_without_port))))
    as [Hrun _].
  - reflexivity.
  - apply (bool_decide_unpack _). vm_compute. exact I.
  - apply (bool_decide_unpack _). vm_compute. exact I.
  - exact Hrun.
Defined.

Lemma lab_sheet_complete : frame_complete Lab.sheet.
Proof. repeat constructor. Qed.

Lemma loader_returns_rows_with_defaults_witness :
  exists devices s',
    load_devices_from_excel_conf "switch_ssh_conf.xlsx" (Lab.boot (Ok Lab.sheet))
      = (Ok devices,
         [ Call (CallReadExcel "switch_ssh_conf.xlsx");
           LogInfo (MsgLoaded "switch_ssh_conf.xlsx" 2) ], s') /\
    NoDup devices /\
    Forall2 (fun l r => heap s' !! l = Some (record_of Lab.sheet r))
      devices (rows Lab.sheet).
Proof.
  destruct (loader_returns_rows_with_defaults (C := Lab.lab)
              "switch_ssh_conf.xlsx" Lab.sheet (Lab.boot (Ok Lab.sheet))
              (world (Lab.boot (Ok Lab.sheet))))
    as (devices & s' & Hrun & Hnodup & Hall & _).
  - reflexivity.
  - apply lab_sheet_complete.
  - reflexivity.
  - exists devices, s'. split; [exact Hrun|]. split; [exact Hnodup|].
    eapply Forall2_impl; [exact Hall|]. intros l r Hl. apply Hl.
Defined.

Lemma declined_run_only_lists_witness :
  exists s1,
    main [Line "n"; Line "show version"] (Lab.boot (Ok Lab.sheet))
      = (Ok tt,
         [ Call (CallReadExcel "switch_ssh_conf.xlsx");
           LogInfo (MsgLoaded "switch_ssh_conf.xlsx" 2);
           Print (MsgLoadedCount 2);
           Print (MsgDeviceLine 1 (VStr "10.0.0.1") (VStr "cisco_ios") " (core)");
           Print (MsgDeviceLine 2 (VStr "10.0.0.7") (VStr "huawei") " (edge)");
           Call (CallInput PromptStart);
           Print MsgCancelled ],
         s1) /\
    files s1 = ∅ /\ dirs s1 = {[ "config_storage" ]}.
Proof.
  apply (declined_run_only_lists (C := Lab.lab)
           Lab.sheet "n" [Line "show version"] (Lab.boot (Ok Lab.sheet))
           (world (Lab.boot (Ok Lab.sheet)))).
  - reflexivity.
  - apply lab_sheet_complete.
  - reflexivity.
  - discriminate.
  - discriminate.
  - discriminate.
Defined.

Lemma first_prompt_and_first_pass_are_unguarded_witness :
  (main [CtrlC] (Lab.boot (Ok Lab.sheet))).1.1 = Raise KeyboardInterrupt.
Proof.
  destruct (first_prompt_and_first_pass_are_unguarded (C := Lab.lab)
              Lab.sheet [] (Lab.boot (Ok Lab.sheet)) (world (Lab.boot (Ok Lab.sheet))))
    as (devices & ev & s1 & _ & Hmain & _).
  - reflexivity.
  - apply lab_sheet_complete.
  - reflexivity.
  - discriminate.
  - rewrite Hmain. reflexivity.
Defined.

Lemma archive_file_per_host_and_day_witness :
  let next_day := {| year := 2024; month := 3; day := 10;
                     hour := 12; minute := 0; second := 0 |} in
  os_path_join normal_path (archive_filename (VStr "10.0.0.7") Lab.noon)
  ≠ os_path_join normal_path (archive_filename (VStr "10.0.0.7") next_day).
Proof.
  intros next_day Heq.
  apply (archive_file_per_host_and_day (VStr "10.0.0.7") (VStr "10.0.0.7")
           Lab.noon next_day normal_path) in Heq.
  - destruct Heq as (_ & _ & _ & Hday). discriminate Hday.
  - reflexivity.
  - unfold real_date. simpl. lia.
  - unfold real_date. simpl. lia.
Defined.

Lemma pass_stops_at_the_device_that_ends_it_witness :
  for_devices (C := Desk.desk) normal_path None [2; 0; 1] 0 (Desk.bench Desk.calm_day)
    = (Raise (KeyError "ip"), [], Desk.bench Desk.calm_day) /\
  (for_devices (C := Desk.desk) normal_path None [0; 1] 0 (Desk.bench Desk.interrupted)).1
    = (Raise KeyboardInterrupt,
       [ Print (MsgConnecting (VStr "10.1.1.1") (VStr ""));
         Print (MsgParams Desk.router);
         Call (CallConnectHandler (delete "description" Desk.router)) ]).
Proof.
  destruct (pass_stops_at_the_device_that_ends_it (C := Desk.desk)
              2 [0; 1] Desk.stray normal_path None 0 (Desk.bench Desk.calm_day))
    as [Hnameless _]; [reflexivity|].
  destruct (pass_stops_at_the_device_that_ends_it (C := Desk.desk)
              0 [1] Desk.router normal_path None 0 (Desk.bench Desk.interrupted))
    as [_ Hinterrupt]; [reflexivity|].
  split.
  - apply Hnameless. reflexivity.
  - rewrite (Hinterrupt (VStr "10.1.1.1") Desk.interrupted); reflexivity.
Defined.
